(** * ConstructFlow: the blueprint annotation canvas

    A shallow embedding of the interaction core of the ConstructFlow
    blueprint page: the [BlueprintCanvas] React component (projection of
    pointer coordinates to natural image pixels, multi-point drawing with
    undo and redo, drag-to-reposition) and the part of its owning page
    [BlueprintViewer] that the canvas talks to (the annotation list, the
    active and the selected annotation).

    Conventions of the embedding.

    - A JavaScript number is an element of a type [num] that offers the
      four arithmetic operations the handlers use.  The handlers are
      written once over this interface, and what is proved of them for
      every [num] holds of the binary64 numbers of the engine ([float]),
      the instance every sample session is run on.
    - An event handler is a function from the props and state snapshot
      of the current render to the ordered list of calls it makes: state
      setters, writes to [dragRef.current] and callbacks of the owning
      page.  Updater functions are applied to the snapshot (React flushes
      the state between two discrete events, and no handler queues two
      updaters for the same state variable).
    - An updater function is run once (production React; no StrictMode
      double invocation). *)

From Stdlib Require Import List String Bool Arith Lia ZArith Floats.
Import ListNotations.
From Stdlib Require Import Permutation NArith DecimalString DecimalN.

(** ** Numbers *)

(** The operations of a JavaScript number that the canvas uses: the
    literal [0], [+], [-], [*], [/], and its truthiness (as in
    [!img.naturalWidth]). *)
Class Num (num : Type) : Type := {
  zero : num;
  add : num -> num -> num;
  sub : num -> num -> num;
  mul : num -> num -> num;
  div : num -> num -> num;
  truthy : num -> bool
}.

Declare Scope js_scope.
Delimit Scope js_scope with js.
Notation "a + b" := (add a b) : js_scope.
Notation "a - b" := (sub a b) : js_scope.
Notation "a * b" := (mul a b) : js_scope.
Notation "a / b" := (div a b) : js_scope.

(** What the engine computes: IEEE 754 binary64.  A number is falsy when
    it is [0], [-0] or [NaN].  A decimal literal such as [22.6] stands for
    the nearest binary64 number, as it does in the engine. *)
Set Warnings "-inexact-float".

#[export] Instance Num_float : Num float := {|
  zero := 0%float;
  add := PrimFloat.add;
  sub := PrimFloat.sub;
  mul := PrimFloat.mul;
  div := PrimFloat.div;
  truthy := fun f => negb (PrimFloat.eqb f 0%float || negb (PrimFloat.eqb f f))
|}.

(** ** Data model *)

(** [{ x, y }]: a point, in natural image pixels when stored in a path and
    in client pixels when it records a pointer position. *)
Record Point (num : Type) : Type := { x : num; y : num }.
Arguments x {num} _.
Arguments y {num} _.

(** [{ left, top, width, height }]: a bounding rectangle. *)
Record Rect (num : Type) : Type :=
  { left : num; top : num; width : num; height : num }.
Arguments left {num} _.
Arguments top {num} _.
Arguments width {num} _.
Arguments height {num} _.

(** [{ w, h }]: the natural size of the image. *)
Record Size (num : Type) : Type := { w : num; h : num }.
Arguments w {num} _.
Arguments h {num} _.

(** An annotation object of the page's [objects] list. *)
Record Obj (num : Type) : Type := {
  id : string;
  type : string;
  pathPoints : list (Point num);
  assignedTo : option string;
  assignedToName : option string;
  completed : bool;
  drawing : bool
}.
Arguments id {num} _.
Arguments type {num} _.
Arguments pathPoints {num} _.
Arguments assignedTo {num} _.
Arguments assignedToName {num} _.
Arguments completed {num} _.
Arguments drawing {num} _.

(** The fields of a mouse event and of a keyboard event the handlers read. *)
Record MouseEvent (num : Type) : Type := { clientX : num; clientY : num }.
Arguments clientX {num} _.
Arguments clientY {num} _.

Record KeyEvent : Type := { ctrlKey : bool; shiftKey : bool; key : string }.

(** The image element as [measureImage] reads it. *)
Record ImgEl (num : Type) : Type := {
  imgBoundingRect : Rect num;
  naturalWidth : num;
  naturalHeight : num
}.
Arguments imgBoundingRect {num} _.
Arguments naturalWidth {num} _.
Arguments naturalHeight {num} _.

(** The layout the handlers read from the document: the bounding rectangle
    of [containerRef.current] and the element [imgRef.current], each [None]
    when the ref is [null]. *)
Record Dom (num : Type) : Type := {
  containerRect : option (Rect num);
  imgEl : option (ImgEl num)
}.
Arguments containerRect {num} _.
Arguments imgEl {num} _.

(** Truthiness of a string-or-null value such as [activeObjectId]: [null]
    and the empty string are falsy.  The result is the string itself when
    it is truthy. *)
Definition truthyId (v : option string) : option string :=
  match v with
  | Some s => if String.eqb s EmptyString then None else Some s
  | None => None
  end.

(** [a.slice(0, -1)] on an array. *)
Definition slice_0_m1 {A : Type} (a : list A) : list A := removelast a.

(** [a[a.length - 1]]. *)
Definition lastOf {A : Type} (a : list A) : option A :=
  nth_error a (List.length a - 1).



(** Whether a string has the character [-] (code 45). *)
Fixpoint hasDash (s : string) : bool :=
  match s with
  | EmptyString => false
  | String c s' => Ascii.eqb c (Ascii.ascii_of_nat 45) || hasDash s'
  end.

(** The decimal digits of a non-negative integer, as a template literal
    renders an integer number below 1e21. *)
Definition decimal (n : N) : string :=
  NilEmpty.string_of_uint (N.to_uint n).

(** An integer in a template literal: its digits, after a minus sign when
    it is negative.  This is what [`${t}`] gives for an integral number of
    magnitude below 1e21, and so for every time value. *)
Definition decimalZ (z : Z) : string :=
  if (z <? 0)%Z then String.append "-" (decimal (Z.abs_N z))
  else decimal (Z.abs_N z).

(** ** The canvas component *)

Module BlueprintCanvas.

(** The props of the component.  A callback prop is recorded by whether
    the owning page supplies it ([undefined] otherwise); what the callback
    does belongs to the page. *)
Record Props (num : Type) : Type := {
  imageUrl : option string;
  objects : list (Obj num);
  activeObjectId : option string;
  onPathUpdate : bool;
  onFinishDrawing : bool;
  onObjectSelected : bool;
  selectedObjectId : option string;
  isWorker : bool
}.
Arguments imageUrl {num} _.
Arguments objects {num} _.
Arguments activeObjectId {num} _.
Arguments onPathUpdate {num} _.
Arguments onFinishDrawing {num} _.
Arguments onObjectSelected {num} _.
Arguments selectedObjectId {num} _.
Arguments isWorker {num} _.

(** [dragRef.current] while a drag session is open.  The component assigns
    the three fields together, all set (in [handlePathMouseDown]) or all
    [null] (initially and in [handleDragEnd]); the closed session is the
    [None] of [dragRef] below. *)
Record DragSession (num : Type) : Type := {
  startClient : Point num;
  startPoints : list (Point num);
  objId : string
}.
Arguments startClient {num} _.
Arguments startPoints {num} _.
Arguments objId {num} _.

(** The state hooks and [dragRef] of the component. *)
Record State (num : Type) : Type := {
  currentPoints : list (Point num);
  redoStack : list (Point num);
  mousePos : option (Point num);
  dragging : bool;
  dragRef : option (DragSession num);
  imgRect : option (Rect num);
  naturalSize : option (Size num)
}.
Arguments currentPoints {num} _.
Arguments redoStack {num} _.
Arguments mousePos {num} _.
Arguments dragging {num} _.
Arguments dragRef {num} _.
Arguments imgRect {num} _.
Arguments naturalSize {num} _.

(** A call made by a handler, in the order the handler makes it. *)
Inductive Action (num : Type) : Type :=
| setCurrentPoints (pts : list (Point num))
| setRedoStack (pts : list (Point num))
| setMousePos (p : option (Point num))
| setDragging (b : bool)
| setDragRef (r : option (DragSession num))
| setImgRect (r : option (Rect num))
| setNaturalSize (n : option (Size num))
| callPathUpdate (oid : string) (pts : list (Point num))
| callFinishDrawing (oid : string)
| callObjectSelected (obj : Obj num).
Arguments setCurrentPoints {num} _.
Arguments setRedoStack {num} _.
Arguments setMousePos {num} _.
Arguments setDragging {num} _.
Arguments setDragRef {num} _.
Arguments setImgRect {num} _.
Arguments setNaturalSize {num} _.
Arguments callPathUpdate {num} _ _.
Arguments callFinishDrawing {num} _.
Arguments callObjectSelected {num} _.

(** The cursor styles of a rendered path. *)
Inductive Cursor : Type := crosshair | grab | grabbing | pointer.

Section Component.
Context {num : Type} {N : Num num}.
Local Open Scope js_scope.

(** The state of a freshly mounted component. *)
Definition initialState : State num := {|
  currentPoints := [];
  redoStack := [];
  mousePos := None;
  dragging := false;
  dragRef := None;
  imgRect := None;
  naturalSize := None
|}.

(** The effect of one call on the component's own state; a callback of the
    page leaves it alone. *)
Definition applyLocal (a : Action num) (s : State num) : State num :=
  match a with
  | setCurrentPoints v =>
      {| currentPoints := v; redoStack := redoStack s; mousePos := mousePos s;
         dragging := dragging s; dragRef := dragRef s;
         imgRect := imgRect s; naturalSize := naturalSize s |}
  | setRedoStack v =>
      {| currentPoints := currentPoints s; redoStack := v; mousePos := mousePos s;
         dragging := dragging s; dragRef := dragRef s;
         imgRect := imgRect s; naturalSize := naturalSize s |}
  | setMousePos v =>
      {| currentPoints := currentPoints s; redoStack := redoStack s; mousePos := v;
         dragging := dragging s; dragRef := dragRef s;
         imgRect := imgRect s; naturalSize := naturalSize s |}
  | setDragging v =>
      {| currentPoints := currentPoints s; redoStack := redoStack s;
         mousePos := mousePos s; dragging := v; dragRef := dragRef s;
         imgRect := imgRect s; naturalSize := naturalSize s |}
  | setDragRef v =>
      {| currentPoints := currentPoints s; redoStack := redoStack s;
         mousePos := mousePos s; dragging := dragging s; dragRef := v;
         imgRect := imgRect s; naturalSize := naturalSize s |}
  | setImgRect v =>
      {| currentPoints := currentPoints s; redoStack := redoStack s;
         mousePos := mousePos s; dragging := dragging s; dragRef := dragRef s;
         imgRect := v; naturalSize := naturalSize s |}
  | setNaturalSize v =>
      {| currentPoints := currentPoints s; redoStack := redoStack s;
         mousePos := mousePos s; dragging := dragging s; dragRef := dragRef s;
         imgRect := imgRect s; naturalSize := v |}
  | callPathUpdate _ _ | callFinishDrawing _ | callObjectSelected _ => s
  end.

(** The component's state once every call of a handler has taken effect. *)
Definition after (log : list (Action num)) (s : State num) : State num :=
  fold_left (fun s' a => applyLocal a s') log s.

(** [measureImage]: record the rendered rectangle of the image, relative to
    the container, and its natural size. *)
Definition measureImage (d : Dom num) : list (Action num) :=
  match imgEl d, containerRect d with
  | Some img, Some cRect =>
      if negb (truthy (naturalWidth img)) then []
      else
        let iRect := imgBoundingRect img in
        [ setImgRect (Some {| left := left iRect - left cRect;
                              top := top iRect - top cRect;
                              width := width iRect;
                              height := height iRect |});
          setNaturalSize (Some {| w := naturalWidth img;
                                  h := naturalHeight img |}) ]
  | _, _ => []
  end.

(** The effect on [imageUrl]: forget the measured geometry. *)
Definition onImageUrlChange : list (Action num) :=
  [ setImgRect None; setNaturalSize None ].

(** The effect on [activeObjectId]: reset the drawing state. *)
Definition onActiveObjectIdChange : list (Action num) :=
  [ setCurrentPoints []; setRedoStack []; setMousePos None ].

(** [handleKeyDown]: Ctrl+Shift+Z redoes, Ctrl+Z undoes, and only while an
    annotation is active. *)
Definition handleKeyDown (p : Props num) (s : State num) (e : KeyEvent)
  : list (Action num) :=
  match truthyId (activeObjectId p) with
  | None => []
  | Some _ =>
      let isZ := (String.eqb (key e) "Z" || String.eqb (key e) "z")%bool in
      if (ctrlKey e && shiftKey e && isZ)%bool then
        let prev := redoStack s in
        match lastOf prev with
        | None => [ setRedoStack prev ]
        | Some point =>
            [ setRedoStack (slice_0_m1 prev);
              setCurrentPoints (currentPoints s ++ [point]) ]
        end
      else if (ctrlKey e && negb (shiftKey e) && isZ)%bool then
        let prev := currentPoints s in
        match lastOf prev with
        | None => [ setCurrentPoints prev ]
        | Some removed =>
            [ setCurrentPoints (slice_0_m1 prev);
              setRedoStack (redoStack s ++ [removed]) ]
        end
      else []
  end.

(** [clientToSvg]: client coordinates to natural image pixels. *)
Definition clientToSvg (d : Dom num) (s : State num) (cX cY : num)
  : Point num :=
  match imgRect s, naturalSize s with
  | Some r, Some n =>
      match containerRect d with
      | None => {| x := zero; y := zero |}
      | Some cRect =>
          let relX := cX - left cRect - left r in
          let relY := cY - top cRect - top r in
          {| x := (relX / width r) * w n;
             y := (relY / height r) * h n |}
      end
  | _, _ => {| x := zero; y := zero |}
  end.

(** [handleDragMove]: translate the snapshot taken at drag start by the
    pointer's displacement, converted to natural image pixels. *)
Definition handleDragMove (p : Props num) (s : State num) (e : MouseEvent num)
  : list (Action num) :=
  match dragRef s, imgRect s, naturalSize s with
  | Some session, Some r, Some n =>
      let dxClient := clientX e - x (startClient session) in
      let dyClient := clientY e - y (startClient session) in
      let dxNat := (dxClient / width r) * w n in
      let dyNat := (dyClient / height r) * h n in
      let movedPoints :=
        map (fun pt => {| x := x pt + dxNat; y := y pt + dyNat |})
            (startPoints session) in
      if onPathUpdate p then [ callPathUpdate (objId session) movedPoints ]
      else []
  | _, _, _ => []
  end.

(** [handleSvgMouseMove]. *)
Definition handleSvgMouseMove (p : Props num) (d : Dom num) (s : State num)
    (e : MouseEvent num) : list (Action num) :=
  (match truthyId (activeObjectId p) with
   | Some _ => [ setMousePos (Some (clientToSvg d s (clientX e) (clientY e))) ]
   | None => []
   end)
  ++ (if dragging s then handleDragMove p s e else []).

(** [handleSvgClick]. *)
Definition handleSvgClick (p : Props num) (d : Dom num) (s : State num)
    (e : MouseEvent num) : list (Action num) :=
  match truthyId (activeObjectId p) with
  | None => []
  | Some _ =>
      if dragging s then []
      else
        let pos := clientToSvg d s (clientX e) (clientY e) in
        [ setCurrentPoints (currentPoints s ++ [pos]); setRedoStack [] ]
  end.

(** [handleSvgDoubleClick]. *)
Definition handleSvgDoubleClick (p : Props num) (s : State num)
  : list (Action num) :=
  match truthyId (activeObjectId p) with
  | None => []
  | Some active =>
      let trimmed := slice_0_m1 (currentPoints s) in
      if List.length trimmed <? 2 then
        [ setCurrentPoints []; setRedoStack []; setMousePos None ]
      else
        (if onPathUpdate p then [ callPathUpdate active trimmed ] else [])
        ++ (if onFinishDrawing p then [ callFinishDrawing active ] else [])
        ++ [ setCurrentPoints []; setRedoStack []; setMousePos None ]
  end.

(** [handlePathMouseDown]. *)
Definition handlePathMouseDown (p : Props num) (e : MouseEvent num)
    (obj : Obj num) : list (Action num) :=
  match truthyId (activeObjectId p) with
  | Some _ => []
  | None =>
      (if onObjectSelected p then [ callObjectSelected obj ] else [])
      ++ [ setDragRef (Some {|
             startClient := {| x := clientX e; y := clientY e |};
             startPoints :=
               map (fun pt => {| x := x pt; y := y pt |}) (pathPoints obj);
             objId := id obj |});
           setDragging true ]
  end.

(** [handleDragEnd]. *)
Definition handleDragEnd : list (Action num) :=
  [ setDragging false; setDragRef None ].

(** The [onMouseLeave] of the drawing layer. *)
Definition svgOnMouseLeave (s : State num) : list (Action num) :=
  setMousePos None :: (if dragging s then handleDragEnd else []).

(** The [onMouseDown] of a rendered path. *)
Definition pathOnMouseDown (p : Props num) (e : MouseEvent num)
    (obj : Obj num) : list (Action num) :=
  if negb (isWorker p) then handlePathMouseDown p e obj else [].

(** The [onClick] of a rendered path, and whether the event goes on to the
    drawing layer (it does unless the handler stops its propagation). *)
Definition pathOnClick (p : Props num) (s : State num) (obj : Obj num)
  : list (Action num) * bool :=
  match truthyId (activeObjectId p) with
  | Some _ => ([], true)
  | None =>
      if dragging s then ([], true)
      else ((if onObjectSelected p then [ callObjectSelected obj ] else []),
            false)
  end.

(** The [cursor] style of a rendered path. *)
Definition cursor (p : Props num) (s : State num) (obj : Obj num) : Cursor :=
  let isSelected :=
    match selectedObjectId p with
    | Some sel => String.eqb (id obj) sel
    | None => false
    end in
  match truthyId (activeObjectId p) with
  | Some _ => crosshair
  | None =>
      if (isSelected && negb (isWorker p))%bool
      then (if dragging s then grabbing else grab)
      else pointer
  end.

(** The drawing layer is rendered, and so receives pointer events, once an
    image is given and its geometry is measured. *)
Definition svgRendered (p : Props num) (s : State num) : bool :=
  match truthyId (imageUrl p), imgRect s, naturalSize s with
  | Some _, Some _, Some _ => true
  | _, _, _ => false
  end.

(** The geometry is valid: the image rectangle and the natural size are
    measured and the container is mounted. *)
Definition frameValid (d : Dom num) (s : State num) : bool :=
  match imgRect s, naturalSize s, containerRect d with
  | Some _, Some _, Some _ => true
  | _, _, _ => false
  end.

(** The translation of a point by a displacement in natural pixels. *)
Definition translate (dxNat dyNat : num) (pt : Point num) : Point num :=
  {| x := x pt + dxNat; y := y pt + dyNat |}.

(** The component's state after a key press. *)
Definition pressKey (p : Props num) (e : KeyEvent) (s : State num)
  : State num :=
  after (handleKeyDown p s e) s.

(** What a list of calls reports to the page: the path updates, the
    finished drawings, and whether a call is a callback of the page at
    all. *)
Definition pathUpdates (log : list (Action num))
  : list (string * list (Point num)) :=
  flat_map (fun a => match a with
                     | callPathUpdate oid pts => [ (oid, pts) ]
                     | _ => []
                     end) log.

Definition finished (log : list (Action num)) : list string :=
  flat_map (fun a => match a with
                     | callFinishDrawing oid => [ oid ]
                     | _ => []
                     end) log.

Definition isCallback (a : Action num) : bool :=
  match a with
  | callPathUpdate _ _ | callFinishDrawing _ | callObjectSelected _ => true
  | _ => false
  end.

(** The key combinations of [handleKeyDown]. *)
Definition isUndoKey (e : KeyEvent) : bool :=
  ctrlKey e && negb (shiftKey e)
  && (String.eqb (key e) "z" || String.eqb (key e) "Z").

Definition isRedoKey (e : KeyEvent) : bool :=
  ctrlKey e && shiftKey e
  && (String.eqb (key e) "Z" || String.eqb (key e) "z").

End Component.
End BlueprintCanvas.

(** ** The owning page *)

Module BlueprintViewer.

(** An element of a saved blueprint's [objects] map, keyed by its
    identifier. *)
Record SavedObj (num : Type) : Type := {
  savedType : string;
  savedPathPoints : list (Point num);
  savedAssignedTo : option string;
  savedAssignedToName : option string;
  savedCompleted : bool
}.
Arguments savedType {num} _.
Arguments savedPathPoints {num} _.
Arguments savedAssignedTo {num} _.
Arguments savedAssignedToName {num} _.
Arguments savedCompleted {num} _.

(** A saved blueprint as [loadBlueprint] reads it. *)
Record Blueprint (num : Type) : Type := {
  bpImageUrl : option string;
  bpObjects : list (string * SavedObj num)
}.
Arguments bpImageUrl {num} _.
Arguments bpObjects {num} _.

(** A worker of the roster, as [assignWorker] reads it. *)
Record Worker : Type := { workerUid : string; workerName : string }.

(** The state of the page that concerns the canvas: the role and uid of the
    user profile ([None] when absent), the image, the annotation list, and
    the active and selected annotation identifiers. *)
Record State (num : Type) : Type := {
  role : option string;
  uid : option string;
  blueprintImage : option string;
  objects : list (Obj num);
  activeObjectId : option string;
  selectedObjectId : option string
}.
Arguments role {num} _.
Arguments uid {num} _.
Arguments blueprintImage {num} _.
Arguments objects {num} _.
Arguments activeObjectId {num} _.
Arguments selectedObjectId {num} _.

Section Page.
Context {num : Type}.

(** [o.id === v] for a string-or-null [v]. *)
Definition idIs (v : option string) (o : Obj num) : bool :=
  match v with
  | Some s => String.eqb (id o) s
  | None => false
  end.

(** [oid === v] for a string [oid] and a string-or-null [v]. *)
Definition idEq (oid : string) (v : option string) : bool :=
  match v with
  | Some s => String.eqb oid s
  | None => false
  end.

(** [userProfile?.role === "admin"], and its negation. *)
Definition isAdmin (v : State num) : bool :=
  match role v with
  | Some r => String.eqb r "admin"
  | None => false
  end.

Definition isWorker (v : State num) : bool := negb (isAdmin v).

Definition setObjects (objs : list (Obj num)) (v : State num) : State num :=
  {| role := role v; uid := uid v; blueprintImage := blueprintImage v;
     objects := objs;
     activeObjectId := activeObjectId v;
     selectedObjectId := selectedObjectId v |}.

Definition setActiveObjectId (a : option string) (v : State num) : State num :=
  {| role := role v; uid := uid v; blueprintImage := blueprintImage v;
     objects := objects v;
     activeObjectId := a;
     selectedObjectId := selectedObjectId v |}.

Definition setSelectedObjectId (a : option string) (v : State num)
  : State num :=
  {| role := role v; uid := uid v; blueprintImage := blueprintImage v;
     objects := objects v;
     activeObjectId := activeObjectId v;
     selectedObjectId := a |}.

Definition setBlueprintImage (u : option string) (v : State num) : State num :=
  {| role := role v; uid := uid v; blueprintImage := u;
     objects := objects v;
     activeObjectId := activeObjectId v;
     selectedObjectId := selectedObjectId v |}.

(** [{ ...o, drawing: false }] and [{ ...o, pathPoints: points }]. *)
Definition withDrawing (b : bool) (o : Obj num) : Obj num :=
  {| id := id o; type := type o; pathPoints := pathPoints o;
     assignedTo := assignedTo o; assignedToName := assignedToName o;
     completed := completed o; drawing := b |}.

Definition withPathPoints (pts : list (Point num)) (o : Obj num) : Obj num :=
  {| id := id o; type := type o; pathPoints := pts;
     assignedTo := assignedTo o; assignedToName := assignedToName o;
     completed := completed o; drawing := drawing o |}.

(** [cancelActiveDrawing]: drop the active object when it has no point,
    otherwise keep it and mark it no longer in progress. *)
Definition cancelActiveDrawing (v : State num) : State num :=
  let prev := objects v in
  let objs :=
    match find (idIs (activeObjectId v)) prev with
    | None => prev
    | Some active =>
        if List.length (pathPoints active) =? 0
        then filter (fun o => negb (idIs (activeObjectId v) o)) prev
        else map (fun o => if idIs (activeObjectId v) o
                           then withDrawing false o else o) prev
    end in
  setActiveObjectId None (setObjects objs v).

(** [startDrawing], with the identifier [makeId] returns. *)
Definition startDrawing (ty : string) (newId : string) (v : State num)
  : State num :=
  match truthyId (blueprintImage v) with
  | None => v
  | Some _ =>
      let v1 := match truthyId (activeObjectId v) with
                | Some _ => cancelActiveDrawing v
                | None => v
                end in
      let fresh := {| id := newId; type := ty; pathPoints := [];
                      assignedTo := None; assignedToName := None;
                      completed := false; drawing := true |} in
      setSelectedObjectId (Some newId)
        (setActiveObjectId (Some newId)
           (setObjects (objects v1 ++ [fresh]) v1))
  end.

(** [handlePathUpdate]. *)
Definition handlePathUpdate (oid : string) (points : list (Point num))
    (v : State num) : State num :=
  setObjects
    (map (fun o => if String.eqb (id o) oid then withPathPoints points o else o)
         (objects v)) v.

(** [handleFinishDrawing]. *)
Definition handleFinishDrawing (oid : string) (v : State num) : State num :=
  setActiveObjectId None
    (setObjects
       (map (fun o => if String.eqb (id o) oid then withDrawing false o else o)
            (objects v)) v).

(** [deleteObject]. *)
Definition deleteObject (oid : string) (v : State num) : State num :=
  let v1 := if idEq oid (activeObjectId v)
            then setActiveObjectId None v else v in
  let v2 := if idEq oid (selectedObjectId v)
            then setSelectedObjectId None v1 else v1 in
  setObjects (filter (fun o => negb (String.eqb (id o) oid)) (objects v)) v2.

(** The [onObjectSelected] the page hands to the canvas: select the object
    unless an annotation is active. *)
Definition onObjectSelected (obj : Obj num) (v : State num) : State num :=
  match truthyId (activeObjectId v) with
  | Some _ => v
  | None => setSelectedObjectId (Some (id obj)) v
  end.

(** [handleImageUpload], once the upload has succeeded with the given
    download URL. *)
Definition handleImageUpload (url : string) (v : State num) : State num :=
  setObjects [] (setBlueprintImage (Some url) v).

(** [loadBlueprint], once past the unsaved-changes prompt. *)
Definition loadBlueprint (bp : Blueprint num) (v : State num) : State num :=
  let objs :=
    map (fun '(oid, o) =>
           {| id := oid; type := savedType o;
              pathPoints := savedPathPoints o;
              assignedTo := savedAssignedTo o;
              assignedToName := savedAssignedToName o;
              completed := savedCompleted o; drawing := false |})
        (bpObjects bp) in
  setObjects objs
    (setBlueprintImage (truthyId (bpImageUrl bp))
       (setSelectedObjectId None (setActiveObjectId None v))).

(** [isDrawingPipe] and [isDrawingConnection]: an annotation is active and
    it has the given type. *)
Definition isDrawing (ty : string) (v : State num) : bool :=
  match truthyId (activeObjectId v) with
  | None => false
  | Some _ =>
      match find (idIs (activeObjectId v)) (objects v) with
      | Some o => String.eqb (type o) ty
      | None => false
      end
  end.

(** The [onClick] of the "Draw Pipe" and "Draw Connection" buttons, which
    are rendered for an admin and disabled without an image. *)
Definition drawButtonOnClick (ty : string) (newId : string) (v : State num)
  : State num :=
  if negb (isAdmin v) then v
  else
    match truthyId (blueprintImage v) with
    | None => v
    | Some _ =>
        if isDrawing ty v then cancelActiveDrawing v
        else startDrawing ty newId v
    end.

(** What [Date.now()] can return: a time value, an integral number of
    milliseconds at most 8.64e15 away from the epoch on either side. *)
Definition isTimeValue (t : Z) : Prop :=
  (-8640000000000000 <= t <= 8640000000000000)%Z.

(** The module's counter [_nextId] is a binary64 number that starts at 1
    and changes by [_nextId++] only, so it is an integer between 1 and
    2^53: below 2^53 the increment is exact, and 2^53 + 1 rounds back to
    2^53, where the counter stays. *)
Definition maxCounter : N := 9007199254740992.

(** The value [_nextId++] leaves in the counter. *)
Definition increment (nextId : N) : N :=
  if (nextId <? maxCounter)%N then (nextId + 1)%N else nextId.

(** [makeId]: the identifier of a new object, from the reading of the
    clock (a time value) and the counter (at most [maxCounter]), and the
    counter after the call. *)
Definition makeId (now : Z) (nextId : N) : string * N :=
  (String.append "obj-"
     (String.append (decimalZ now) (String.append "-" (decimal nextId))),
   increment nextId).

(** [currentUid]: [userProfile?.uid || null]. *)
Definition currentUid (v : State num) : option string := truthyId (uid v).

(** [a === b] for two string-or-null values. *)
Definition sameId (a b : option string) : bool :=
  match a, b with
  | Some s, Some t => String.eqb s t
  | None, None => true
  | _, _ => false
  end.

(** [{ ...o, completed: b }] and
    [{ ...o, assignedTo: a, assignedToName: n }]. *)
Definition withCompleted (b : bool) (o : Obj num) : Obj num :=
  {| id := id o; type := type o; pathPoints := pathPoints o;
     assignedTo := assignedTo o; assignedToName := assignedToName o;
     completed := b; drawing := drawing o |}.

Definition withAssignment (a n : option string) (o : Obj num) : Obj num :=
  {| id := id o; type := type o; pathPoints := pathPoints o;
     assignedTo := a; assignedToName := n;
     completed := completed o; drawing := drawing o |}.

(** [assignWorker], with the roster [workers.plumbers] and
    [workers.electricians]. *)
Definition assignWorker (plumbers electricians : list Worker)
    (workerId : string) (v : State num) : State num :=
  let all := plumbers ++ electricians in
  match find (fun wk => String.eqb (workerUid wk) workerId) all with
  | None => v
  | Some worker =>
      setObjects
        (map (fun o => if idIs (selectedObjectId v) o
                       then withAssignment (Some (workerUid worker))
                              (Some (workerName worker)) o
                       else o)
             (objects v)) v
  end.

(** [toggleComplete], as far as the page's own state goes (a worker's
    toggle is also sent to the store, by [persistCompletion]). *)
Definition toggleComplete (oid : string) (v : State num) : State num :=
  match find (fun o => String.eqb (id o) oid) (objects v) with
  | None => v
  | Some obj =>
      if (isWorker v && negb (sameId (assignedTo obj) (currentUid v)))%bool
      then v
      else
        setObjects
          (map (fun o => if String.eqb (id o) oid
                         then withCompleted (negb (completed o)) o else o)
               (objects v)) v
  end.




(** The identifiers of successive calls of [makeId], one call per clock
    reading, from a value of the counter. *)
Fixpoint makeIds (clock : list Z) (nextId : N) : list string :=
  match clock with
  | [] => []
  | now :: rest => fst (makeId now nextId) :: makeIds rest (snd (makeId now nextId))
  end.


(** The props the page renders the canvas with.  ([canvasObjects] adds to
    each object a flag [isOwn] that only its style class reads.) *)
Definition canvasProps (v : State num) : BlueprintCanvas.Props num := {|
  BlueprintCanvas.imageUrl := blueprintImage v;
  BlueprintCanvas.objects := objects v;
  BlueprintCanvas.activeObjectId :=
    if isAdmin v then activeObjectId v else None;
  BlueprintCanvas.onPathUpdate := isAdmin v;
  BlueprintCanvas.onFinishDrawing := isAdmin v;
  BlueprintCanvas.onObjectSelected := true;
  BlueprintCanvas.selectedObjectId := selectedObjectId v;
  BlueprintCanvas.isWorker := isWorker v
|}.

(** The page as mounted for a user profile. *)
Definition initialState (r u : option string) : State num := {|
  role := r; uid := u; blueprintImage := None; objects := [];
  activeObjectId := None; selectedObjectId := None
|}.

End Page.
End BlueprintViewer.

(** ** The mounted page: the viewer, its canvas and the document layout *)

Module Session.

Import BlueprintCanvas.

Record World (num : Type) : Type := {
  viewer : BlueprintViewer.State num;
  canvas : BlueprintCanvas.State num;
  dom : Dom num
}.
Arguments viewer {num} _.
Arguments canvas {num} _.
Arguments dom {num} _.

(** What can happen to the mounted page.  A pointer event on a rendered
    path names the object of the path; [None] is the bare drawing layer. *)
Inductive Event (num : Type) : Type :=
| Click (target : option string) (e : MouseEvent num)
| DblClick (e : MouseEvent num)
| MouseMove (e : MouseEvent num)
| MouseDown (target : option string) (e : MouseEvent num)
| MouseUp
| MouseLeave
| KeyDown (e : KeyEvent)
| Measure (d : Dom num)
| Relayout (d : Dom num)
| DrawButton (ty : string) (newId : string)
| ImageUploaded (url : string)
| LoadBlueprint (bp : BlueprintViewer.Blueprint num)
| DeleteObject (oid : string).
Arguments Click {num} _ _.
Arguments DblClick {num} _.
Arguments MouseMove {num} _.
Arguments MouseDown {num} _ _.
Arguments MouseUp {num}.
Arguments MouseLeave {num}.
Arguments KeyDown {num} _.
Arguments Measure {num} _.
Arguments Relayout {num} _.
Arguments DrawButton {num} _ _.
Arguments ImageUploaded {num} _.
Arguments LoadBlueprint {num} _.
Arguments DeleteObject {num} _.

Section Machine.
Context {num : Type} {N : Num num}.

Definition setViewer (v : BlueprintViewer.State num) (wd : World num)
  : World num :=
  {| viewer := v; canvas := canvas wd; dom := dom wd |}.

Definition setCanvas (c : BlueprintCanvas.State num) (wd : World num)
  : World num :=
  {| viewer := viewer wd; canvas := c; dom := dom wd |}.

Definition setDom (d : Dom num) (wd : World num) : World num :=
  {| viewer := viewer wd; canvas := canvas wd; dom := d |}.

Definition props (wd : World num) : Props num :=
  BlueprintViewer.canvasProps (viewer wd).

(** The effect of one call on the page: a callback runs the handler the
    page supplied for it; a state setter of the canvas leaves the page
    alone. *)
Definition applyPage (a : Action num) (v : BlueprintViewer.State num)
  : BlueprintViewer.State num :=
  match a with
  | callPathUpdate oid pts => BlueprintViewer.handlePathUpdate oid pts v
  | callFinishDrawing oid => BlueprintViewer.handleFinishDrawing oid v
  | callObjectSelected obj => BlueprintViewer.onObjectSelected obj v
  | _ => v
  end.

(** One call of a handler takes effect. *)
Definition exec (a : Action num) (wd : World num) : World num :=
  {| viewer := applyPage a (viewer wd);
     canvas := applyLocal a (canvas wd);
     dom := dom wd |}.

Definition execAll (log : list (Action num)) (wd : World num) : World num :=
  fold_left (fun wd' a => exec a wd') log wd.

(** The rendered path a pointer event names. *)
Definition pathOf (wd : World num) (oid : string) : option (Obj num) :=
  find (fun o => String.eqb (id o) oid) (objects (props wd)).

(** The calls the canvas makes on an event, in order. *)
Definition emitted (ev : Event num) (wd : World num) : list (Action num) :=
  let p := props wd in
  let s := canvas wd in
  let d := dom wd in
  match ev with
  | KeyDown e => handleKeyDown p s e
  | Measure d' =>
      match truthyId (imageUrl p) with
      | Some _ => measureImage d'
      | None => []
      end
  | Relayout _ | DrawButton _ _ | ImageUploaded _ | LoadBlueprint _
  | DeleteObject _ => []
  | _ =>
      if negb (svgRendered p s) then []
      else
        match ev with
        | Click None e => handleSvgClick p d s e
        | Click (Some oid) e =>
            match pathOf wd oid with
            | None => []
            | Some obj =>
                let '(log, bubbles) := pathOnClick p s obj in
                log ++ (if bubbles then handleSvgClick p d s e else [])
            end
        | DblClick _ => handleSvgDoubleClick p s
        | MouseMove e => handleSvgMouseMove p d s e
        | MouseDown None _ => []
        | MouseDown (Some oid) e =>
            match pathOf wd oid with
            | None => []
            | Some obj => pathOnMouseDown p e obj
            end
        | MouseUp => handleDragEnd
        | MouseLeave => svgOnMouseLeave s
        | _ => []
        end
  end.

(** What the page and the document do on an event, besides the calls of
    the canvas. *)
Definition external (ev : Event num) (wd : World num) : World num :=
  match ev with
  | Measure d' =>
      match truthyId (imageUrl (props wd)) with
      | Some _ => setDom d' wd
      | None => wd
      end
  | Relayout d' =>
      match truthyId (imageUrl (props wd)) with
      | Some _ => setDom d' wd
      | None => wd
      end
  | DrawButton ty newId =>
      setViewer (BlueprintViewer.drawButtonOnClick ty newId (viewer wd)) wd
  | ImageUploaded url =>
      if BlueprintViewer.isAdmin (viewer wd)
      then setViewer (BlueprintViewer.handleImageUpload url (viewer wd)) wd
      else wd
  | LoadBlueprint bp =>
      setViewer (BlueprintViewer.loadBlueprint bp (viewer wd)) wd
  | DeleteObject oid =>
      if BlueprintViewer.isAdmin (viewer wd)
      then setViewer (BlueprintViewer.deleteObject oid (viewer wd)) wd
      else wd
  | _ => wd
  end.

Definition optEqb (a b : option string) : bool :=
  match a, b with
  | Some s, Some t => String.eqb s t
  | None, None => true
  | _, _ => false
  end.

(** The render that follows an event: the effects of the canvas whose
    dependency changed run, and without an image the placeholder replaces
    the container. *)
Definition commit (old : Props num) (wd : World num) : World num :=
  let new := props wd in
  let c0 := canvas wd in
  let c1 := if optEqb (imageUrl old) (imageUrl new) then c0
            else after onImageUrlChange c0 in
  let c2 := if optEqb (activeObjectId old) (activeObjectId new) then c1
            else after onActiveObjectIdChange c1 in
  let d := match truthyId (imageUrl new) with
           | Some _ => dom wd
           | None => {| containerRect := None; imgEl := None |}
           end in
  {| viewer := viewer wd; canvas := c2; dom := d |}.

(** One event, start to finish. *)
Definition step (ev : Event num) (wd : World num) : World num :=
  commit (props wd) (execAll (emitted ev wd) (external ev wd)).

Definition run (evs : list (Event num)) (wd : World num) : World num :=
  fold_left (fun wd' ev => step ev wd') evs wd.

(** The page as mounted for a user profile. *)
Definition mount (r u : option string) : World num := {|
  viewer := BlueprintViewer.initialState r u;
  canvas := BlueprintCanvas.initialState;
  dom := {| containerRect := None; imgEl := None |}
|}.

(** The two modes of the canvas. *)
Definition isDrawingMode (wd : World num) : bool :=
  match truthyId (activeObjectId (props wd)) with
  | Some _ => true
  | None => false
  end.

Definition isDraggingMode (wd : World num) : bool := dragging (canvas wd).

(** At most one of the two modes is on. *)
Definition exclusive (wd : World num) : bool :=
  negb (isDrawingMode wd && isDraggingMode wd).

(** Along the events, the page starts no drawing while a drag session is
    open: every press of a draw button finds the canvas not dragging. *)
Fixpoint activatedOutsideDrag (evs : list (Event num)) (wd : World num)
  : bool :=
  match evs with
  | [] => true
  | ev :: rest =>
      (match ev with
       | DrawButton _ _ => negb (isDraggingMode wd)
       | _ => true
       end)
      && activatedOutsideDrag rest (step ev wd)
  end.

(** The events the canvas handles itself, as opposed to what the page
    does with its toolbar, its sidebar and the store. *)
Definition isCanvasEvent (ev : Event num) : bool :=
  match ev with
  | DrawButton _ _ | ImageUploaded _ | LoadBlueprint _ | DeleteObject _ =>
      false
  | _ => true
  end.

(** A callback is called only when the page supplies it, and a drawing is
    reported finished only for the active object. *)
Definition callAllowed (wd : World num) (c : Action num) : Prop :=
  match c with
  | callPathUpdate _ _ => onPathUpdate (props wd) = true
  | callFinishDrawing oid =>
      onFinishDrawing (props wd) = true
      /\ truthyId (activeObjectId (props wd)) = Some oid
  | _ => True
  end.

(** The pointer events, which the drawing layer receives. *)
Definition isPointerEvent (ev : Event num) : bool :=
  match ev with
  | Click _ _ | DblClick _ | MouseMove _ | MouseDown _ _ | MouseUp
  | MouseLeave => true
  | _ => false
  end.

(** The events on which [measureImage] runs: the load of the image and
    the callback of the resize observer. *)
Definition isMeasure (ev : Event num) : bool :=
  match ev with
  | Measure _ => true
  | _ => false
  end.

(** What of an object the canvas has no way to change: everything but its
    path and its being drawn. *)
Definition identityOf (o : Obj num)
  : string * string * option string * option string * bool :=
  (id o, type o, assignedTo o, assignedToName o, completed o).

(** Every identifier a draw button is pressed with is a truthy string, as
    the identifiers of [makeId] are. *)
Definition drawIdsTruthy (evs : list (Event num)) : bool :=
  forallb (fun ev => match ev with
                     | DrawButton _ newId => negb (String.eqb newId "")
                     | _ => true
                     end) evs.

(** An object is marked as being drawn only while it is the active one. *)
Definition drawingIsActive (v : BlueprintViewer.State num) : Prop :=
  forall o, In o (BlueprintViewer.objects v) -> drawing o = true ->
            BlueprintViewer.activeObjectId v = Some (id o).

(** The invariant of the page on that mark: besides, the active
    identifier is never the empty string. *)
Definition marked (v : BlueprintViewer.State num) : Prop :=
  drawingIsActive v
  /\ truthyId (BlueprintViewer.activeObjectId v)
     = BlueprintViewer.activeObjectId v.

End Machine.
End Session.

(** ** Sample sessions

    Concrete layouts and event sequences over the numbers of the engine,
    on which the properties below are exercised. *)

Module Scenario.
Import BlueprintCanvas Session.
Local Open Scope string_scope.
Local Open Scope float_scope.

Definition pointerAt (cX cY : float) : MouseEvent float :=
  {| clientX := cX; clientY := cY |}.

(** A container at (10, 20) showing a 1600 x 1200 image at a quarter of
    its size, 100 to the right of and 50 below the container's corner. *)
Definition layout : Dom float := {|
  containerRect :=
    Some {| left := 10; top := 20; width := 800; height := 600 |};
  imgEl :=
    Some {| imgBoundingRect :=
              {| left := 110; top := 70; width := 400; height := 300 |};
            naturalWidth := 1600;
            naturalHeight := 1200 |}
|}.

Definition adminPage : World float := mount (Some "admin") (Some "u1").

Definition workerPage : World float := mount (Some "plumber") (Some "u2").

(** An admin uploads an image and starts a pipe. *)
Definition startPipe : list (Event float) :=
  [ ImageUploaded "plan.png"; Measure layout; DrawButton "pipe" "obj-1" ].

(** Three clicks and the first click of a double click at the place of
    the third; then its second click and the double click itself. *)
Definition fourClicks : list (Event float) :=
  [ Click None (pointerAt 120 80); Click None (pointerAt 220 80);
    Click None (pointerAt 220 180); Click None (pointerAt 220 180) ].

Definition drawThreePoints : list (Event float) :=
  fourClicks ++ [ DblClick (pointerAt 220 180) ].

(** The page in the middle of that drawing, and once it is finished. *)
Definition midDrawing : World float := run (startPipe ++ fourClicks) adminPage.

Definition pipeDrawn : World float :=
  run (startPipe ++ drawThreePoints) adminPage.

(** The points of the three clicks, in natural pixels. *)
Definition p0 : Point float := {| x := (120 - 10 - 100) / 400 * 1600;
                                  y := (80 - 20 - 50) / 300 * 1200 |}.
Definition p1 : Point float := {| x := (220 - 10 - 100) / 400 * 1600;
                                  y := (80 - 20 - 50) / 300 * 1200 |}.
Definition p2 : Point float := {| x := (220 - 10 - 100) / 400 * 1600;
                                  y := (180 - 20 - 50) / 300 * 1200 |}.

(** The finished pipe. *)
Definition pipe : Obj float := {|
  id := "obj-1"; type := "pipe"; pathPoints := [ p0; p1; p2 ];
  assignedTo := None; assignedToName := None;
  completed := false; drawing := false
|}.

(** Ctrl+Z and Ctrl+Shift+Z. *)
Definition ctrlZ : KeyEvent :=
  {| ctrlKey := true; shiftKey := false; key := "z" |}.

Definition ctrlShiftZ : KeyEvent :=
  {| ctrlKey := true; shiftKey := true; key := "Z" |}.

(** The page in the middle of the drawing, after Ctrl+Z. *)
Definition afterUndo : World float := step (KeyDown ctrlZ) midDrawing.

(** A double click right away: the two clicks of the gesture are the only
    points. *)
Definition twoClicks : list (Event float) :=
  [ Click None (pointerAt 120 80); Click None (pointerAt 120 80) ].

Definition doubleClickAtOnce : list (Event float) :=
  twoClicks ++ [ DblClick (pointerAt 120 80) ].

(** The page before and after the double click of that gesture. *)
Definition barelyStarted : World float := run (startPipe ++ twoClicks) adminPage.

Definition doubleClickedAtOnce : World float :=
  run (startPipe ++ doubleClickAtOnce) adminPage.

(** The admin presses a finished path, and then a draw button is pressed
    from the keyboard while the mouse button is still held. *)
Definition drawDuringDrag : list (Event float) :=
  startPipe ++ drawThreePoints
  ++ [ MouseDown (Some "obj-1") (pointerAt 200 80);
       DrawButton "pipe" "obj-2" ].

(** The page just after that draw button, and the page on which a second
    pipe was started with no path pressed. *)
Definition drawingWhileDragging : World float := run drawDuringDrag adminPage.

Definition secondDrawing : World float :=
  run (startPipe ++ drawThreePoints ++ [ DrawButton "pipe" "obj-2" ]) adminPage.

(** A press on the finished pipe, two moves and the release. *)
Definition pressMoveRelease : list (Event float) :=
  [ MouseDown (Some "obj-1") (pointerAt 200 80);
    MouseMove (pointerAt 210 90); MouseMove (pointerAt 230 100); MouseUp ].



(** A viewer whose profile has neither role nor uid, on a page with one
    unassigned pipe and one pipe assigned to the worker u2. *)
Definition unassignedPipe : Obj float := {|
  id := "obj-1"; type := "pipe";
  pathPoints := [ {| x := 40; y := 40 |}; {| x := 440; y := 40 |} ];
  assignedTo := None; assignedToName := None;
  completed := false; drawing := false
|}.

Definition assignedPipe : Obj float := {|
  id := "obj-2"; type := "pipe";
  pathPoints := [ {| x := 40; y := 90 |}; {| x := 440; y := 90 |} ];
  assignedTo := Some "u2"; assignedToName := Some "Pat";
  completed := false; drawing := false
|}.

Definition anonymousPage : BlueprintViewer.State float := {|
  BlueprintViewer.role := None;
  BlueprintViewer.uid := None;
  BlueprintViewer.blueprintImage := Some "plan.png";
  BlueprintViewer.objects := [ unassignedPipe; assignedPipe ];
  BlueprintViewer.activeObjectId := None;
  BlueprintViewer.selectedObjectId := None
|}.

(** A saved blueprint with one finished pipe, as a worker loads it. *)
Definition savedPlan : BlueprintViewer.Blueprint float := {|
  BlueprintViewer.bpImageUrl := Some "plan.png";
  BlueprintViewer.bpObjects :=
    [ ("obj-1",
       {| BlueprintViewer.savedType := "pipe";
          BlueprintViewer.savedPathPoints :=
            [ {| x := 40; y := 40 |}; {| x := 440; y := 40 |} ];
          BlueprintViewer.savedAssignedTo := Some "u2";
          BlueprintViewer.savedAssignedToName := Some "Pat";
          BlueprintViewer.savedCompleted := false |}) ]
|}.

Definition openPlan : list (Event float) :=
  [ LoadBlueprint savedPlan; Measure layout ].

Definition planOpened : World float := run openPlan workerPage.

(** The worker presses the path, moves and releases. *)
Definition tryToDrag : list (Event float) :=
  [ MouseDown (Some "obj-1") (pointerAt 200 80);
    MouseMove (pointerAt 230 100); MouseUp;
    Click (Some "obj-1") (pointerAt 230 100) ].

(** The admin's page once the image is uploaded and measured, and the
    finished pipe while it is pressed at (200, 80). *)
Definition imageReady : World float :=
  run [ ImageUploaded "plan.png"; Measure layout ] adminPage.

Definition draggingPipe : World float :=
  step (MouseDown (Some "obj-1") (pointerAt 200 80)) pipeDrawn.

End Scenario.

(** * Properties *)

(** ** Arrays *)

Section Arrays.
Context {A : Type}.

Lemma slice_0_m1_firstn (a : list A) :
  slice_0_m1 a = firstn (List.length a - 1) a.
Proof.
  unfold slice_0_m1.
  induction a as [| v [| v' a'] IH]; try reflexivity.
  change (removelast (v :: v' :: a')) with (v :: removelast (v' :: a')).
  rewrite IH. simpl. rewrite Nat.sub_0_r. reflexivity.
Qed.

Lemma slice_0_m1_length (a : list A) :
  List.length (slice_0_m1 a) = List.length a - 1.
Proof.
  rewrite slice_0_m1_firstn, length_firstn. lia.
Qed.

Lemma slice_0_m1_snoc (a : list A) (v : A) : slice_0_m1 (a ++ [v]) = a.
Proof. unfold slice_0_m1. apply removelast_last. Qed.

Lemma lastOf_snoc (a : list A) (v : A) : lastOf (a ++ [v]) = Some v.
Proof.
  unfold lastOf. rewrite length_app. simpl.
  replace (List.length a + 1 - 1) with (List.length a) by lia.
  rewrite nth_error_app2 by lia. rewrite Nat.sub_diag. reflexivity.
Qed.

Lemma lastOf_nil : lastOf (@nil A) = None.
Proof. reflexivity. Qed.

(** A non-empty array is its [slice(0, -1)] followed by its last element. *)
Lemma lastOf_split (a : list A) :
  a <> [] -> exists v, lastOf a = Some v /\ a = slice_0_m1 a ++ [v].
Proof.
  intros Hne. destruct (exists_last Hne) as [a' [v ->]].
  exists v. rewrite lastOf_snoc, slice_0_m1_snoc. split; reflexivity.
Qed.

End Arrays.

(** ** The drawing handlers of the canvas *)

(** Decompose an equation [log = before ++ c :: rest] for a log that is
    an explicit list of calls, position by position. *)
Ltac split_log Heq before :=
  repeat (destruct before as [| ? before]; simpl in Heq;
          [ try discriminate Heq; inversion Heq; subst; simpl;
            repeat split; reflexivity
          | try discriminate Heq; injection Heq as ? Heq; subst ]).

Section Drawing.
Import BlueprintCanvas.
Context {num : Type} {N : Num num}.

Lemma truthyId_some (v : option string) (a : string) :
  truthyId v = Some a -> v = Some a /\ a <> EmptyString.
Proof.
  destruct v as [t |]; simpl; [| discriminate].
  destruct (String.eqb_spec t EmptyString); [discriminate |].
  intros [= ->]. split; [reflexivity | assumption].
Qed.

(** The double click on a buffer that is too short only resets the local
    drawing state. *)
Lemma handleSvgDoubleClick_short (p : Props num) (s : State num) (a : string) :
  truthyId (activeObjectId p) = Some a ->
  List.length (slice_0_m1 (currentPoints s)) < 2 ->
  handleSvgDoubleClick p s
  = [ setCurrentPoints []; setRedoStack []; setMousePos None ].
Proof.
  intros Ha Hlen. unfold handleSvgDoubleClick. rewrite Ha.
  apply Nat.ltb_lt in Hlen. rewrite Hlen. reflexivity.
Qed.

(** The double click on a long enough buffer, for any props. *)
Lemma handleSvgDoubleClick_finish (p : Props num) (s : State num) (a : string) :
  truthyId (activeObjectId p) = Some a ->
  2 <= List.length (slice_0_m1 (currentPoints s)) ->
  handleSvgDoubleClick p s
  = (if onPathUpdate p
     then [ callPathUpdate a (slice_0_m1 (currentPoints s)) ] else [])
    ++ (if onFinishDrawing p then [ callFinishDrawing a ] else [])
    ++ [ setCurrentPoints []; setRedoStack []; setMousePos None ].
Proof.
  intros Ha Hlen. unfold handleSvgDoubleClick. rewrite Ha.
  apply Nat.ltb_ge in Hlen. rewrite Hlen. reflexivity.
Qed.

(** C1. When the double click finishes a drawing whose raw buffer holds
    [n >= 3] points, the one path reported to the page is the buffer
    without its last point, that is its first [n - 1] points. *)
Theorem double_click_discards_last_point
    (p : Props num) (s : State num) (a : string) (n : nat) :
  truthyId (activeObjectId p) = Some a ->
  onPathUpdate p = true ->
  List.length (currentPoints s) = n ->
  3 <= n ->
  pathUpdates (handleSvgDoubleClick p s)
  = [ (a, firstn (n - 1) (currentPoints s)) ].
Proof.
  intros Ha Hcb Hn Hge.
  rewrite (handleSvgDoubleClick_finish p s a Ha)
    by (rewrite slice_0_m1_length; lia).
  rewrite Hcb, slice_0_m1_firstn, Hn.
  destruct (onFinishDrawing p); reflexivity.
Qed.

(** The example of the specification: the raw buffer [p0, p1, p2, p2]
    finalizes to [p0, p1, p2]. *)
Lemma double_click_example (p : Props num) (s : State num) (a : string)
    (p0 p1 p2 : Point num) :
  truthyId (activeObjectId p) = Some a ->
  onPathUpdate p = true ->
  currentPoints s = [ p0; p1; p2; p2 ] ->
  pathUpdates (handleSvgDoubleClick p s) = [ (a, [ p0; p1; p2 ]) ].
Proof.
  intros Ha Hcb Hpts.
  rewrite (handleSvgDoubleClick_finish p s a Ha)
    by (rewrite Hpts; simpl; lia).
  rewrite Hcb, Hpts. destruct (onFinishDrawing p); reflexivity.
Qed.

(** C5. A successful finish makes its calls in this order: the path
    update with the finalized points, the finish notification, and then
    the three resets of the local drawing state.  For any props, a finish
    notification is preceded by nothing but the path update and followed
    by no path update. *)
Theorem finish_reports_path_then_finishes_then_clears
    (p : Props num) (s : State num) (a : string) :
  truthyId (activeObjectId p) = Some a ->
  2 <= List.length (slice_0_m1 (currentPoints s)) ->
  (onPathUpdate p = true -> onFinishDrawing p = true ->
   handleSvgDoubleClick p s
   = [ callPathUpdate a (slice_0_m1 (currentPoints s));
       callFinishDrawing a;
       setCurrentPoints []; setRedoStack []; setMousePos None ])
  /\ (forall before oid rest,
         handleSvgDoubleClick p s = before ++ callFinishDrawing oid :: rest ->
         forallb isCallback before = true
         /\ finished before = []
         /\ pathUpdates rest = []
         /\ forallb (fun c => negb (isCallback c)) rest = true).
Proof.
  intros Ha Hlen. rewrite (handleSvgDoubleClick_finish p s a Ha Hlen). split.
  - intros -> ->. reflexivity.
  - intros before oid rest.
    destruct (onPathUpdate p), (onFinishDrawing p); simpl; intros Heq;
      split_log Heq before.
Qed.

(** C3. In a drawing state with a non-empty point buffer, undo shortens
    the buffer by one and moves its last point onto the redo buffer, and a
    redo right after it restores the state exactly.  Undo on an empty
    point buffer and redo on an empty redo buffer change nothing. *)
Theorem undo_then_redo_restores
    (p : Props num) (s : State num) (a : string) (undo redo : KeyEvent) :
  truthyId (activeObjectId p) = Some a ->
  isUndoKey undo = true ->
  isRedoKey redo = true ->
  let s1 := after (handleKeyDown p s undo) s in
  (currentPoints s <> [] ->
     List.length (currentPoints s1) + 1 = List.length (currentPoints s)
     /\ (exists removed,
           currentPoints s = currentPoints s1 ++ [ removed ]
           /\ redoStack s1 = redoStack s ++ [ removed ])
     /\ after (handleKeyDown p s1 redo) s1 = s)
  /\ (currentPoints s = [] -> s1 = s)
  /\ (redoStack s = [] -> after (handleKeyDown p s redo) s = s).
Proof.
  intros Ha Hu Hr s1. subst s1.
  assert (Hundo : forall t,
    handleKeyDown p t undo
    = match lastOf (currentPoints t) with
      | None => [ setCurrentPoints (currentPoints t) ]
      | Some removed =>
          [ setCurrentPoints (slice_0_m1 (currentPoints t));
            setRedoStack (redoStack t ++ [ removed ]) ]
      end).
  { intros t. unfold handleKeyDown. rewrite Ha.
    unfold isUndoKey in Hu.
    destruct (ctrlKey undo), (shiftKey undo); try discriminate.
    simpl in Hu |- *. rewrite orb_comm in Hu. rewrite Hu. reflexivity. }
  assert (Hredo : forall t,
    handleKeyDown p t redo
    = match lastOf (redoStack t) with
      | None => [ setRedoStack (redoStack t) ]
      | Some point =>
          [ setRedoStack (slice_0_m1 (redoStack t));
            setCurrentPoints (currentPoints t ++ [ point ]) ]
      end).
  { intros t. unfold handleKeyDown. rewrite Ha.
    unfold isRedoKey in Hr.
    destruct (ctrlKey redo), (shiftKey redo); try discriminate.
    simpl in Hr |- *. rewrite Hr. reflexivity. }
  destruct s as [pts rs mp dg dr ir ns]. simpl.
  split; [| split].
  - intros Hne. rewrite Hundo. simpl.
    destruct (lastOf_split pts Hne) as [v [Hv Hsplit]]. rewrite Hv. simpl.
    split; [| split].
    + rewrite slice_0_m1_length.
      destruct pts; [congruence | simpl; lia].
    + exists v. split; [exact Hsplit | reflexivity].
    + rewrite Hredo. simpl. rewrite lastOf_snoc. simpl.
      rewrite slice_0_m1_snoc, <- Hsplit. reflexivity.
  - intros ->. rewrite Hundo. reflexivity.
  - intros ->. rewrite Hredo. reflexivity.
Qed.

(** C4. In a drawing state, a click that adds a point leaves the redo
    buffer empty, whatever it held before. *)
Theorem click_clears_redo
    (p : Props num) (d : Dom num) (s : State num) (e : MouseEvent num)
    (a : string) :
  truthyId (activeObjectId p) = Some a ->
  dragging s = false ->
  let s1 := after (handleSvgClick p d s e) s in
  currentPoints s1
  = currentPoints s ++ [ clientToSvg d s (clientX e) (clientY e) ]
  /\ redoStack s1 = [].
Proof.
  intros Ha Hd. unfold handleSvgClick. rewrite Ha, Hd. simpl.
  split; reflexivity.
Qed.

(** A click changes the point buffer only by adding a point, and whenever
    it does the redo buffer is empty afterwards. *)
Lemma click_changes_points_clears_redo
    (p : Props num) (d : Dom num) (s : State num) (e : MouseEvent num) :
  let s1 := after (handleSvgClick p d s e) s in
  s1 = s
  \/ (currentPoints s1
      = currentPoints s ++ [ clientToSvg d s (clientX e) (clientY e) ]
      /\ redoStack s1 = []).
Proof.
  unfold handleSvgClick.
  destruct (truthyId (activeObjectId p)); [| left; reflexivity].
  destruct (dragging s); [left; reflexivity | right; split; reflexivity].
Qed.

End Drawing.

(** ** Projection and translation *)

Section Projection.
Import BlueprintCanvas.
Context {num : Type} {N : Num num}.
Local Open Scope js_scope.

Lemma frameValid_false (d : Dom num) (s : State num) :
  frameValid d s = false
  <-> imgRect s = None \/ naturalSize s = None \/ containerRect d = None.
Proof.
  unfold frameValid.
  destruct (imgRect s), (naturalSize s), (containerRect d);
    split; intros H; try reflexivity; try discriminate; auto;
    destruct H as [H | [H | H]]; discriminate.
Qed.

(** C7. The projection returns the default point (0, 0) whenever the
    geometry is not valid: the image rectangle or the natural size is not
    measured, or the container is not mounted.  When the geometry is valid
    it returns the pointer position relative to the container, minus the
    offset of the image in the container, scaled on each axis by the
    natural size over the rendered size of that axis. *)
Theorem clientToSvg_default_or_scaled
    (d : Dom num) (s : State num) (cX cY : num) :
  (frameValid d s = false ->
   clientToSvg d s cX cY = {| x := zero; y := zero |})
  /\ (forall (r : Rect num) (n : Size num) (c : Rect num),
         imgRect s = Some r -> naturalSize s = Some n ->
         containerRect d = Some c ->
         frameValid d s = true
         /\ clientToSvg d s cX cY
            = {| x := ((cX - left c - left r) / width r) * w n;
                 y := ((cY - top c - top r) / height r) * h n |}).
Proof.
  unfold frameValid, clientToSvg. split.
  - destruct (imgRect s), (naturalSize s), (containerRect d);
      intros H; try discriminate; reflexivity.
  - intros r n c -> -> ->. split; reflexivity.
Qed.


(** The copy [pathPoints.map(p => ({ ...p }))] has the same points. *)
Lemma copy_points (pts : list (Point num)) :
  map (fun pt => {| x := x pt; y := y pt |}) pts = pts.
Proof.
  induction pts as [| [px py] pts IH]; simpl; [| rewrite IH]; reflexivity.
Qed.

(** A drag move reports the snapshot translated by the displacement of
    the pointer since the start of the drag, in natural pixels. *)
Lemma handleDragMove_translates
    (p : Props num) (s : State num) (e : MouseEvent num)
    (session : DragSession num) (r : Rect num) (n : Size num) :
  dragRef s = Some session -> imgRect s = Some r -> naturalSize s = Some n ->
  onPathUpdate p = true ->
  handleDragMove p s e
  = [ callPathUpdate (objId session)
        (map (translate
                (((clientX e - x (startClient session)) / width r) * w n)
                (((clientY e - y (startClient session)) / height r) * h n))
             (startPoints session)) ].
Proof.
  intros Hs Hr Hn Hcb. unfold handleDragMove.
  rewrite Hs, Hr, Hn, Hcb. reflexivity.
Qed.

(** A drag move changes nothing of the canvas itself: neither the session
    nor the geometry it reads. *)
Lemma handleDragMove_local (p : Props num) (s t : State num)
    (e : MouseEvent num) :
  after (handleDragMove p s e) t = t.
Proof.
  unfold handleDragMove.
  destruct (dragRef s), (imgRect s), (naturalSize s); try reflexivity.
  destruct (onPathUpdate p); reflexivity.
Qed.

End Projection.

(** ** The mounted page, event by event *)

(** Close a goal of the form "the drag session is as it was". *)
Ltac unchanged := left; cbn; split; (reflexivity || congruence).

Section Steps.
Import BlueprintCanvas Session.
Context {num : Type} {N : Num num}.

Lemma execAll_parts (log : list (Action num)) (wd : World num) :
  execAll log wd
  = {| viewer := fold_left (fun v a => applyPage a v) log (viewer wd);
       canvas := after log (canvas wd);
       dom := dom wd |}.
Proof.
  unfold execAll, after. revert wd.
  induction log as [| a log IH]; intros [v c d]; simpl;
    [| rewrite IH]; reflexivity.
Qed.

Lemma after_app (l1 l2 : list (Action num)) (s : State num) :
  after (l1 ++ l2) s = after l2 (after l1 s).
Proof. unfold after. apply fold_left_app. Qed.

Lemma optEqb_refl (a : option string) : optEqb a a = true.
Proof. destruct a; simpl; [apply String.eqb_refl | reflexivity]. Qed.

(** The callbacks of the page and what the page does on its own never
    change the role of the user. *)
Lemma applyPage_role (a : Action num) (v : BlueprintViewer.State num) :
  BlueprintViewer.role (applyPage a v) = BlueprintViewer.role v.
Proof.
  destruct a; try reflexivity. simpl.
  unfold BlueprintViewer.onObjectSelected.
  destruct (truthyId (BlueprintViewer.activeObjectId v)); reflexivity.
Qed.

Lemma applyPageAll_role (log : list (Action num))
    (v : BlueprintViewer.State num) :
  BlueprintViewer.role (fold_left (fun v' a => applyPage a v') log v)
  = BlueprintViewer.role v.
Proof.
  revert v. induction log as [| a log IH]; intros v; simpl;
    [| rewrite IH, applyPage_role]; reflexivity.
Qed.

Lemma external_role (ev : Event num) (wd : World num) :
  BlueprintViewer.role (viewer (external ev wd))
  = BlueprintViewer.role (viewer wd).
Proof.
  destruct ev; simpl; try reflexivity.
  - destruct (truthyId _); reflexivity.
  - destruct (truthyId _); reflexivity.
  - unfold BlueprintViewer.drawButtonOnClick, BlueprintViewer.startDrawing.
    destruct (BlueprintViewer.isAdmin (viewer wd)); simpl; [| reflexivity].
    destruct (truthyId (BlueprintViewer.blueprintImage (viewer wd)));
      [| reflexivity].
    destruct (BlueprintViewer.isDrawing ty (viewer wd)); [reflexivity |].
    destruct (truthyId (BlueprintViewer.activeObjectId (viewer wd)));
      reflexivity.
  - destruct (BlueprintViewer.isAdmin (viewer wd)); reflexivity.
  - destruct (BlueprintViewer.isAdmin (viewer wd)); [| reflexivity].
    simpl. unfold BlueprintViewer.deleteObject.
    destruct (BlueprintViewer.idEq oid _), (BlueprintViewer.idEq oid _);
      reflexivity.
Qed.

Lemma external_canvas (ev : Event num) (wd : World num) :
  canvas (external ev wd) = canvas wd.
Proof.
  destruct ev; simpl; try reflexivity;
    try (destruct (truthyId _); reflexivity);
    destruct (BlueprintViewer.isAdmin (viewer wd)); reflexivity.
Qed.

Lemma step_role (ev : Event num) (wd : World num) :
  BlueprintViewer.role (viewer (step ev wd))
  = BlueprintViewer.role (viewer wd).
Proof.
  unfold step, commit. simpl. rewrite execAll_parts. simpl.
  rewrite applyPageAll_role. apply external_role.
Qed.

Lemma step_isAdmin (ev : Event num) (wd : World num) :
  BlueprintViewer.isAdmin (viewer (step ev wd))
  = BlueprintViewer.isAdmin (viewer wd).
Proof. unfold BlueprintViewer.isAdmin. rewrite step_role. reflexivity. Qed.

(** The effects that follow a render leave the drag session alone. *)
Lemma commit_drag (old : Props num) (wd : World num) :
  dragging (canvas (commit old wd)) = dragging (canvas wd)
  /\ dragRef (canvas (commit old wd)) = dragRef (canvas wd).
Proof.
  unfold commit. simpl.
  destruct (optEqb (imageUrl old) _), (optEqb (activeObjectId old) _);
    split; reflexivity.
Qed.

Lemma step_drag (ev : Event num) (wd : World num) :
  dragging (canvas (step ev wd))
  = dragging (after (emitted ev wd) (canvas wd))
  /\ dragRef (canvas (step ev wd))
     = dragRef (after (emitted ev wd) (canvas wd)).
Proof.
  unfold step.
  destruct (commit_drag (props wd) (execAll (emitted ev wd) (external ev wd)))
    as [-> ->].
  rewrite execAll_parts. simpl. rewrite external_canvas. split; reflexivity.
Qed.

(** What an event does to the drag session: nothing, or it closes it, or
    it is a mouse down on a rendered path, outside drawing and for a user
    that is not a worker, and it opens a session on a snapshot of the path
    of that object. *)
Lemma emitted_drag (ev : Event num) (wd : World num) :
  let s1 := after (emitted ev wd) (canvas wd) in
  (dragging s1 = dragging (canvas wd) /\ dragRef s1 = dragRef (canvas wd))
  \/ (dragging s1 = false /\ dragRef s1 = None)
  \/ (exists oid e obj,
        ev = MouseDown (Some oid) e /\ pathOf wd oid = Some obj
        /\ truthyId (activeObjectId (props wd)) = None
        /\ isWorker (props wd) = false
        /\ dragging s1 = true
        /\ dragRef s1
           = Some {| startClient := {| x := clientX e; y := clientY e |};
                     startPoints := pathPoints obj;
                     objId := id obj |}).
Proof.
  destruct ev as [t e | e | e | t e | | | e | d | d | ty i | u | bp | oid];
    cbn [emitted]; try unchanged.
  - (* Click *)
    destruct (negb (svgRendered _ _)); [unchanged |].
    destruct t as [oid |].
    + destruct (pathOf wd oid) as [obj |]; [| unchanged].
      unfold pathOnClick, handleSvgClick.
      destruct (truthyId (activeObjectId (props wd)));
        destruct (dragging (canvas wd)) eqn:Hd; unchanged.
    + unfold handleSvgClick.
      destruct (truthyId (activeObjectId (props wd)));
        destruct (dragging (canvas wd)) eqn:Hd; unchanged.
  - (* DblClick *)
    destruct (negb (svgRendered _ _)); [unchanged |].
    unfold handleSvgDoubleClick.
    destruct (truthyId (activeObjectId (props wd))); [| unchanged].
    destruct (_ <? 2); [unchanged |].
    destruct (onPathUpdate (props wd)), (onFinishDrawing (props wd));
      unchanged.
  - (* MouseMove *)
    destruct (negb (svgRendered _ _)); [unchanged |].
    unfold handleSvgMouseMove. rewrite after_app.
    assert (H : forall t, after (if dragging (canvas wd)
                 then handleDragMove (props wd) (canvas wd) e else []) t = t).
    { intros t. destruct (dragging (canvas wd));
        [apply handleDragMove_local | reflexivity]. }
    rewrite H.
    destruct (truthyId (activeObjectId (props wd))); unchanged.
  - (* MouseDown *)
    destruct (negb (svgRendered _ _)); [unchanged |].
    destruct t as [oid |]; [| unchanged].
    destruct (pathOf wd oid) as [obj |] eqn:Hobj; [| unchanged].
    unfold pathOnMouseDown, handlePathMouseDown.
    destruct (isWorker (props wd)) eqn:Hw; [unchanged |].
    destruct (truthyId (activeObjectId (props wd))) eqn:Ha; [unchanged |].
    right. right. exists oid, e, obj.
    rewrite copy_points.
    destruct (onObjectSelected (props wd));
      repeat split; reflexivity || assumption.
  - (* MouseUp *)
    destruct (negb (svgRendered _ _)); [unchanged |].
    right. left. split; reflexivity.
  - (* MouseLeave *)
    destruct (negb (svgRendered _ _)); [unchanged |].
    unfold svgOnMouseLeave.
    destruct (dragging (canvas wd)) eqn:Hd; [| unchanged].
    right. left. split; reflexivity.
  - (* KeyDown *)
    unfold handleKeyDown.
    destruct (truthyId (activeObjectId (props wd))); [| unchanged].
    destruct (ctrlKey e && shiftKey e && _)%bool.
    + destruct (lastOf _); unchanged.
    + destruct (ctrlKey e && negb (shiftKey e) && _)%bool; [| unchanged].
      destruct (lastOf _); unchanged.
  - (* Measure *)
    destruct (truthyId (imageUrl (props wd))); [| unchanged].
    unfold measureImage.
    destruct (imgEl d), (containerRect d); try unchanged.
    destruct (negb (truthy _)); unchanged.
Qed.

(** A callback of the page keeps the active annotation or clears it. *)
Lemma applyPageAll_active (log : list (Action num))
    (v : BlueprintViewer.State num) :
  let v1 := fold_left (fun v' a => applyPage a v') log v in
  BlueprintViewer.activeObjectId v1 = BlueprintViewer.activeObjectId v
  \/ BlueprintViewer.activeObjectId v1 = None.
Proof.
  revert v. induction log as [| a log IH]; intros v; simpl; [left; reflexivity |].
  destruct (IH (applyPage a v)) as [H | H]; [| right; exact H].
  simpl in H. rewrite H.
  destruct a; simpl; auto.
  unfold BlueprintViewer.onObjectSelected.
  destruct (truthyId (BlueprintViewer.activeObjectId v)); auto.
Qed.

(** Apart from a draw button, what the page does on its own keeps the
    active annotation or clears it. *)
Lemma external_active (ev : Event num) (wd : World num) :
  BlueprintViewer.activeObjectId (viewer (external ev wd))
  = BlueprintViewer.activeObjectId (viewer wd)
  \/ BlueprintViewer.activeObjectId (viewer (external ev wd)) = None
  \/ exists ty i, ev = DrawButton ty i.
Proof.
  destruct ev; simpl; auto.
  - destruct (truthyId _); auto.
  - destruct (truthyId _); auto.
  - right. right. eauto.
  - destruct (BlueprintViewer.isAdmin (viewer wd)); auto.
  - destruct (BlueprintViewer.isAdmin (viewer wd)); auto.
    simpl. unfold BlueprintViewer.deleteObject.
    destruct (BlueprintViewer.idEq oid (BlueprintViewer.activeObjectId _)),
      (BlueprintViewer.idEq oid (BlueprintViewer.selectedObjectId _)); auto.
Qed.

Lemma step_viewer (ev : Event num) (wd : World num) :
  viewer (step ev wd)
  = fold_left (fun v a => applyPage a v) (emitted ev wd)
      (viewer (external ev wd)).
Proof. unfold step, commit. simpl. rewrite execAll_parts. reflexivity. Qed.

(** Only a draw button turns the drawing mode on. *)
Lemma step_drawing (ev : Event num) (wd : World num) :
  isDrawingMode (step ev wd) = true ->
  isDrawingMode wd = true \/ exists ty i, ev = DrawButton ty i.
Proof.
  unfold isDrawingMode, props. cbn [BlueprintViewer.canvasProps activeObjectId].
  rewrite step_isAdmin, step_viewer.
  destruct (applyPageAll_active (emitted ev wd) (viewer (external ev wd)))
    as [-> | ->];
    [| destruct (BlueprintViewer.isAdmin (viewer wd)); discriminate].
  destruct (external_active ev wd) as [-> | [-> | H]]; auto.
  destruct (BlueprintViewer.isAdmin (viewer wd)); discriminate.
Qed.

Lemma step_exclusive (ev : Event num) (wd : World num) :
  exclusive wd = true ->
  (forall ty i, ev = DrawButton ty i -> isDraggingMode wd = false) ->
  exclusive (step ev wd) = true.
Proof.
  unfold exclusive. intros Hex Hbtn.
  destruct (isDrawingMode (step ev wd)) eqn:Hdraw; [| reflexivity].
  destruct (isDraggingMode (step ev wd)) eqn:Hdrag; [| reflexivity].
  exfalso. unfold isDraggingMode in *.
  destruct (step_drag ev wd) as [Hd _]. rewrite Hd in Hdrag.
  destruct (emitted_drag ev wd) as [[H1 _] | [[H1 _] | H1]].
  - rewrite H1 in Hdrag.
    destruct (step_drawing ev wd Hdraw) as [H | [ty [i H]]].
    + rewrite H, Hdrag in Hex. discriminate.
    + rewrite (Hbtn ty i H) in Hdrag. discriminate.
  - congruence.
  - destruct H1 as [oid [e [obj [Hev [_ [Ha _]]]]]].
    destruct (step_drawing ev wd Hdraw) as [H | [ty [i H]]].
    + unfold isDrawingMode in H. rewrite Ha in H. discriminate.
    + congruence.
Qed.

Lemma run_exclusive (evs : list (Event num)) (wd : World num) :
  exclusive wd = true ->
  activatedOutsideDrag evs wd = true ->
  exclusive (run evs wd) = true.
Proof.
  revert wd. induction evs as [| ev evs IH]; intros wd Hex Hact; simpl;
    [exact Hex |].
  simpl in Hact. apply andb_prop in Hact. destruct Hact as [Hev Hrest].
  apply IH; [| exact Hrest].
  apply step_exclusive; [exact Hex |].
  intros ty i ->. apply negb_true_iff. exact Hev.
Qed.

End Steps.

(** ** Drawing and dragging *)

Section Modes.
Import BlueprintCanvas Session.
Context {num : Type} {N : Num num}.

(** While drawing, a mouse down on a path makes no call at all. *)
Lemma handlePathMouseDown_while_drawing
    (p : Props num) (e : MouseEvent num) (obj : Obj num) (a : string) :
  truthyId (activeObjectId p) = Some a ->
  handlePathMouseDown p e obj = [] /\ pathOnMouseDown p e obj = [].
Proof.
  intros Ha. unfold pathOnMouseDown, handlePathMouseDown. rewrite Ha.
  destruct (negb (isWorker p)); split; reflexivity.
Qed.

(** While dragging, a click makes no call at all. *)
Lemma handleSvgClick_while_dragging
    (p : Props num) (d : Dom num) (s : State num) (e : MouseEvent num) :
  dragging s = true -> handleSvgClick p d s e = [].
Proof.
  intros Hd. unfold handleSvgClick. rewrite Hd.
  destruct (truthyId (activeObjectId p)); reflexivity.
Qed.

(** An event on which the canvas makes no call and the page does nothing
    leaves the canvas as it is. *)
Lemma silent_step_canvas (ev : Event num) (wd : World num) :
  emitted ev wd = [] -> external ev wd = wd ->
  canvas (step ev wd) = canvas wd.
Proof.
  intros He Hx. unfold step. rewrite He, Hx. unfold commit. simpl.
  rewrite !optEqb_refl. reflexivity.
Qed.

(** The two guards of the canvas.  A mouse down on a path while an
    annotation is active opens no drag session, and a click while a drag
    session is open appends no point.  Hence drawing and dragging stay
    exclusive along every sequence of events in which no draw button is
    pressed while a drag session is open; the page has no guard of its
    own for that case. *)
Lemma drawing_and_dragging_exclusive_unless_activated_in_drag :
  (forall (wd : World num) (t : option string) (e : MouseEvent num),
      isDrawingMode wd = true ->
      emitted (MouseDown t e) wd = []
      /\ dragging (canvas (step (MouseDown t e) wd)) = dragging (canvas wd)
      /\ dragRef (canvas (step (MouseDown t e) wd)) = dragRef (canvas wd))
  /\ (forall (wd : World num) (t : option string) (e : MouseEvent num),
         isDraggingMode wd = true ->
         emitted (Click t e) wd = []
         /\ currentPoints (canvas (step (Click t e) wd))
            = currentPoints (canvas wd))
  /\ (forall (evs : list (Event num)) (wd : World num),
         exclusive wd = true ->
         activatedOutsideDrag evs wd = true ->
         exclusive (run evs wd) = true).
Proof.
  split; [| split].
  - intros wd t e Hdraw.
    assert (He : emitted (MouseDown t e) wd = []).
    { unfold isDrawingMode in Hdraw. cbn [emitted].
      destruct (negb (svgRendered _ _)); [reflexivity |].
      destruct t as [oid |]; [| reflexivity].
      destruct (pathOf wd oid) as [obj |]; [| reflexivity].
      destruct (truthyId (activeObjectId (props wd))) as [a |] eqn:Ha;
        [| discriminate].
      apply (handlePathMouseDown_while_drawing _ e obj a Ha). }
    split; [exact He |].
    rewrite (silent_step_canvas _ wd He eq_refl). split; reflexivity.
  - intros wd t e Hdrag. unfold isDraggingMode in Hdrag.
    assert (He : emitted (Click t e) wd = []).
    { cbn [emitted].
      destruct (negb (svgRendered _ _)); [reflexivity |].
      destruct t as [oid |].
      - destruct (pathOf wd oid) as [obj |]; [| reflexivity].
        unfold pathOnClick. rewrite Hdrag.
        rewrite (handleSvgClick_while_dragging _ _ _ _ Hdrag).
        destruct (truthyId (activeObjectId (props wd))); reflexivity.
      - apply handleSvgClick_while_dragging. exact Hdrag. }
    split; [exact He |].
    rewrite (silent_step_canvas _ wd He eq_refl). reflexivity.
  - apply run_exclusive.
Qed.

(** C9. For a worker, no sequence of events opens a drag session: from a
    page without one the canvas is never dragging and never holds a
    snapshot; a mouse down, also one right on a path, makes no call; and
    no path shows the grab or the grabbing cursor. *)
Theorem worker_never_drags (wd : World num) (evs : list (Event num)) :
  BlueprintViewer.isWorker (viewer wd) = true ->
  isDraggingMode wd = false ->
  dragRef (canvas wd) = None ->
  let wd1 := run evs wd in
  isDraggingMode wd1 = false
  /\ dragRef (canvas wd1) = None
  /\ (forall (t : option string) (e : MouseEvent num),
         emitted (MouseDown t e) wd1 = [])
  /\ (forall obj : Obj num,
         cursor (props wd1) (canvas wd1) obj <> grab
         /\ cursor (props wd1) (canvas wd1) obj <> grabbing).
Proof.
  intros Hw Hd Hr wd1.
  assert (Hinv : BlueprintViewer.isWorker (viewer wd1) = true
                 /\ isDraggingMode wd1 = false /\ dragRef (canvas wd1) = None).
  { subst wd1. revert wd Hw Hd Hr.
    induction evs as [| ev evs IH]; intros wd Hw Hd Hr; simpl; [auto |].
    apply IH.
    - unfold BlueprintViewer.isWorker in *. rewrite step_isAdmin. exact Hw.
    - unfold isDraggingMode in *.
      destruct (step_drag ev wd) as [-> _].
      destruct (emitted_drag ev wd) as [[H _] | [[H _] | H]];
        [congruence | exact H |].
      destruct H as [oid [e [obj [_ [_ [_ [Hnw _]]]]]]].
      cbn in Hnw. congruence.
    - unfold isDraggingMode in *.
      destruct (step_drag ev wd) as [_ ->].
      destruct (emitted_drag ev wd) as [[_ H] | [[_ H] | H]];
        [congruence | exact H |].
      destruct H as [oid [e [obj [_ [_ [_ [Hnw _]]]]]]].
      cbn in Hnw. congruence. }
  destruct Hinv as [Hw1 [Hd1 Hr1]].
  split; [exact Hd1 |]. split; [exact Hr1 |]. split.
  - intros t e. cbn [emitted].
    destruct (negb (svgRendered _ _)); [reflexivity |].
    destruct t as [oid |]; [| reflexivity].
    destruct (pathOf wd1 oid) as [obj |]; [| reflexivity].
    unfold pathOnMouseDown. cbn. rewrite Hw1. reflexivity.
  - intros obj. unfold cursor. cbn. rewrite Hw1.
    rewrite andb_false_r.
    destruct (truthyId _); split; discriminate.
Qed.

(** A double click on a buffer that is too short makes no call to the
    page: the annotation list and the active annotation stay as they
    are, and only the drawing state of the canvas is reset. *)
Lemma degenerate_double_click_leaves_page
    (wd : World num) (e : MouseEvent num) :
  List.length (slice_0_m1 (currentPoints (canvas wd))) < 2 ->
  forallb (fun c => negb (isCallback c)) (emitted (DblClick e) wd) = true
  /\ viewer (step (DblClick e) wd) = viewer wd.
Proof.
  intros Hlen.
  assert (Hlog : emitted (DblClick e) wd = []
                 \/ emitted (DblClick e) wd
                    = [ setCurrentPoints []; setRedoStack [];
                        setMousePos None ]).
  { cbn [emitted]. destruct (negb (svgRendered _ _)); [left; reflexivity |].
    destruct (truthyId (activeObjectId (props wd))) as [a |] eqn:Ha.
    - right. apply (handleSvgDoubleClick_short _ _ a Ha Hlen).
    - left. unfold handleSvgDoubleClick. rewrite Ha. reflexivity. }
  rewrite step_viewer. cbn [external].
  destruct Hlog as [-> | ->]; split; reflexivity.
Qed.

End Modes.

(** ** Dragging a finished path *)

Section Dragging.
Import BlueprintCanvas Session.
Context {num : Type} {N : Num num}.
Local Open Scope js_scope.

(** A later path update of an object supersedes an earlier one. *)
Lemma handlePathUpdate_twice (oid : string) (pts1 pts2 : list (Point num))
    (v : BlueprintViewer.State num) :
  BlueprintViewer.handlePathUpdate oid pts2
    (BlueprintViewer.handlePathUpdate oid pts1 v)
  = BlueprintViewer.handlePathUpdate oid pts2 v.
Proof.
  unfold BlueprintViewer.handlePathUpdate, BlueprintViewer.setObjects. simpl.
  f_equal. rewrite map_map. apply map_ext. intros o.
  destruct (String.eqb (id o) oid) eqn:Ho; simpl; rewrite Ho; reflexivity.
Qed.

(** A pointer move, written out: the rubber band follows the pointer while
    drawing, the dragged path is reported while dragging, and the render
    that follows runs no effect. *)
Lemma step_MouseMove (e : MouseEvent num) (wd : World num) :
  step (MouseMove e) wd
  = {| viewer :=
         fold_left (fun v a => applyPage a v)
           (if svgRendered (props wd) (canvas wd) && dragging (canvas wd)
            then handleDragMove (props wd) (canvas wd) e else [])
           (viewer wd);
       canvas :=
         (if svgRendered (props wd) (canvas wd)
          then match truthyId (activeObjectId (props wd)) with
               | Some _ =>
                   applyLocal
                     (setMousePos
                        (Some (clientToSvg (dom wd) (canvas wd)
                                 (clientX e) (clientY e))))
                     (canvas wd)
               | None => canvas wd
               end
          else canvas wd);
       dom := match truthyId (imageUrl (props wd)) with
              | Some _ => dom wd
              | None => {| containerRect := None; imgEl := None |}
              end |}.
Proof.
  unfold step. cbn [external emitted].
  rewrite execAll_parts.
  set (log := if negb (svgRendered (props wd) (canvas wd)) then []
              else handleSvgMouseMove (props wd) (dom wd) (canvas wd) e).
  assert (Hv : fold_left (fun v a => applyPage a v) log (viewer wd)
               = fold_left (fun v a => applyPage a v)
                   (if svgRendered (props wd) (canvas wd)
                       && dragging (canvas wd)
                    then handleDragMove (props wd) (canvas wd) e else [])
                   (viewer wd)).
  { subst log. unfold handleSvgMouseMove.
    destruct (svgRendered (props wd) (canvas wd)); [| reflexivity].
    simpl negb. cbv iota. rewrite fold_left_app.
    destruct (truthyId (activeObjectId (props wd))); reflexivity. }
  assert (Hc : after log (canvas wd)
               = if svgRendered (props wd) (canvas wd)
                 then match truthyId (activeObjectId (props wd)) with
                      | Some _ =>
                          applyLocal
                            (setMousePos
                               (Some (clientToSvg (dom wd) (canvas wd)
                                        (clientX e) (clientY e))))
                            (canvas wd)
                      | None => canvas wd
                      end
                 else canvas wd).
  { subst log. unfold handleSvgMouseMove.
    destruct (svgRendered (props wd) (canvas wd)); [| reflexivity].
    simpl negb. cbv iota. rewrite after_app.
    assert (H : forall t, after (if dragging (canvas wd)
                 then handleDragMove (props wd) (canvas wd) e else []) t = t).
    { intros t. destruct (dragging (canvas wd));
        [apply handleDragMove_local | reflexivity]. }
    rewrite H.
    destruct (truthyId (activeObjectId (props wd))); reflexivity. }
  rewrite Hv, Hc. clear Hv Hc log.
  assert (Hp : forall v0,
    let v1 := fold_left (fun v a => applyPage a v)
                (if svgRendered (props wd) (canvas wd) && dragging (canvas wd)
                 then handleDragMove (props wd) (canvas wd) e else []) v0 in
    BlueprintViewer.blueprintImage v1 = BlueprintViewer.blueprintImage v0
    /\ BlueprintViewer.activeObjectId v1 = BlueprintViewer.activeObjectId v0
    /\ BlueprintViewer.role v1 = BlueprintViewer.role v0).
  { intros v0.
    destruct (svgRendered (props wd) (canvas wd) && dragging (canvas wd))%bool;
      [| repeat split].
    unfold handleDragMove.
    destruct (dragRef (canvas wd)), (imgRect (canvas wd)),
      (naturalSize (canvas wd)); try (repeat split; reflexivity).
    destruct (onPathUpdate (props wd)); repeat split; reflexivity. }
  destruct (Hp (viewer wd)) as [Himg [Hact Hrole]]. clear Hp.
  remember (fold_left (fun v a => applyPage a v) _ (viewer wd)) as v1.
  remember (if svgRendered (props wd) (canvas wd) then _ else canvas wd)
    as c1.
  clear Heqv1 Heqc1.
  unfold commit, props. cbn [viewer canvas dom].
  cbn [BlueprintViewer.canvasProps imageUrl activeObjectId].
  unfold BlueprintViewer.isAdmin.
  rewrite Himg, Hact, Hrole, !optEqb_refl. reflexivity.
Qed.

(** What a pointer move leaves as it is: everything the next pointer move
    reads, except the annotation list and the last pointer position. *)
Lemma mousemove_keeps (e : MouseEvent num) (wd : World num) :
  let wd1 := step (MouseMove e) wd in
  imageUrl (props wd1) = imageUrl (props wd)
  /\ activeObjectId (props wd1) = activeObjectId (props wd)
  /\ onPathUpdate (props wd1) = onPathUpdate (props wd)
  /\ dragging (canvas wd1) = dragging (canvas wd)
  /\ dragRef (canvas wd1) = dragRef (canvas wd)
  /\ imgRect (canvas wd1) = imgRect (canvas wd)
  /\ naturalSize (canvas wd1) = naturalSize (canvas wd)
  /\ (svgRendered (props wd) (canvas wd) = true -> dom wd1 = dom wd).
Proof.
  intros wd1.
  assert (Hadm : BlueprintViewer.isAdmin (viewer wd1)
                 = BlueprintViewer.isAdmin (viewer wd))
    by apply step_isAdmin.
  assert (Hv : BlueprintViewer.blueprintImage (viewer wd1)
               = BlueprintViewer.blueprintImage (viewer wd)
               /\ BlueprintViewer.activeObjectId (viewer wd1)
                  = BlueprintViewer.activeObjectId (viewer wd)).
  { subst wd1. rewrite step_MouseMove. cbn [viewer].
    destruct (svgRendered (props wd) (canvas wd) && dragging (canvas wd))%bool;
      [| split; reflexivity].
    unfold handleDragMove.
    destruct (dragRef (canvas wd)), (imgRect (canvas wd)),
      (naturalSize (canvas wd)); try (split; reflexivity).
    destruct (onPathUpdate (props wd)); split; reflexivity. }
  destruct Hv as [Himg Hact].
  assert (Hc : dragging (canvas wd1) = dragging (canvas wd)
               /\ dragRef (canvas wd1) = dragRef (canvas wd)
               /\ imgRect (canvas wd1) = imgRect (canvas wd)
               /\ naturalSize (canvas wd1) = naturalSize (canvas wd)).
  { subst wd1. rewrite step_MouseMove. cbn [canvas].
    destruct (svgRendered (props wd) (canvas wd));
      [| repeat split; reflexivity].
    destruct (truthyId (activeObjectId (props wd)));
      repeat split; reflexivity. }
  unfold props. cbn [BlueprintViewer.canvasProps imageUrl activeObjectId
                     onPathUpdate].
  rewrite Hadm, Himg, Hact.
  destruct Hc as [Hc1 [Hc2 [Hc3 Hc4]]].
  do 7 (split; [first [reflexivity | assumption] |]).
  fold (props wd). intros Hr. subst wd1. rewrite step_MouseMove. cbn [dom].
  unfold svgRendered in Hr.
  destruct (truthyId (imageUrl (props wd))); [reflexivity | discriminate].
Qed.

(** A pointer move makes the one before it irrelevant. *)
Lemma mousemove_absorbs (e1 e2 : MouseEvent num) (wd : World num) :
  step (MouseMove e2) (step (MouseMove e1) wd) = step (MouseMove e2) wd.
Proof.
  destruct (mousemove_keeps e1 wd)
    as [Himg [Hact [Hcb [Hdg [Hdr [Hir [Hns Hdom]]]]]]].
  rewrite (step_MouseMove e2 (step (MouseMove e1) wd)).
  rewrite (step_MouseMove e2 wd).
  assert (Hr : svgRendered (props (step (MouseMove e1) wd))
                 (canvas (step (MouseMove e1) wd))
               = svgRendered (props wd) (canvas wd)).
  { unfold svgRendered. rewrite Himg, Hir, Hns. reflexivity. }
  assert (Hm : handleDragMove (props (step (MouseMove e1) wd))
                 (canvas (step (MouseMove e1) wd)) e2
               = handleDragMove (props wd) (canvas wd) e2).
  { unfold handleDragMove. rewrite Hcb, Hdr, Hir, Hns. reflexivity. }
  assert (Hp : svgRendered (props wd) (canvas wd) = true ->
               clientToSvg (dom (step (MouseMove e1) wd))
                 (canvas (step (MouseMove e1) wd)) (clientX e2) (clientY e2)
               = clientToSvg (dom wd) (canvas wd) (clientX e2) (clientY e2)).
  { intros H. unfold clientToSvg. rewrite Hir, Hns, (Hdom H). reflexivity. }
  rewrite Hr, Hm, Hdg, Hact, Himg.
  destruct (svgRendered (props wd) (canvas wd)) eqn:Hrd;
    [rewrite (Hp eq_refl) |];
    rewrite (step_MouseMove e1 wd); rewrite Hrd; cbn [viewer canvas dom];
    f_equal.
  - (* the page, with the drawing layer rendered *)
    simpl andb.
    destruct (dragging (canvas wd)); [| reflexivity].
    unfold handleDragMove.
    destruct (dragRef (canvas wd)), (imgRect (canvas wd)),
      (naturalSize (canvas wd)); try reflexivity.
    destruct (onPathUpdate (props wd)); [| reflexivity].
    simpl. apply handlePathUpdate_twice.
  - (* the canvas *)
    destruct (truthyId (activeObjectId (props wd))); reflexivity.
  - (* the document *)
    destruct (truthyId (imageUrl (props wd))); reflexivity.
  - destruct (truthyId (imageUrl (props wd))); reflexivity.
Qed.

(** Any number of pointer moves comes to what the last of them does. *)
Lemma mousemoves_absorb (moves : list (MouseEvent num)) (e : MouseEvent num)
    (wd : World num) :
  run (map MouseMove (moves ++ [ e ])) wd = step (MouseMove e) wd.
Proof.
  revert wd. induction moves as [| m moves IH]; intros wd; simpl;
    [reflexivity |].
  change (fold_left (fun wd' ev => step ev wd') (map MouseMove (moves ++ [e]))
            (step (MouseMove m) wd))
    with (run (map MouseMove (moves ++ [e])) (step (MouseMove m) wd)).
  rewrite IH. apply mousemove_absorbs.
Qed.

(** Pointer moves leave as it is everything a pointer move reads, except
    the annotation list and the last pointer position. *)
Lemma mousemoves_keep (moves : list (MouseEvent num)) (wd : World num) :
  let wd1 := run (map MouseMove moves) wd in
  imageUrl (props wd1) = imageUrl (props wd)
  /\ activeObjectId (props wd1) = activeObjectId (props wd)
  /\ onPathUpdate (props wd1) = onPathUpdate (props wd)
  /\ dragging (canvas wd1) = dragging (canvas wd)
  /\ dragRef (canvas wd1) = dragRef (canvas wd)
  /\ imgRect (canvas wd1) = imgRect (canvas wd)
  /\ naturalSize (canvas wd1) = naturalSize (canvas wd).
Proof.
  revert wd. induction moves as [| m moves IH]; intros wd; cbv zeta.
  - repeat split; reflexivity.
  - change (run (map MouseMove (m :: moves)) wd)
      with (run (map MouseMove moves) (step (MouseMove m) wd)).
    destruct (mousemove_keeps m wd) as [H1 [H2 [H3 [H4 [H5 [H6 [H7 _]]]]]]].
    destruct (IH (step (MouseMove m) wd)) as [K1 [K2 [K3 [K4 [K5 [K6 K7]]]]]].
    rewrite K1, K2, K3, K4, K5, K6, K7. repeat split; assumption.
Qed.

(** The mouse down that opens a drag session, written out. *)
Lemma step_MouseDown_opens (wd : World num) (oid : string) (obj : Obj num)
    (e0 : MouseEvent num) :
  BlueprintViewer.isAdmin (viewer wd) = true ->
  isDrawingMode wd = false ->
  svgRendered (props wd) (canvas wd) = true ->
  pathOf wd oid = Some obj ->
  step (MouseDown (Some oid) e0) wd
  = {| viewer :=
         BlueprintViewer.setSelectedObjectId (Some (id obj)) (viewer wd);
       canvas :=
         applyLocal (setDragging true)
           (applyLocal
              (setDragRef
                 (Some {| startClient :=
                            {| x := clientX e0; y := clientY e0 |};
                          startPoints := pathPoints obj;
                          objId := id obj |}))
              (canvas wd));
       dom := dom wd |}.
Proof.
  intros Hadm Hdraw Hrd Hobj.
  assert (Hact : truthyId (BlueprintViewer.activeObjectId (viewer wd)) = None).
  { unfold isDrawingMode, props in Hdraw. cbn in Hdraw. rewrite Hadm in Hdraw.
    destruct (truthyId _); [discriminate | reflexivity]. }
  assert (Himg : exists u, truthyId (imageUrl (props wd)) = Some u).
  { unfold svgRendered in Hrd.
    destruct (truthyId (imageUrl (props wd))) as [u |];
      [exists u; reflexivity | discriminate]. }
  destruct Himg as [u Himg].
  unfold step. cbn [external emitted]. rewrite Hrd, Hobj. simpl negb. cbv iota.
  unfold pathOnMouseDown, handlePathMouseDown.
  assert (Hw : isWorker (props wd) = false).
  { cbn. unfold BlueprintViewer.isWorker. rewrite Hadm. reflexivity. }
  assert (Ha : truthyId (activeObjectId (props wd)) = None).
  { cbn. rewrite Hadm. exact Hact. }
  rewrite Hw, Ha. simpl negb. cbv iota. rewrite copy_points.
  cbn [onObjectSelected props BlueprintViewer.canvasProps].
  rewrite execAll_parts. cbn [fold_left app applyPage after applyLocal].
  unfold BlueprintViewer.onObjectSelected. rewrite Hact.
  unfold commit, props.
  cbn [viewer canvas dom BlueprintViewer.canvasProps imageUrl activeObjectId].
  unfold BlueprintViewer.isAdmin.
  cbn [BlueprintViewer.setSelectedObjectId BlueprintViewer.role
       BlueprintViewer.blueprintImage BlueprintViewer.activeObjectId].
  rewrite !optEqb_refl.
  cbn [imageUrl props BlueprintViewer.canvasProps] in Himg. rewrite Himg.
  reflexivity.
Qed.

(** C6. During a drag session opened on an object, whatever pointer moves
    came before, a pointer move to a position reports the snapshot taken
    at the mouse down, each point translated by the one displacement
    ((pointerX - startX) / renderedWidth * naturalWidth,
     (pointerY - startY) / renderedHeight * naturalHeight); the page after
    the intermediate moves and this one is the page after this move
    alone, and the dragged object carries the translated snapshot. *)
Theorem drag_translates_snapshot_without_drift
    (wd : World num) (oid : string) (obj : Obj num)
    (r : Rect num) (n : Size num)
    (e0 : MouseEvent num) (moves : list (MouseEvent num))
    (e : MouseEvent num) :
  BlueprintViewer.isAdmin (viewer wd) = true ->
  isDrawingMode wd = false ->
  svgRendered (props wd) (canvas wd) = true ->
  imgRect (canvas wd) = Some r ->
  naturalSize (canvas wd) = Some n ->
  pathOf wd oid = Some obj ->
  let wd0 := step (MouseDown (Some oid) e0) wd in
  let dxNat := ((clientX e - clientX e0) / width r) * w n in
  let dyNat := ((clientY e - clientY e0) / height r) * h n in
  let moved := map (translate dxNat dyNat) (pathPoints obj) in
  dragRef (canvas wd0)
  = Some {| startClient := {| x := clientX e0; y := clientY e0 |};
            startPoints := pathPoints obj;
            objId := id obj |}
  /\ emitted (MouseMove e) (run (map MouseMove moves) wd0)
     = [ callPathUpdate (id obj) moved ]
  /\ run (map MouseMove (moves ++ [ e ])) wd0 = step (MouseMove e) wd0
  /\ (forall o : Obj num,
         In o (BlueprintViewer.objects
                 (viewer (run (map MouseMove (moves ++ [ e ])) wd0))) ->
         id o = id obj -> pathPoints o = moved).
Proof.
  intros Hadm Hdraw Hrd Hir Hns Hobj wd0 dxNat dyNat moved.
  assert (Hwd0 := step_MouseDown_opens wd oid obj e0 Hadm Hdraw Hrd Hobj).
  fold wd0 in Hwd0.
  assert (Hact : truthyId (activeObjectId (props wd)) = None).
  { unfold isDrawingMode in Hdraw.
    destruct (truthyId (activeObjectId (props wd))); [discriminate | auto]. }
  assert (Hlog : forall wdk : World num,
    imageUrl (props wdk) = imageUrl (props wd0) ->
    activeObjectId (props wdk) = activeObjectId (props wd0) ->
    onPathUpdate (props wdk) = onPathUpdate (props wd0) ->
    dragging (canvas wdk) = dragging (canvas wd0) ->
    dragRef (canvas wdk) = dragRef (canvas wd0) ->
    imgRect (canvas wdk) = imgRect (canvas wd0) ->
    naturalSize (canvas wdk) = naturalSize (canvas wd0) ->
    emitted (MouseMove e) wdk = [ callPathUpdate (id obj) moved ]).
  { intros wdk K1 K2 K3 K4 K5 K6 K7.
    assert (F1 : imageUrl (props wd0) = imageUrl (props wd))
      by (rewrite Hwd0; reflexivity).
    assert (F2 : activeObjectId (props wd0) = activeObjectId (props wd))
      by (rewrite Hwd0; reflexivity).
    assert (F3 : onPathUpdate (props wd0) = true)
      by (rewrite Hwd0; exact Hadm).
    assert (F4 : dragging (canvas wd0) = true)
      by (rewrite Hwd0; reflexivity).
    assert (F5 : dragRef (canvas wd0)
                 = Some {| startClient :=
                             {| x := clientX e0; y := clientY e0 |};
                           startPoints := pathPoints obj;
                           objId := id obj |})
      by (rewrite Hwd0; reflexivity).
    assert (F6 : imgRect (canvas wd0) = Some r)
      by (rewrite Hwd0; exact Hir).
    assert (F7 : naturalSize (canvas wd0) = Some n)
      by (rewrite Hwd0; exact Hns).
    cbn [emitted].
    unfold svgRendered, handleSvgMouseMove, handleDragMove.
    rewrite K1, K2, K3, K4, K5, K6, K7, F1, F2, F3, F4, F5, F6, F7, Hact.
    unfold svgRendered in Hrd.
    destruct (truthyId (imageUrl (props wd))); [| discriminate].
    reflexivity. }
  split; [| split; [| split]].
  - rewrite Hwd0. reflexivity.
  - destruct (mousemoves_keep moves wd0) as [K1 [K2 [K3 [K4 [K5 [K6 K7]]]]]].
    apply Hlog; assumption.
  - apply mousemoves_absorb.
  - rewrite mousemoves_absorb, step_viewer.
    rewrite (Hlog wd0) by reflexivity.
    cbn [external fold_left applyPage].
    unfold BlueprintViewer.handlePathUpdate.
    cbn [BlueprintViewer.setObjects BlueprintViewer.objects].
    intros o Hin Hid. apply in_map_iff in Hin.
    destruct Hin as [o' [Ho' _]].
    destruct (String.eqb (id o') (id obj)) eqn:Heq.
    + subst o. reflexivity.
    + subst o. apply String.eqb_neq in Heq. contradiction.
Qed.

End Dragging.

(** ** The sample sessions, checked *)

Section Samples.
Import BlueprintCanvas Session Scenario.
Local Open Scope string_scope.

(** The clicks of the sample drawing fill the buffer as expected, and the
    finished pipe is the object the page holds. *)
Lemma midDrawing_buffer :
  currentPoints (canvas midDrawing) = [ p0; p1; p2; p2 ]
  /\ truthyId (activeObjectId (props midDrawing)) = Some "obj-1".
Proof. split; reflexivity. Qed.

Lemma pipeDrawn_objects :
  BlueprintViewer.objects (viewer pipeDrawn) = [ pipe ]
  /\ BlueprintViewer.activeObjectId (viewer pipeDrawn) = None
  /\ pathOf pipeDrawn "obj-1" = Some pipe.
Proof. repeat split; reflexivity. Qed.

(** C1 on the sample drawing: the buffer [p0, p1, p2, p2] is reported as
    [p0, p1, p2]. *)
Lemma double_click_discards_last_point_sample :
  truthyId (activeObjectId (props midDrawing)) = Some "obj-1"
  /\ onPathUpdate (props midDrawing) = true
  /\ List.length (currentPoints (canvas midDrawing)) = 4
  /\ 3 <= 4
  /\ pathUpdates (handleSvgDoubleClick (props midDrawing) (canvas midDrawing))
     = [ ("obj-1", [ p0; p1; p2 ]) ].
Proof.
  repeat (split; [first [reflexivity | lia] |]).
  apply (double_click_discards_last_point
           (props midDrawing) (canvas midDrawing) "obj-1" 4);
    first [reflexivity | lia].
Defined.

(** C5 on the sample drawing. *)
Lemma finish_order_sample :
  truthyId (activeObjectId (props midDrawing)) = Some "obj-1"
  /\ 2 <= List.length (slice_0_m1 (currentPoints (canvas midDrawing)))
  /\ handleSvgDoubleClick (props midDrawing) (canvas midDrawing)
     = [ callPathUpdate "obj-1" [ p0; p1; p2 ];
         callFinishDrawing "obj-1";
         setCurrentPoints []; setRedoStack []; setMousePos None ].
Proof.
  assert (H : 2 <= List.length (slice_0_m1 (currentPoints (canvas midDrawing))))
    by (vm_compute; lia).
  split; [reflexivity |]. split; [exact H |].
  pose proof (proj1 (finish_reports_path_then_finishes_then_clears
                       (props midDrawing) (canvas midDrawing) "obj-1"
                       eq_refl H) eq_refl eq_refl) as Hlog.
  rewrite Hlog. reflexivity.
Defined.

(** C3 on the sample drawing: Ctrl+Z takes [p2] off the buffer, and
    Ctrl+Shift+Z right after it gives the state back. *)
Lemma undo_then_redo_sample :
  truthyId (activeObjectId (props midDrawing)) = Some "obj-1"
  /\ isUndoKey ctrlZ = true
  /\ isRedoKey ctrlShiftZ = true
  /\ currentPoints (after (handleKeyDown (props midDrawing)
                             (canvas midDrawing) ctrlZ) (canvas midDrawing))
     = [ p0; p1; p2 ]
  /\ after (handleKeyDown (props midDrawing)
              (after (handleKeyDown (props midDrawing) (canvas midDrawing)
                        ctrlZ) (canvas midDrawing))
              ctrlShiftZ)
       (after (handleKeyDown (props midDrawing) (canvas midDrawing) ctrlZ)
          (canvas midDrawing))
     = canvas midDrawing.
Proof.
  do 4 (split; [reflexivity |]).
  assert (Hne : currentPoints (canvas midDrawing) <> [])
    by (vm_compute; discriminate).
  exact (proj2 (proj2 (proj1 (undo_then_redo_restores
                                (props midDrawing) (canvas midDrawing) "obj-1"
                                ctrlZ ctrlShiftZ eq_refl eq_refl eq_refl)
                         Hne))).
Defined.

(** C4 on the sample drawing: after an undo the redo buffer holds [p2];
    the next click empties it. *)
Lemma click_clears_redo_sample :
  truthyId (activeObjectId (props afterUndo)) = Some "obj-1"
  /\ dragging (canvas afterUndo) = false
  /\ redoStack (canvas afterUndo) = [ p2 ]
  /\ redoStack (after (handleSvgClick (props afterUndo) (dom afterUndo)
                         (canvas afterUndo) (pointerAt 120 180))
                  (canvas afterUndo))
     = [].
Proof.
  assert (H1 : truthyId (activeObjectId (props afterUndo)) = Some "obj-1")
    by (vm_compute; reflexivity).
  assert (H2 : dragging (canvas afterUndo) = false)
    by (vm_compute; reflexivity).
  split; [exact H1 |]. split; [exact H2 |].
  split; [vm_compute; reflexivity |].
  exact (proj2 (click_clears_redo (props afterUndo) (dom afterUndo)
                  (canvas afterUndo) (pointerAt 120 180) "obj-1" H1 H2)).
Defined.

(** C7 on the sample layout. *)
Lemma clientToSvg_sample :
  frameValid (dom midDrawing) (canvas midDrawing) = true
  /\ clientToSvg (dom midDrawing) (canvas midDrawing) 220%float 180%float
     = p2
  /\ clientToSvg (dom adminPage) (canvas adminPage) 220%float 180%float
     = {| x := 0%float; y := 0%float |}.
Proof.
  split; [reflexivity |]. split.
  - exact (proj2 (proj2 (clientToSvg_default_or_scaled
                           (dom midDrawing) (canvas midDrawing)
                           220%float 180%float)
                    {| left := 100; top := 50; width := 400; height := 300 |}%float
                    {| w := 1600; h := 1200 |}%float
                    {| left := 10; top := 20; width := 800; height := 600 |}%float
                    eq_refl eq_refl eq_refl)).
  - exact (proj1 (clientToSvg_default_or_scaled
                    (dom adminPage) (canvas adminPage) 220%float 180%float)
             eq_refl).
Defined.

(** C6 on the finished pipe: pressed at (200, 80) and moved to (230, 100)
    by way of two other positions, it is where one direct move puts it. *)
Lemma drag_sample :
  let wd0 := step (MouseDown (Some "obj-1") (pointerAt 200 80)) pipeDrawn in
  BlueprintViewer.isAdmin (viewer pipeDrawn) = true
  /\ isDrawingMode pipeDrawn = false
  /\ svgRendered (props pipeDrawn) (canvas pipeDrawn) = true
  /\ pathOf pipeDrawn "obj-1" = Some pipe
  /\ run (map MouseMove
            ([ pointerAt 210 90; pointerAt 205 300 ] ++ [ pointerAt 230 100 ]))
       wd0
     = step (MouseMove (pointerAt 230 100)) wd0.
Proof.
  repeat (split; [reflexivity |]).
  apply (drag_translates_snapshot_without_drift
           pipeDrawn "obj-1" pipe
           {| left := 100; top := 50; width := 400; height := 300 |}%float
           {| w := 1600; h := 1200 |}%float
           (pointerAt 200 80)
           [ pointerAt 210 90; pointerAt 205 300 ] (pointerAt 230 100)
           eq_refl eq_refl eq_refl eq_refl eq_refl eq_refl).
Defined.

(** The two guards on the sample sessions: while the second pipe is being
    drawn, a mouse down on the finished pipe opens no drag session; while
    the finished pipe is dragged, a click appends no point; and a session
    of drawing, pressing, moving and releasing is exclusive at its end. *)
Lemma exclusive_sample :
  isDrawingMode secondDrawing = true
  /\ pathOf secondDrawing "obj-1" = Some pipe
  /\ emitted (MouseDown (Some "obj-1") (pointerAt 200 80)) secondDrawing = []
  /\ dragging (canvas (step (MouseDown (Some "obj-1") (pointerAt 200 80))
                         secondDrawing)) = false
  /\ isDraggingMode draggingPipe = true
  /\ emitted (Click None (pointerAt 230 100)) draggingPipe = []
  /\ currentPoints (canvas (step (Click None (pointerAt 230 100))
                              draggingPipe)) = []
  /\ exclusive adminPage = true
  /\ activatedOutsideDrag
       (startPipe ++ drawThreePoints ++ pressMoveRelease)%list adminPage = true
  /\ exclusive
       (run (startPipe ++ drawThreePoints ++ pressMoveRelease)%list adminPage)
     = true.
Proof.
  assert (H1 : isDrawingMode secondDrawing = true)
    by (vm_compute; reflexivity).
  assert (H2 : isDraggingMode draggingPipe = true)
    by (vm_compute; reflexivity).
  assert (H3 : activatedOutsideDrag
                 (startPipe ++ drawThreePoints ++ pressMoveRelease)%list
                 adminPage = true) by (vm_compute; reflexivity).
  destruct drawing_and_dragging_exclusive_unless_activated_in_drag
    as [Hdown [Hclick Hrun]].
  destruct (Hdown secondDrawing (Some "obj-1") (pointerAt 200 80) H1)
    as [Hd1 [Hd2 _]].
  destruct (Hclick draggingPipe None (pointerAt 230 100) H2) as [Hc1 Hc2].
  split; [exact H1 |]. split; [vm_compute; reflexivity |].
  split; [exact Hd1 |]. split; [rewrite Hd2; vm_compute; reflexivity |].
  split; [exact H2 |]. split; [exact Hc1 |].
  split; [rewrite Hc2; vm_compute; reflexivity |].
  split; [reflexivity |]. split; [exact H3 |].
  exact (Hrun _ adminPage eq_refl H3).
Qed.

(** C8 on a session of the admin.  The finished pipe obj-1 is pressed at
    (200, 80), which opens a drag session, and with the mouse button still
    held a draw button is pressed from the keyboard.  The page makes a new
    pipe obj-2 the active annotation, and nothing closes the drag session:
    the canvas is drawing and dragging at once, although
    [handlePathMouseDown] is commented "don't drag while drawing".  The
    next pointer move does both things: it sets the pointer position of
    the drawing and reports a moved path for obj-1, which the page stores.
    A click in that state adds no point to the drawing. *)
Lemma draw_button_during_drag_keeps_dragging :
  let moved : list (Point float) :=
    [ {| x := 160; y := 120 |}; {| x := 560; y := 120 |};
      {| x := 560; y := 520 |} ]%float in
  isDrawingMode draggingPipe = false
  /\ isDraggingMode draggingPipe = true
  /\ drawingWhileDragging = step (DrawButton "pipe" "obj-2") draggingPipe
  /\ BlueprintViewer.activeObjectId (viewer drawingWhileDragging)
     = Some "obj-2"
  /\ option_map (@objId float) (dragRef (canvas drawingWhileDragging))
     = Some "obj-1"
  /\ isDrawingMode drawingWhileDragging = true
  /\ isDraggingMode drawingWhileDragging = true
  /\ exclusive drawingWhileDragging = false
  /\ pathOf drawingWhileDragging "obj-1" = Some pipe
  /\ emitted (MouseMove (pointerAt 230 100)) drawingWhileDragging
     = [ setMousePos (Some {| x := 480%float; y := 120%float |});
         callPathUpdate "obj-1" moved ]
  /\ option_map (@pathPoints float)
       (pathOf (step (MouseMove (pointerAt 230 100)) drawingWhileDragging)
          "obj-1")
     = Some moved
  /\ moved <> pathPoints pipe
  /\ isDrawingMode (step (MouseMove (pointerAt 230 100)) drawingWhileDragging)
     = true
  /\ isDraggingMode (step (MouseMove (pointerAt 230 100)) drawingWhileDragging)
     = true
  /\ emitted (Click None (pointerAt 230 100)) drawingWhileDragging = [].
Proof.
  cbn zeta. repeat split; try (vm_compute; reflexivity).
  vm_compute. discriminate.
Qed.



(** C9 on the worker's page: pressing, moving and releasing on the path
    of the pipe opens no drag session. *)
Lemma worker_sample :
  BlueprintViewer.isWorker (viewer planOpened) = true
  /\ isDraggingMode planOpened = false
  /\ dragRef (canvas planOpened) = None
  /\ pathOf planOpened "obj-1" <> None
  /\ isDraggingMode (run tryToDrag planOpened) = false
  /\ dragRef (canvas (run tryToDrag planOpened)) = None.
Proof.
  do 3 (split; [reflexivity |]). split; [discriminate |].
  pose proof (worker_never_drags planOpened tryToDrag
                eq_refl eq_refl eq_refl) as H.
  split; [exact (proj1 H) | exact (proj1 (proj2 H))].
Defined.

(** On the numbers of the engine: a click at (50, 700), left of and below
    the rendered image, while drawing appends (-240, 2520), outside the
    1600 x 1200 natural pixels. *)
Lemma click_outside_image_appended :
  currentPoints
    (canvas (step (Click None (pointerAt 50 700)) afterUndo))
  = [ p0; p1; p2; {| x := (-240)%float; y := 2520%float |} ].
Proof. vm_compute. reflexivity. Qed.

(** C2 on the sample session: a double click right after the draw button
    leaves a buffer of one point after trimming.  The canvas makes no call
    to the page and resets its buffer; the object stays in the annotation
    list, still in progress, and stays the active one. *)
Lemma degenerate_double_click_keeps_object :
  currentPoints (canvas barelyStarted) = [ p0; p0 ]
  /\ emitted (DblClick (pointerAt 120 80)) barelyStarted
     = [ setCurrentPoints []; setRedoStack []; setMousePos None ]
  /\ doubleClickedAtOnce = step (DblClick (pointerAt 120 80)) barelyStarted
  /\ currentPoints (canvas doubleClickedAtOnce) = []
  /\ BlueprintViewer.objects (viewer doubleClickedAtOnce)
     = [ {| id := "obj-1"; type := "pipe"; pathPoints := [];
            assignedTo := None; assignedToName := None;
            completed := false; drawing := true |} ]
  /\ BlueprintViewer.activeObjectId (viewer doubleClickedAtOnce)
     = Some "obj-1".
Proof. repeat split; vm_compute; reflexivity. Qed.

End Samples.

(** ** Undo and redo, further *)

Section UndoRedo.
Import BlueprintCanvas.
Context {num : Type} {N : Num num}.

Lemma isUndoKey_handle (p : Props num) (s : State num) (a : string)
    (e : KeyEvent) :
  truthyId (activeObjectId p) = Some a -> isUndoKey e = true ->
  handleKeyDown p s e
  = match lastOf (currentPoints s) with
    | None => [ setCurrentPoints (currentPoints s) ]
    | Some removed =>
        [ setCurrentPoints (slice_0_m1 (currentPoints s));
          setRedoStack (redoStack s ++ [ removed ]) ]
    end.
Proof.
  intros Ha Hu. unfold handleKeyDown. rewrite Ha. unfold isUndoKey in Hu.
  destruct (ctrlKey e), (shiftKey e); try discriminate.
  simpl in Hu |- *. rewrite orb_comm in Hu. rewrite Hu. reflexivity.
Qed.

Lemma isRedoKey_handle (p : Props num) (s : State num) (a : string)
    (e : KeyEvent) :
  truthyId (activeObjectId p) = Some a -> isRedoKey e = true ->
  handleKeyDown p s e
  = match lastOf (redoStack s) with
    | None => [ setRedoStack (redoStack s) ]
    | Some point =>
        [ setRedoStack (slice_0_m1 (redoStack s));
          setCurrentPoints (currentPoints s ++ [ point ]) ]
    end.
Proof.
  intros Ha Hr. unfold handleKeyDown. rewrite Ha. unfold isRedoKey in Hr.
  destruct (ctrlKey e), (shiftKey e); try discriminate.
  simpl in Hr |- *. rewrite Hr. reflexivity.
Qed.

(** Undo on a buffer that ends with [v], and redo on a redo buffer that
    ends with [v], written out. *)
Lemma pressKey_undo_snoc (p : Props num) (a : string) (e : KeyEvent)
    (pts rs : list (Point num)) (v : Point num) (mp : option (Point num))
    (dg : bool) (dr : option (DragSession num))
    (ir : option (Rect num)) (ns : option (Size num)) :
  truthyId (activeObjectId p) = Some a -> isUndoKey e = true ->
  pressKey p e {| currentPoints := pts ++ [ v ]; redoStack := rs;
                  mousePos := mp; dragging := dg; dragRef := dr;
                  imgRect := ir; naturalSize := ns |}
  = {| currentPoints := pts; redoStack := rs ++ [ v ];
       mousePos := mp; dragging := dg; dragRef := dr;
       imgRect := ir; naturalSize := ns |}.
Proof.
  intros Ha Hu. unfold pressKey. rewrite (isUndoKey_handle p _ a e Ha Hu).
  simpl. rewrite lastOf_snoc, slice_0_m1_snoc. reflexivity.
Qed.

Lemma pressKey_redo_snoc (p : Props num) (a : string) (e : KeyEvent)
    (pts rs : list (Point num)) (v : Point num) (mp : option (Point num))
    (dg : bool) (dr : option (DragSession num))
    (ir : option (Rect num)) (ns : option (Size num)) :
  truthyId (activeObjectId p) = Some a -> isRedoKey e = true ->
  pressKey p e {| currentPoints := pts; redoStack := rs ++ [ v ];
                  mousePos := mp; dragging := dg; dragRef := dr;
                  imgRect := ir; naturalSize := ns |}
  = {| currentPoints := pts ++ [ v ]; redoStack := rs;
       mousePos := mp; dragging := dg; dragRef := dr;
       imgRect := ir; naturalSize := ns |}.
Proof.
  intros Ha Hr. unfold pressKey. rewrite (isRedoKey_handle p _ a e Ha Hr).
  simpl. rewrite lastOf_snoc, slice_0_m1_snoc. reflexivity.
Qed.

(** X1. Whatever the key and whatever the state, a key press only moves
    points between the end of the point buffer and the end of the redo
    buffer: the point buffer followed by the reversed redo buffer is the
    same list before and after, and the pointer position, the drag
    session and the measured geometry are untouched.  Undo and redo never
    drop, duplicate or reorder a point. *)
Theorem key_press_keeps_the_points
    (p : Props num) (e : KeyEvent) (s : State num) :
  let s1 := pressKey p e s in
  currentPoints s1 ++ rev (redoStack s1)
  = currentPoints s ++ rev (redoStack s)
  /\ mousePos s1 = mousePos s
  /\ dragging s1 = dragging s
  /\ dragRef s1 = dragRef s
  /\ imgRect s1 = imgRect s
  /\ naturalSize s1 = naturalSize s.
Proof.
  unfold pressKey, handleKeyDown.
  destruct (truthyId (activeObjectId p)); [| repeat split; reflexivity].
  destruct s as [pts rs mp dg dr ir ns].
  cbn [currentPoints redoStack].
  destruct (ctrlKey e && shiftKey e && _)%bool.
  - destruct rs as [| r0 rs0 _] using rev_ind.
    + repeat split; reflexivity.
    + rewrite lastOf_snoc, slice_0_m1_snoc. simpl.
      rewrite rev_app_distr, <- app_assoc.
      repeat split; reflexivity.
  - destruct (ctrlKey e && negb (shiftKey e) && _)%bool;
      [| repeat split; reflexivity].
    destruct pts as [| c0 cs0 _] using rev_ind.
    + repeat split; reflexivity.
    + rewrite lastOf_snoc, slice_0_m1_snoc. simpl.
      rewrite rev_app_distr, <- app_assoc.
      repeat split; reflexivity.
Qed.

(** X2. In a drawing state, [k] undos followed by [k] redos give the
    state back exactly, as long as the point buffer holds at least [k]
    points. *)
Theorem undos_then_redos_restore
    (p : Props num) (a : string) (undo redo : KeyEvent) (k : nat)
    (s : State num) :
  truthyId (activeObjectId p) = Some a ->
  isUndoKey undo = true ->
  isRedoKey redo = true ->
  k <= List.length (currentPoints s) ->
  Nat.iter k (pressKey p redo) (Nat.iter k (pressKey p undo) s) = s.
Proof.
  intros Ha Hu Hr. revert s.
  induction k as [| k IH]; intros s Hk; [reflexivity |].
  rewrite (Nat.iter_succ_r k _ (pressKey p undo)).
  rewrite (Nat.iter_succ k _ (pressKey p redo)).
  destruct s as [pts rs mp dg dr ir ns]. simpl in Hk.
  destruct pts as [| c0 cs0 _] using rev_ind; [simpl in Hk; lia |].
  rewrite (pressKey_undo_snoc p a undo _ _ _ _ _ _ _ _ Ha Hu).
  rewrite IH by (rewrite length_app in Hk; simpl in *; lia).
  apply (pressKey_redo_snoc p a redo _ _ _ _ _ _ _ _ Ha Hr).
Qed.

(** X3. In a drawing state outside a drag, a click followed by an undo
    leaves the point buffer as it was before the click, and the redo
    buffer holds the clicked point and nothing else: what could be redone
    before the click is gone. *)
Theorem click_then_undo
    (p : Props num) (d : Dom num) (s : State num) (e : MouseEvent num)
    (a : string) (undo : KeyEvent) :
  truthyId (activeObjectId p) = Some a ->
  dragging s = false ->
  isUndoKey undo = true ->
  let s2 := pressKey p undo (after (handleSvgClick p d s e) s) in
  currentPoints s2 = currentPoints s
  /\ redoStack s2 = [ clientToSvg d s (clientX e) (clientY e) ].
Proof.
  intros Ha Hd Hu. unfold handleSvgClick. rewrite Ha, Hd.
  destruct s as [pts rs mp dg dr ir ns]. cbn [after fold_left applyLocal
    currentPoints redoStack mousePos dragging dragRef imgRect naturalSize].
  rewrite (pressKey_undo_snoc p a undo _ _ _ _ _ _ _ _ Ha Hu).
  split; reflexivity.
Qed.

End UndoRedo.

(** ** The canvas and the annotation list *)

Section Annotations.
Import BlueprintCanvas Session.
Context {num : Type} {N : Num num}.

Lemma optEqb_eq (a b : option string) : optEqb a b = true <-> a = b.
Proof.
  destruct a as [s |], b as [t |]; simpl; split; intros H;
    try discriminate; try reflexivity.
  - apply String.eqb_eq in H. congruence.
  - injection H as ->. apply String.eqb_refl.
Qed.

Lemma emitted_calls_allowed (ev : Event num) (wd : World num) :
  Forall (callAllowed wd) (emitted ev wd).
Proof.
  destruct ev as [t e | e | e | t e | | | e | d | d | ty i | u | bp | oid];
    cbn [emitted]; try constructor.
  - (* Click *)
    destruct (negb (svgRendered _ _)); [constructor |].
    destruct t as [oid |].
    + destruct (pathOf wd oid) as [obj |]; [| constructor].
      unfold pathOnClick, handleSvgClick.
      destruct (truthyId (activeObjectId (props wd)));
        destruct (dragging (canvas wd)); simpl;
        repeat constructor.
    + unfold handleSvgClick.
      destruct (truthyId (activeObjectId (props wd)));
        destruct (dragging (canvas wd)); repeat constructor.
  - (* DblClick *)
    destruct (negb (svgRendered _ _)); [constructor |].
    unfold handleSvgDoubleClick.
    destruct (truthyId (activeObjectId (props wd))) as [a |] eqn:Ha;
      [| constructor].
    destruct (_ <? 2); [repeat constructor |].
    destruct (onPathUpdate (props wd)) eqn:Hp,
             (onFinishDrawing (props wd)) eqn:Hf; simpl;
      repeat constructor; auto.
  - (* MouseMove *)
    destruct (negb (svgRendered _ _)); [constructor |].
    unfold handleSvgMouseMove, handleDragMove. apply Forall_app. split.
    + destruct (truthyId (activeObjectId (props wd))); repeat constructor.
    + destruct (dragging (canvas wd)); [| constructor].
      destruct (dragRef (canvas wd)), (imgRect (canvas wd)),
        (naturalSize (canvas wd)); try constructor.
      destruct (onPathUpdate (props wd)) eqn:Hp; repeat constructor.
      exact Hp.
  - (* MouseDown *)
    destruct (negb (svgRendered _ _)); [constructor |].
    destruct t as [oid |]; [| constructor].
    destruct (pathOf wd oid) as [obj |]; [| constructor].
    unfold pathOnMouseDown, handlePathMouseDown.
    destruct (negb (isWorker (props wd))); [| constructor].
    destruct (truthyId (activeObjectId (props wd))); [constructor |].
    simpl. repeat constructor.
  - (* MouseUp *)
    destruct (negb (svgRendered _ _)); repeat constructor.
  - (* MouseLeave *)
    destruct (negb (svgRendered _ _)); [constructor |].
    unfold svgOnMouseLeave. destruct (dragging (canvas wd));
      repeat constructor.
  - (* KeyDown *)
    unfold handleKeyDown.
    destruct (truthyId (activeObjectId (props wd))); [| constructor].
    destruct (ctrlKey e && shiftKey e && _)%bool.
    + destruct (lastOf _); repeat constructor.
    + destruct (ctrlKey e && negb (shiftKey e) && _)%bool; [| constructor].
      destruct (lastOf _); repeat constructor.
  - (* Measure *)
    destruct (truthyId (imageUrl (props wd))); [| constructor].
    unfold measureImage.
    destruct (imgEl d), (containerRect d); try constructor.
    destruct (negb (truthy _)); repeat constructor.
Qed.

Lemma external_canvas_event (ev : Event num) (wd : World num) :
  isCanvasEvent ev = true -> viewer (external ev wd) = viewer wd.
Proof.
  destruct ev; simpl; try discriminate; try reflexivity; intros _;
    destruct (truthyId _); reflexivity.
Qed.

Lemma applyPage_identity (c : Action num) (v : BlueprintViewer.State num) :
  map identityOf (BlueprintViewer.objects (applyPage c v))
  = map identityOf (BlueprintViewer.objects v).
Proof.
  destruct c; try reflexivity; simpl.
  - rewrite map_map. apply map_ext. intros o.
    destruct (String.eqb (id o) oid); reflexivity.
  - rewrite map_map. apply map_ext. intros o.
    destruct (String.eqb (id o) oid); reflexivity.
  - unfold BlueprintViewer.onObjectSelected.
    destruct (truthyId (BlueprintViewer.activeObjectId v)); reflexivity.
Qed.

(** X7. No event the canvas handles adds, removes or reorders an
    annotation, nor changes the identifier, type, assignment or completion
    of one: through the canvas only the path of an object and its being
    drawn can change. *)
Theorem canvas_keeps_annotation_identity (ev : Event num) (wd : World num) :
  isCanvasEvent ev = true ->
  map identityOf (BlueprintViewer.objects (viewer (step ev wd)))
  = map identityOf (BlueprintViewer.objects (viewer wd)).
Proof.
  intros Hev. rewrite step_viewer, (external_canvas_event ev wd Hev).
  generalize (viewer wd) as v. induction (emitted ev wd) as [| c log IH];
    intros v; simpl; [reflexivity |].
  rewrite IH. apply applyPage_identity.
Qed.

(** X8. For a worker the canvas is read-only: no event it handles changes
    the annotation list or the active annotation; only the selection can
    change. *)
Theorem worker_canvas_is_read_only (ev : Event num) (wd : World num) :
  BlueprintViewer.isWorker (viewer wd) = true ->
  isCanvasEvent ev = true ->
  BlueprintViewer.objects (viewer (step ev wd))
  = BlueprintViewer.objects (viewer wd)
  /\ BlueprintViewer.activeObjectId (viewer (step ev wd))
     = BlueprintViewer.activeObjectId (viewer wd).
Proof.
  intros Hw Hev. rewrite step_viewer, (external_canvas_event ev wd Hev).
  assert (Hadm : BlueprintViewer.isAdmin (viewer wd) = false).
  { unfold BlueprintViewer.isWorker in Hw.
    destruct (BlueprintViewer.isAdmin (viewer wd)); [discriminate | auto]. }
  pose proof (emitted_calls_allowed ev wd) as Hall.
  generalize (viewer wd) as v. induction Hall as [| c log Hc _ IH];
    intros v; simpl; [split; reflexivity |].
  destruct (IH (applyPage c v)) as [-> ->].
  destruct c; simpl in Hc |- *; try (split; reflexivity).
  - cbn in Hc. congruence.
  - cbn in Hc. destruct Hc as [Hc _]. congruence.
  - unfold BlueprintViewer.onObjectSelected.
    destruct (truthyId (BlueprintViewer.activeObjectId v)); split; reflexivity.
Qed.

(** X9. Whenever an event changes the active annotation the canvas is
    given, the canvas comes out of it with an empty point buffer, an empty
    redo buffer and no pointer position: no drawing state is carried over
    from one annotation to the next. *)
Theorem active_change_resets_drawing (ev : Event num) (wd : World num) :
  activeObjectId (props (step ev wd)) <> activeObjectId (props wd) ->
  currentPoints (canvas (step ev wd)) = []
  /\ redoStack (canvas (step ev wd)) = []
  /\ mousePos (canvas (step ev wd)) = None.
Proof.
  unfold step. set (wd1 := execAll (emitted ev wd) (external ev wd)).
  intros Hne.
  assert (Hp : props (commit (props wd) wd1) = props wd1) by reflexivity.
  rewrite Hp in Hne. unfold commit. cbn [canvas].
  destruct (optEqb (activeObjectId (props wd)) (activeObjectId (props wd1)))
    eqn:Heq.
  - apply optEqb_eq in Heq. congruence.
  - repeat split; reflexivity.
Qed.

(** Without a measurement the geometry stays unmeasured. *)
Lemma unmeasured_step (ev : Event num) (wd : World num) :
  isMeasure ev = false ->
  imgRect (canvas wd) = None -> naturalSize (canvas wd) = None ->
  imgRect (canvas (step ev wd)) = None
  /\ naturalSize (canvas (step ev wd)) = None.
Proof.
  intros Hev Hi Hn.
  assert (Hr : svgRendered (props wd) (canvas wd) = false).
  { unfold svgRendered. rewrite Hi.
    destruct (truthyId (imageUrl (props wd))); reflexivity. }
  assert (Hlog : imgRect (after (emitted ev wd) (canvas wd)) = None
                 /\ naturalSize (after (emitted ev wd) (canvas wd)) = None).
  { destruct ev; try discriminate; cbn [emitted]; rewrite ?Hr; cbn [negb];
      try (split; assumption).
    unfold handleKeyDown.
    destruct (truthyId (activeObjectId (props wd))); [| split; assumption].
    destruct (ctrlKey e && shiftKey e && _)%bool.
    - destruct (lastOf _); split; assumption.
    - destruct (ctrlKey e && negb (shiftKey e) && _)%bool;
        [| split; assumption].
      destruct (lastOf _); split; assumption. }
  unfold step. rewrite execAll_parts. unfold commit.
  cbn [canvas viewer dom]. rewrite external_canvas.
  destruct Hlog as [Hi' Hn'].
  destruct (optEqb (imageUrl (props wd)) _), (optEqb (activeObjectId (props wd)) _);
    split; first [assumption | reflexivity].
Qed.

Lemma unmeasured_run (evs : list (Event num)) (wd : World num) :
  forallb (fun e => negb (isMeasure e)) evs = true ->
  imgRect (canvas wd) = None -> naturalSize (canvas wd) = None ->
  imgRect (canvas (run evs wd)) = None
  /\ naturalSize (canvas (run evs wd)) = None.
Proof.
  revert wd. induction evs as [| ev evs IH]; intros wd Hevs Hi Hn;
    [split; assumption |].
  cbn [forallb] in Hevs. apply andb_true_iff in Hevs.
  destruct Hevs as [Hev Hevs]. apply negb_true_iff in Hev.
  destruct (unmeasured_step ev wd Hev Hi Hn) as [Hi' Hn'].
  exact (IH (step ev wd) Hevs Hi' Hn').
Qed.

Lemma unmeasured_ignores_pointer (wd : World num) :
  imgRect (canvas wd) = None ->
  svgRendered (props wd) (canvas wd) = false
  /\ (forall ev' : Event num,
         isPointerEvent ev' = true -> emitted ev' wd = []).
Proof.
  intros Hi.
  assert (Hr : svgRendered (props wd) (canvas wd) = false).
  { unfold svgRendered. rewrite Hi.
    destruct (truthyId (imageUrl (props wd))); reflexivity. }
  split; [exact Hr |].
  intros ev' Hev'. destruct ev'; try discriminate; cbn [emitted];
    rewrite Hr; reflexivity.
Qed.

(** X10. Whenever an event changes the image the canvas is given, the
    canvas comes out of it with no measured geometry, and it stays without
    one along every sequence of further events on which [measureImage]
    does not run: all that time the drawing layer is not rendered and
    every pointer event is ignored.  Only a run of [measureImage] (on the
    load of the image or from the resize observer) gives the canvas a
    geometry again. *)
Theorem image_change_invalidates_geometry (ev : Event num) (wd : World num) :
  imageUrl (props (step ev wd)) <> imageUrl (props wd) ->
  imgRect (canvas (step ev wd)) = None
  /\ naturalSize (canvas (step ev wd)) = None
  /\ svgRendered (props (step ev wd)) (canvas (step ev wd)) = false
  /\ (forall ev' : Event num,
         isPointerEvent ev' = true -> emitted ev' (step ev wd) = [])
  /\ (forall evs : list (Event num),
         forallb (fun e => negb (isMeasure e)) evs = true ->
         imgRect (canvas (run evs (step ev wd))) = None
         /\ naturalSize (canvas (run evs (step ev wd))) = None
         /\ svgRendered (props (run evs (step ev wd)))
              (canvas (run evs (step ev wd))) = false
         /\ (forall ev' : Event num,
                isPointerEvent ev' = true ->
                emitted ev' (run evs (step ev wd)) = [])).
Proof.
  intros Hne.
  assert (H : imgRect (canvas (step ev wd)) = None
              /\ naturalSize (canvas (step ev wd)) = None).
  { revert Hne. unfold step.
    set (wd1 := execAll (emitted ev wd) (external ev wd)). intros Hne.
    assert (Hp : props (commit (props wd) wd1) = props wd1) by reflexivity.
    rewrite Hp in Hne. unfold commit. cbn [canvas].
    destruct (optEqb (imageUrl (props wd)) (imageUrl (props wd1))) eqn:Heq.
    - apply optEqb_eq in Heq. congruence.
    - destruct (optEqb (activeObjectId (props wd))
                  (activeObjectId (props wd1))); split; reflexivity. }
  destruct H as [Hi Hn].
  destruct (unmeasured_ignores_pointer (step ev wd) Hi) as [Hr Hp].
  split; [exact Hi |]. split; [exact Hn |]. split; [exact Hr |].
  split; [exact Hp |].
  intros evs Hevs.
  destruct (unmeasured_run evs (step ev wd) Hevs Hi Hn) as [Hi' Hn'].
  destruct (unmeasured_ignores_pointer _ Hi') as [Hr' Hp'].
  split; [exact Hi' |]. split; [exact Hn' |]. split; [exact Hr' |].
  exact Hp'.
Qed.

End Annotations.

(** ** Finishing a drawing and ending a drag, on the page *)

Section OnThePage.
Import BlueprintCanvas Session.
Context {num : Type} {N : Num num}.

(** X11. A double click that finishes the active drawing (at least two
    points left after trimming) lands on the page as a whole: every object
    with the active identifier gets the trimmed buffer as its path and is
    no longer being drawn, the other objects are as they were, no
    annotation is active any more, and the canvas is back to an empty
    drawing state. *)
Theorem finished_drawing_lands_on_page
    (wd : World num) (e : MouseEvent num) (a : string) :
  truthyId (activeObjectId (props wd)) = Some a ->
  svgRendered (props wd) (canvas wd) = true ->
  2 <= List.length (slice_0_m1 (currentPoints (canvas wd))) ->
  let wd1 := step (DblClick e) wd in
  BlueprintViewer.objects (viewer wd1)
  = map (fun o => if String.eqb (id o) a
                  then BlueprintViewer.withDrawing false
                         (BlueprintViewer.withPathPoints
                            (slice_0_m1 (currentPoints (canvas wd))) o)
                  else o)
        (BlueprintViewer.objects (viewer wd))
  /\ BlueprintViewer.activeObjectId (viewer wd1) = None
  /\ isDrawingMode wd1 = false
  /\ currentPoints (canvas wd1) = []
  /\ redoStack (canvas wd1) = []
  /\ mousePos (canvas wd1) = None.
Proof.
  intros Ha Hrd Hlen wd1.
  assert (Hadm : BlueprintViewer.isAdmin (viewer wd) = true).
  { cbn in Ha. destruct (BlueprintViewer.isAdmin (viewer wd));
      [reflexivity | discriminate]. }
  assert (Hlog : emitted (DblClick e) wd
                 = [ callPathUpdate a (slice_0_m1 (currentPoints (canvas wd)));
                     callFinishDrawing a;
                     setCurrentPoints []; setRedoStack []; setMousePos None ]).
  { cbn [emitted]. rewrite Hrd. simpl negb. cbv iota.
    rewrite (handleSvgDoubleClick_finish _ _ a Ha Hlen).
    cbn [props BlueprintViewer.canvasProps onPathUpdate onFinishDrawing].
    rewrite Hadm. reflexivity. }
  assert (Hv : viewer wd1
               = BlueprintViewer.handleFinishDrawing a
                   (BlueprintViewer.handlePathUpdate a
                      (slice_0_m1 (currentPoints (canvas wd))) (viewer wd))).
  { subst wd1. rewrite step_viewer, Hlog. reflexivity. }
  assert (Hc : currentPoints (canvas wd1) = []
               /\ redoStack (canvas wd1) = []
               /\ mousePos (canvas wd1) = None).
  { subst wd1. unfold step. rewrite Hlog, execAll_parts. unfold commit.
    cbn [canvas external after fold_left applyLocal].
    destruct (optEqb (imageUrl (props wd)) _),
             (optEqb (activeObjectId (props wd)) _);
      repeat split; reflexivity. }
  split; [| split; [| split; [| exact Hc]]].
  - rewrite Hv. simpl. rewrite map_map. apply map_ext. intros o.
    destruct (String.eqb (id o) a) eqn:Ho; simpl; rewrite ?Ho; reflexivity.
  - rewrite Hv. reflexivity.
  - unfold isDrawingMode, props.
    cbn [BlueprintViewer.canvasProps activeObjectId]. rewrite Hv.
    cbn [BlueprintViewer.handleFinishDrawing BlueprintViewer.setActiveObjectId
         BlueprintViewer.activeObjectId].
    destruct (BlueprintViewer.isAdmin _); reflexivity.
Qed.

(** Outside a drag session a pointer move reports nothing to the page. *)
Lemma step_MouseMove_outside_drag (e : MouseEvent num) (wd : World num) :
  dragging (canvas wd) = false ->
  viewer (step (MouseMove e) wd) = viewer wd
  /\ dragging (canvas (step (MouseMove e) wd)) = false
  /\ pathUpdates (emitted (MouseMove e) wd) = [].
Proof.
  intros Hd. rewrite step_MouseMove. cbn [viewer canvas]. rewrite Hd.
  rewrite andb_false_r. split; [reflexivity |]. split.
  - destruct (svgRendered (props wd) (canvas wd)); [| exact Hd].
    destruct (truthyId (activeObjectId (props wd))); exact Hd.
  - cbn [emitted]. destruct (negb (svgRendered _ _)); [reflexivity |].
    unfold handleSvgMouseMove. rewrite Hd, app_nil_r.
    destruct (truthyId (activeObjectId (props wd))); reflexivity.
Qed.

Lemma run_MouseMove_outside_drag (moves : list (MouseEvent num))
    (wd : World num) :
  dragging (canvas wd) = false ->
  viewer (run (map MouseMove moves) wd) = viewer wd
  /\ dragging (canvas (run (map MouseMove moves) wd)) = false.
Proof.
  revert wd. induction moves as [| m moves IH]; intros wd Hd;
    [split; [reflexivity | exact Hd] |].
  change (run (map MouseMove (m :: moves)) wd)
    with (run (map MouseMove moves) (step (MouseMove m) wd)).
  destruct (step_MouseMove_outside_drag m wd Hd) as [Hv [Hd1 _]].
  destruct (IH _ Hd1) as [-> ->]. split; [exact Hv | reflexivity].
Qed.

(** X12. Releasing the mouse button on the drawing layer, or leaving it
    while dragging, ends the drag session: the canvas is no longer
    dragging and holds no snapshot, and the pointer moves that follow
    report no path and leave the page as it is. *)
Theorem drag_ends_on_release_or_leave
    (wd : World num) (ev : Event num) (moves : list (MouseEvent num))
    (e : MouseEvent num) :
  svgRendered (props wd) (canvas wd) = true ->
  ev = MouseUp \/ (ev = MouseLeave /\ dragging (canvas wd) = true) ->
  let wd1 := step ev wd in
  dragging (canvas wd1) = false
  /\ dragRef (canvas wd1) = None
  /\ viewer wd1 = viewer wd
  /\ pathUpdates (emitted (MouseMove e) (run (map MouseMove moves) wd1)) = []
  /\ viewer (run (map MouseMove (moves ++ [ e ])) wd1) = viewer wd.
Proof.
  intros Hrd Hev wd1.
  assert (H : dragging (canvas wd1) = false /\ dragRef (canvas wd1) = None
              /\ viewer wd1 = viewer wd).
  { subst wd1. destruct (step_drag ev wd) as [-> ->]. rewrite step_viewer.
    destruct Hev as [-> | [-> Hd]]; cbn [emitted external]; rewrite Hrd;
      simpl negb; cbv iota.
    - repeat split; reflexivity.
    - unfold svgOnMouseLeave. rewrite Hd. repeat split; reflexivity. }
  destruct H as [Hd [Hr Hv]].
  split; [exact Hd |]. split; [exact Hr |]. split; [exact Hv |].
  destruct (run_MouseMove_outside_drag moves wd1 Hd) as [_ Hdk].
  split.
  - apply (step_MouseMove_outside_drag e _ Hdk).
  - destruct (run_MouseMove_outside_drag (moves ++ [ e ]) wd1 Hd) as [-> _].
    exact Hv.
Qed.

End OnThePage.

(** ** The page's own operations *)

Section PageOperations.
Import BlueprintViewer.
Context {num : Type}.

Lemma setObjects_same (v : State num) : setObjects (objects v) v = v.
Proof. destruct v; reflexivity. Qed.

Lemma find_map_same {A : Type} (test : A -> bool) (f : A -> A) (l : list A) :
  (forall a, test (f a) = test a) ->
  find test (map f l) = option_map f (find test l).
Proof.
  intros Hf. induction l as [| a l IH]; simpl; [reflexivity |].
  rewrite Hf. destruct (test a); [reflexivity | exact IH].
Qed.

(** X13. Marking an object done and then marking it again gives the page
    back exactly, for an admin and for a worker alike: [toggleComplete] is
    its own inverse. *)
Theorem toggleComplete_twice (oid : string) (v : State num) :
  toggleComplete oid (toggleComplete oid v) = v.
Proof.
  unfold toggleComplete at 2.
  destruct (find (fun o => String.eqb (id o) oid) (objects v)) as [obj |]
    eqn:Hfind.
  - destruct (isWorker v && negb (sameId (assignedTo obj) (currentUid v)))%bool
      eqn:Hguard.
    + unfold toggleComplete. rewrite Hfind, Hguard. reflexivity.
    + unfold toggleComplete. cbn [objects setObjects].
      rewrite find_map_same
        by (intros o; destruct (String.eqb (id o) oid) eqn:Ho; simpl;
            rewrite ?Ho; reflexivity).
      rewrite Hfind. cbn [option_map].
      assert (Hsame : (isWorker (setObjects
                         (map (fun o => if String.eqb (id o) oid
                                        then withCompleted (negb (completed o)) o
                                        else o) (objects v)) v)
                       && negb (sameId
                                  (assignedTo (if String.eqb (id obj) oid
                                               then withCompleted
                                                      (negb (completed obj)) obj
                                               else obj))
                                  (currentUid (setObjects
                                     (map (fun o => if String.eqb (id o) oid
                                                    then withCompleted
                                                           (negb (completed o)) o
                                                    else o) (objects v)) v))))%bool
                      = false).
      { rewrite <- Hguard. destruct (String.eqb (id obj) oid); reflexivity. }
      rewrite Hsame. destruct v as [r u img objs act sel].
      unfold setObjects. cbn [objects role uid blueprintImage activeObjectId
                              selectedObjectId].
      rewrite map_map. rewrite (map_ext _ (fun o => o)).
      * rewrite map_id. reflexivity.
      * intros o. destruct (String.eqb (id o) oid) eqn:Ho;
          [| rewrite Ho; reflexivity].
        simpl. rewrite Ho. destruct o; simpl. rewrite negb_involutive.
        reflexivity.
  - unfold toggleComplete. rewrite Hfind. reflexivity.
Qed.

Lemma sameId_eq (a b : option string) : sameId a b = true <-> a = b.
Proof.
  destruct a as [s |], b as [t |]; simpl; split; intros H;
    try discriminate; try reflexivity.
  - apply String.eqb_eq in H. congruence.
  - injection H as ->. apply String.eqb_refl.
Qed.

(** X14. The guard of [toggleComplete] is the strict equality of the
    object's [assignedTo] and [currentUid], and [null === null] passes it.
    A worker's call changes the page only if the first object with that
    identifier has [assignedTo] equal to [currentUid]: the same uid, or
    both [null], so that a viewer whose profile has no uid can toggle an
    unassigned object.  When the guard passes, as it always does for an
    admin, the completion of every object with that identifier is
    flipped; when a worker's guard fails, the page stays as it is.
    Whoever calls, only the completion of objects with that identifier can
    change: paths, assignments, identifiers, types and the active and
    selected annotation stay as they are. *)
Theorem toggleComplete_scope (oid : string) (v : State num) :
  let v1 := toggleComplete oid v in
  let flipped :=
    map (fun o => if String.eqb (id o) oid
                  then withCompleted (negb (completed o)) o else o)
        (objects v) in
  (isWorker v = true -> v1 <> v ->
   exists obj,
     find (fun o => String.eqb (id o) oid) (objects v) = Some obj
     /\ ((exists u, currentUid v = Some u /\ assignedTo obj = Some u)
         \/ (currentUid v = None /\ assignedTo obj = None)))
  /\ (forall obj,
         find (fun o => String.eqb (id o) oid) (objects v) = Some obj ->
         isWorker v = false \/ assignedTo obj = currentUid v ->
         objects v1 = flipped)
  /\ (forall obj,
         find (fun o => String.eqb (id o) oid) (objects v) = Some obj ->
         isWorker v = true -> currentUid v = None -> assignedTo obj = None ->
         objects v1 = flipped)
  /\ (forall obj,
         find (fun o => String.eqb (id o) oid) (objects v) = Some obj ->
         isWorker v = true -> assignedTo obj <> currentUid v ->
         v1 = v)
  /\ map (fun o => (id o, type o, pathPoints o, assignedTo o,
                    assignedToName o, drawing o)) (objects v1)
     = map (fun o => (id o, type o, pathPoints o, assignedTo o,
                      assignedToName o, drawing o)) (objects v)
  /\ filter (fun o => negb (String.eqb (id o) oid)) (objects v1)
     = filter (fun o => negb (String.eqb (id o) oid)) (objects v)
  /\ activeObjectId v1 = activeObjectId v
  /\ selectedObjectId v1 = selectedObjectId v.
Proof.
  cbn zeta.
  assert (Hpass : forall obj,
             find (fun o => String.eqb (id o) oid) (objects v) = Some obj ->
             isWorker v = false \/ assignedTo obj = currentUid v ->
             objects (toggleComplete oid v)
             = map (fun o => if String.eqb (id o) oid
                             then withCompleted (negb (completed o)) o else o)
                   (objects v)).
  { intros obj Hf Hg. unfold toggleComplete. rewrite Hf.
    destruct Hg as [Hw | Heq].
    - rewrite Hw. reflexivity.
    - apply sameId_eq in Heq. rewrite Heq, andb_false_r. reflexivity. }
  split; [| split; [| split; [| split]]].
  - intros Hw Hne. unfold toggleComplete in Hne.
    destruct (find (fun o => String.eqb (id o) oid) (objects v)) as [obj |];
      [| contradiction].
    exists obj. split; [reflexivity |]. rewrite Hw in Hne.
    destruct (sameId (assignedTo obj) (currentUid v)) eqn:Hs;
      [| contradiction].
    apply sameId_eq in Hs. rewrite Hs.
    destruct (currentUid v) as [u |]; [left; exists u | right]; split;
      reflexivity.
  - exact Hpass.
  - intros obj Hf Hw Hu Ha. assert (Hg : assignedTo obj = currentUid v)
      by congruence.
    apply (Hpass obj Hf). right. exact Hg.
  - intros obj Hf Hw Hne. unfold toggleComplete. rewrite Hf, Hw.
    destruct (sameId (assignedTo obj) (currentUid v)) eqn:Hs;
      [| reflexivity].
    apply sameId_eq in Hs. contradiction.
  - clear Hpass. unfold toggleComplete.
    destruct (find (fun o => String.eqb (id o) oid) (objects v)) as [obj |];
      [| repeat split; reflexivity].
    destruct (isWorker v && negb (sameId (assignedTo obj) (currentUid v)))%bool;
      [repeat split; reflexivity |].
    cbn [objects setObjects activeObjectId selectedObjectId].
    split; [| split; [| split; reflexivity]].
    + rewrite map_map. apply map_ext. intros o.
      destruct (String.eqb (id o) oid); reflexivity.
    + induction (objects v) as [| o l IH]; simpl; [reflexivity |].
      destruct (String.eqb (id o) oid) eqn:Ho; simpl; rewrite Ho; simpl;
        rewrite IH; reflexivity.
Qed.

(** X15. [deleteObject] leaves no trace of the identifier: no object of
    the list has it, neither the active nor the selected annotation is it
    any more, and the objects with other identifiers are kept, in
    order. *)
Theorem deleteObject_leaves_no_reference (oid : string) (v : State num) :
  let v1 := deleteObject oid v in
  (forall o, In o (objects v1) -> id o <> oid)
  /\ activeObjectId v1 <> Some oid
  /\ selectedObjectId v1 <> Some oid
  /\ objects v1 = filter (fun o => negb (String.eqb (id o) oid)) (objects v)
  /\ (forall o, In o (objects v) -> id o <> oid -> In o (objects v1)).
Proof.
  unfold deleteObject. cbn zeta.
  assert (Hid : forall a : option string,
             idEq oid a = false -> a <> Some oid).
  { intros [a |] H; [| discriminate]. simpl in H.
    apply String.eqb_neq in H. congruence. }
  split; [| split; [| split; [| split]]].
  - intros o Hin. cbn [objects setObjects] in Hin.
    apply filter_In in Hin. destruct Hin as [_ Hne].
    apply negb_true_iff, String.eqb_neq in Hne. exact Hne.
  - destruct (idEq oid (activeObjectId v)) eqn:Ha,
             (idEq oid (selectedObjectId v)) eqn:Hs; simpl;
      try discriminate; apply Hid; exact Ha.
  - destruct (idEq oid (activeObjectId v)) eqn:Ha,
             (idEq oid (selectedObjectId v)) eqn:Hs; simpl;
      try discriminate; apply Hid; exact Hs.
  - reflexivity.
  - intros o Hin Hne. cbn [objects setObjects]. apply filter_In.
    split; [exact Hin |]. apply negb_true_iff, String.eqb_neq. exact Hne.
Qed.

End PageOperations.

(** ** Starting and cancelling a drawing *)

Section StartCancel.
Import BlueprintViewer.
Context {num : Type}.

Lemma truthyId_nonempty (i : string) : i <> EmptyString -> truthyId (Some i) = Some i.
Proof.
  intros Hi. simpl. destruct (String.eqb_spec i EmptyString); [contradiction | reflexivity].
Qed.

Lemma find_app_fresh (test : Obj num -> bool) (l : list (Obj num)) (o : Obj num) :
  (forall a, In a l -> test a = false) -> test o = true ->
  find test (l ++ [ o ]) = Some o.
Proof.
  intros Hl Ho. induction l as [| a l IH]; simpl.
  - rewrite Ho. reflexivity.
  - rewrite (Hl a (or_introl eq_refl)). apply IH.
    intros b Hb. apply Hl. right. exact Hb.
Qed.

Lemma filter_app_fresh (test : Obj num -> bool) (l : list (Obj num)) (o : Obj num) :
  (forall a, In a l -> test a = false) -> test o = true ->
  filter (fun a => negb (test a)) (l ++ [ o ]) = l.
Proof.
  intros Hl Ho. induction l as [| a l IH]; simpl.
  - rewrite Ho. reflexivity.
  - rewrite (Hl a (or_introl eq_refl)). simpl. f_equal. apply IH.
    intros b Hb. apply Hl. right. exact Hb.
Qed.

(** X16. For an admin with an image and no drawing in progress, pressing
    a draw button adds one empty object of that type at the end of the
    list and makes it the active and the selected one; pressing the same
    button again, before any point is reported, takes exactly that object
    off again and ends the drawing.  The selection still names the object
    that is gone. *)
Theorem draw_button_twice
    (ty i j u : string) (v : State num) :
  isAdmin v = true ->
  truthyId (blueprintImage v) = Some u ->
  truthyId (activeObjectId v) = None ->
  i <> EmptyString ->
  (forall o, In o (objects v) -> id o <> i) ->
  let v1 := drawButtonOnClick ty i v in
  let v2 := drawButtonOnClick ty j v1 in
  objects v1
  = objects v ++ [ {| id := i; type := ty; pathPoints := [];
                      assignedTo := None; assignedToName := None;
                      completed := false; drawing := true |} ]
  /\ activeObjectId v1 = Some i
  /\ selectedObjectId v1 = Some i
  /\ objects v2 = objects v
  /\ activeObjectId v2 = None
  /\ selectedObjectId v2 = Some i.
Proof.
  intros Hadm Himg Hidle Hi Hfresh v1 v2.
  assert (Hv1 : v1 = setSelectedObjectId (Some i)
                       (setActiveObjectId (Some i)
                          (setObjects
                             (objects v
                              ++ [ {| id := i; type := ty; pathPoints := [];
                                      assignedTo := None;
                                      assignedToName := None;
                                      completed := false; drawing := true |} ])
                             v))).
  { subst v1. unfold drawButtonOnClick, isDrawing, startDrawing.
    rewrite Hadm, Himg, Hidle. reflexivity. }
  assert (Htest : forall a, In a (objects v) -> idIs (Some i) a = false).
  { intros a Ha. simpl. apply String.eqb_neq. apply Hfresh. exact Ha. }
  assert (Hv2 : v2 = setActiveObjectId None (setObjects (objects v) v1)).
  { subst v2. rewrite Hv1. unfold drawButtonOnClick, isDrawing.
    unfold isAdmin in *. cbn [role setSelectedObjectId setActiveObjectId
      setObjects blueprintImage activeObjectId objects].
    rewrite Hadm, Himg, (truthyId_nonempty i Hi). simpl negb. cbv iota.
    rewrite (find_app_fresh (idIs (Some i)) (objects v) _ Htest)
      by (simpl; apply String.eqb_refl).
    cbn [type]. rewrite String.eqb_refl.
    unfold cancelActiveDrawing.
    cbn [setSelectedObjectId setActiveObjectId setObjects activeObjectId
         objects].
    rewrite (find_app_fresh (idIs (Some i)) (objects v) _ Htest)
      by (simpl; apply String.eqb_refl).
    cbn [pathPoints List.length Nat.eqb].
    rewrite (filter_app_fresh (idIs (Some i)) (objects v) _ Htest)
      by (simpl; apply String.eqb_refl).
    reflexivity. }
  rewrite Hv2, Hv1. repeat split; reflexivity.
Qed.

End StartCancel.

(** ** The mark of an object being drawn *)

Section DrawingMark.
Import BlueprintCanvas Session.
Context {num : Type} {N : Num num}.

Lemma marked_none (v : BlueprintViewer.State num) :
  BlueprintViewer.activeObjectId v = None ->
  (forall o, In o (BlueprintViewer.objects v) -> drawing o = false) ->
  marked v.
Proof.
  intros Ha Hno. split.
  - intros o Hin Hd. rewrite (Hno o Hin) in Hd. discriminate.
  - rewrite Ha. reflexivity.
Qed.

Lemma marked_idle (v : BlueprintViewer.State num) :
  marked v -> truthyId (BlueprintViewer.activeObjectId v) = None ->
  forall o, In o (BlueprintViewer.objects v) -> drawing o = false.
Proof.
  intros [Hm Ht] Hidle o Hin. destruct (drawing o) eqn:Hd; [| reflexivity].
  rewrite (Hm o Hin Hd) in Ht, Hidle. congruence.
Qed.

Lemma marked_cancel (v : BlueprintViewer.State num) :
  marked v ->
  BlueprintViewer.activeObjectId (BlueprintViewer.cancelActiveDrawing v) = None
  /\ forall o, In o (BlueprintViewer.objects
                       (BlueprintViewer.cancelActiveDrawing v)) ->
               drawing o = false.
Proof.
  intros [Hm Ht]. split; [reflexivity |].
  unfold BlueprintViewer.cancelActiveDrawing. cbn [BlueprintViewer.objects
    BlueprintViewer.setActiveObjectId BlueprintViewer.setObjects].
  intros o Hin.
  destruct (drawing o) eqn:Hd; [| reflexivity]. exfalso.
  destruct (find (BlueprintViewer.idIs (BlueprintViewer.activeObjectId v))
              (BlueprintViewer.objects v)) as [act |] eqn:Hfind.
  - destruct (List.length (pathPoints act) =? 0).
    + apply filter_In in Hin. destruct Hin as [Hin Hne].
      apply negb_true_iff in Hne.
      rewrite (Hm o Hin Hd) in Hne. simpl in Hne.
      rewrite String.eqb_refl in Hne. discriminate.
    + apply in_map_iff in Hin. destruct Hin as [o' [Ho' Hin']].
      destruct (BlueprintViewer.idIs (BlueprintViewer.activeObjectId v) o')
        eqn:Hid.
      * subst o. simpl in Hd. discriminate.
      * subst o'. rewrite (Hm o Hin' Hd) in Hid. simpl in Hid.
        rewrite String.eqb_refl in Hid. discriminate.
  - pose proof (find_none _ _ Hfind o Hin) as Hno.
    rewrite (Hm o Hin Hd) in Hno. simpl in Hno.
    rewrite String.eqb_refl in Hno. discriminate.
Qed.

Lemma marked_drawButton (ty newId : string) (v : BlueprintViewer.State num) :
  marked v -> newId <> EmptyString ->
  marked (BlueprintViewer.drawButtonOnClick ty newId v).
Proof.
  intros Hm Hne. unfold BlueprintViewer.drawButtonOnClick.
  destruct (negb (BlueprintViewer.isAdmin v)); [exact Hm |].
  destruct (truthyId (BlueprintViewer.blueprintImage v)) eqn:Himg;
    [| exact Hm].
  destruct (BlueprintViewer.isDrawing ty v).
  - destruct (marked_cancel v Hm) as [Ha Hno]. apply marked_none; assumption.
  - unfold BlueprintViewer.startDrawing. rewrite Himg.
    assert (Hno : forall o,
               In o (BlueprintViewer.objects
                       match truthyId (BlueprintViewer.activeObjectId v) with
                       | Some _ => BlueprintViewer.cancelActiveDrawing v
                       | None => v
                       end) -> drawing o = false).
    { destruct (truthyId (BlueprintViewer.activeObjectId v)) eqn:Ht.
      - apply (marked_cancel v Hm).
      - apply (marked_idle v Hm Ht). }
    split.
    + intros o Hin Hd. cbn in Hin |- *. apply in_app_iff in Hin.
      destruct Hin as [Hin | [<- | []]]; [| reflexivity].
      rewrite (Hno o Hin) in Hd. discriminate.
    + cbn. destruct (String.eqb_spec newId EmptyString);
        [contradiction | reflexivity].
Qed.

Lemma marked_deleteObject (oid : string) (v : BlueprintViewer.State num) :
  marked v -> marked (BlueprintViewer.deleteObject oid v).
Proof.
  intros [Hm Ht].
  assert (Hobjs : BlueprintViewer.objects (BlueprintViewer.deleteObject oid v)
                  = filter (fun o => negb (String.eqb (id o) oid))
                      (BlueprintViewer.objects v)) by reflexivity.
  assert (Hact : BlueprintViewer.activeObjectId
                   (BlueprintViewer.deleteObject oid v)
                 = if BlueprintViewer.idEq oid
                        (BlueprintViewer.activeObjectId v)
                   then None else BlueprintViewer.activeObjectId v).
  { unfold BlueprintViewer.deleteObject.
    destruct (BlueprintViewer.idEq oid (BlueprintViewer.activeObjectId v)),
      (BlueprintViewer.idEq oid (BlueprintViewer.selectedObjectId v));
      reflexivity. }
  split.
  - intros o Hin Hd. rewrite Hobjs in Hin. apply filter_In in Hin.
    destruct Hin as [Hin Hne]. rewrite Hact.
    pose proof (Hm o Hin Hd) as Ha. rewrite Ha. simpl.
    apply negb_true_iff in Hne. rewrite String.eqb_sym, Hne. reflexivity.
  - rewrite Hact.
    destruct (BlueprintViewer.idEq oid (BlueprintViewer.activeObjectId v));
      [reflexivity | exact Ht].
Qed.

Lemma marked_external (ev : Event num) (wd : World num) :
  marked (viewer wd) ->
  (forall ty newId, ev = DrawButton ty newId -> newId <> EmptyString) ->
  marked (viewer (external ev wd)).
Proof.
  intros Hm Hid.
  destruct ev as [t e | e | e | t e | | | e | d | d | ty i | u | bp | oid];
    cbn [external]; try exact Hm.
  - destruct (truthyId _); exact Hm.
  - destruct (truthyId _); exact Hm.
  - cbn [viewer setViewer]. apply marked_drawButton; [exact Hm |].
    apply (Hid ty i eq_refl).
  - destruct (BlueprintViewer.isAdmin (viewer wd)); [| exact Hm].
    destruct Hm as [Hm Ht]. split.
    + intros o Hin. cbn in Hin. contradiction.
    + exact Ht.
  - cbn [viewer setViewer]. apply marked_none; [reflexivity |].
    intros o Hin. cbn in Hin. apply in_map_iff in Hin.
    destruct Hin as [[k so] [<- _]]. reflexivity.
  - destruct (BlueprintViewer.isAdmin (viewer wd)); [| exact Hm].
    cbn [viewer setViewer]. apply marked_deleteObject. exact Hm.
Qed.

(** The callbacks of one event, for the active identifier [act] the event
    found: they keep the invariant. *)
Lemma marked_applyPageAll (log : list (Action num)) (act : option string)
    (v : BlueprintViewer.State num) :
  Forall (fun c => match c with
                   | callFinishDrawing oid => act = Some oid
                   | _ => True
                   end) log ->
  marked v ->
  BlueprintViewer.activeObjectId v = act
  \/ BlueprintViewer.activeObjectId v = None ->
  marked (fold_left (fun v' c => applyPage c v') log v).
Proof.
  intros Hall. revert v. induction Hall as [| c log Hc _ IH];
    intros v Hm Hact; simpl; [exact Hm |].
  destruct c; try (apply IH; assumption); simpl.
  - (* path update *)
    apply IH; [| exact Hact]. destruct Hm as [Hm Ht]. split; [| exact Ht].
    intros o Hin Hd. cbn in Hin |- *. apply in_map_iff in Hin.
    destruct Hin as [o' [Ho' Hin']].
    destruct (String.eqb (id o') oid); subst o; apply (Hm o' Hin' Hd).
  - (* finish *)
    apply IH; [| right; reflexivity].
    apply marked_none; [reflexivity |].
    intros o Hin. cbn in Hin. apply in_map_iff in Hin.
    destruct Hin as [o' [Ho' Hin']].
    destruct (String.eqb (id o') oid) eqn:Hid; subst o; [reflexivity |].
    destruct (drawing o') eqn:Hd; [| reflexivity].
    destruct Hm as [Hm Ht].
    pose proof (Hm o' Hin' Hd) as Ha.
    destruct Hact as [Hact | Hact]; rewrite Hact in Ha; [| discriminate].
    subst act. injection Ha as Ha. subst oid.
    rewrite String.eqb_refl in Hid. discriminate.
  - (* selection *)
    apply IH.
    + unfold BlueprintViewer.onObjectSelected.
      destruct (truthyId (BlueprintViewer.activeObjectId v)); exact Hm.
    + unfold BlueprintViewer.onObjectSelected.
      destruct (truthyId (BlueprintViewer.activeObjectId v)); exact Hact.
Qed.

Lemma marked_step (ev : Event num) (wd : World num) :
  marked (viewer wd) ->
  (forall ty newId, ev = DrawButton ty newId -> newId <> EmptyString) ->
  marked (viewer (step ev wd)).
Proof.
  intros Hm Hid. rewrite step_viewer.
  destruct (isCanvasEvent ev) eqn:Hcanvas.
  - rewrite (external_canvas_event ev wd Hcanvas).
    apply (marked_applyPageAll _ (BlueprintViewer.activeObjectId (viewer wd)));
      [| exact Hm | left; reflexivity].
    pose proof (emitted_calls_allowed ev wd) as Hall.
    eapply Forall_impl; [| exact Hall].
    intros c Hc. destruct c; try exact I.
    destruct Hc as [_ Hc]. cbn in Hc.
    destruct (BlueprintViewer.isAdmin (viewer wd)); [| discriminate].
    destruct Hm as [_ Ht]. rewrite Ht in Hc. exact Hc.
  - assert (He : emitted ev wd = []) by (destruct ev; try discriminate; reflexivity).
    rewrite He. apply marked_external; assumption.
Qed.

(** X17. Along every sequence of events in which the draw buttons are
    pressed with non-empty identifiers (as those of [makeId] are), the
    page keeps this: an object is marked as being drawn only while it is
    the active annotation, and the active identifier is never the empty
    string.  In particular no object stays marked when no annotation is
    active. *)
Theorem drawing_mark_only_on_active
    (evs : list (Event num)) (wd : World num) :
  drawingIsActive (viewer wd) ->
  truthyId (BlueprintViewer.activeObjectId (viewer wd))
  = BlueprintViewer.activeObjectId (viewer wd) ->
  drawIdsTruthy evs = true ->
  drawingIsActive (viewer (run evs wd))
  /\ truthyId (BlueprintViewer.activeObjectId (viewer (run evs wd)))
     = BlueprintViewer.activeObjectId (viewer (run evs wd))
  /\ (BlueprintViewer.activeObjectId (viewer (run evs wd)) = None ->
      forall o, In o (BlueprintViewer.objects (viewer (run evs wd))) ->
                drawing o = false).
Proof.
  intros Hd Ht Hids.
  assert (Hm : marked (viewer (run evs wd))).
  { assert (Hm0 : marked (viewer wd)) by (split; assumption).
    clear Hd Ht. revert wd Hm0.
    induction evs as [| ev evs IH]; intros wd Hm0; [exact Hm0 |].
    simpl in Hids. apply andb_prop in Hids. destruct Hids as [Hev Hrest].
    change (run (ev :: evs) wd) with (run evs (step ev wd)).
    apply (IH Hrest). apply marked_step; [exact Hm0 |].
    intros ty newId ->. apply negb_true_iff, String.eqb_neq in Hev.
    exact Hev. }
  destruct Hm as [H1 H2]. split; [exact H1 |]. split; [exact H2 |].
  intros Hnone o Hin. destruct (drawing o) eqn:Hdo; [| reflexivity].
  rewrite (H1 o Hin Hdo) in Hnone. discriminate.
Qed.

End DrawingMark.

(** ** Objects as maps *)

Section Maps.
Context {V : Type}.







End Maps.

(** ** Saving, loading and persisting *)

Section Store.
Import BlueprintViewer.
Context {num : Type}.








End Store.

(** ** Fresh identifiers *)

Section Identifiers.
Import BlueprintViewer.

Lemma string_of_uint_no_dash (d : Decimal.uint) :
  hasDash (NilEmpty.string_of_uint d) = false.
Proof. induction d; simpl; auto. Qed.

Lemma decimal_no_dash (n : N) : hasDash (decimal n) = false.
Proof. apply string_of_uint_no_dash. Qed.

Lemma decimal_inj (n n' : N) : decimal n = decimal n' -> n = n'.
Proof.
  unfold decimal. intros H. apply DecimalN.Unsigned.to_uint_inj.
  assert (Hs : Some (N.to_uint n) = Some (N.to_uint n')).
  { rewrite <- (NilEmpty.usu (N.to_uint n)), <- (NilEmpty.usu (N.to_uint n')).
    rewrite H. reflexivity. }
  injection Hs as Hs. exact Hs.
Qed.

(** Two strings without [-], each followed by [-] and a rest, are equal
    only part by part. *)
Lemma append_dash_inj (a a' b b' : string) :
  hasDash a = false -> hasDash a' = false ->
  String.append a (String.append "-" b)
  = String.append a' (String.append "-" b') ->
  a = a' /\ b = b'.
Proof.
  revert a'. induction a as [| c a IH]; intros [| c' a'] Ha Ha' H; simpl in *.
  - injection H as H. split; [reflexivity | exact H].
  - injection H as Hc _. subst c'. simpl in Ha'. discriminate.
  - injection H as Hc _. subst c. simpl in Ha. discriminate.
  - injection H as Hc H. subst c'.
    apply orb_false_iff in Ha, Ha'.
    destruct (IH a' (proj2 Ha) (proj2 Ha') H) as [-> ->].
    split; reflexivity.
Qed.

Lemma hasDash_append_dash (a b : string) :
  hasDash (String.append a (String.append "-" b)) = true.
Proof.
  induction a as [| c a IH]; simpl in *; [reflexivity |].
  rewrite IH. apply orb_true_r.
Qed.

(** An integer followed by [-] and a rest without [-] is read back in one
    way only. *)
Lemma decimalZ_dash_inj (z z' : Z) (b b' : string) :
  hasDash b = false -> hasDash b' = false ->
  String.append (decimalZ z) (String.append "-" b)
  = String.append (decimalZ z') (String.append "-" b') ->
  z = z' /\ b = b'.
Proof.
  intros Hb Hb' H. unfold decimalZ in H.
  pose proof (decimal_no_dash (Z.abs_N z)) as Hno.
  pose proof (decimal_no_dash (Z.abs_N z')) as Hno'.
  assert (Habs : decimal (Z.abs_N z) = decimal (Z.abs_N z') ->
                 Z.abs z = Z.abs z').
  { intros Hd. apply decimal_inj in Hd.
    rewrite <- !N2Z.inj_abs_N, Hd. reflexivity. }
  remember (decimal (Z.abs_N z)) as d eqn:Ed.
  remember (decimal (Z.abs_N z')) as d' eqn:Ed'.
  destruct (z <? 0)%Z eqn:Hz, (z' <? 0)%Z eqn:Hz'.
  - change (String (Ascii.ascii_of_nat 45)
              (String.append d (String.append "-" b))
            = String (Ascii.ascii_of_nat 45)
                (String.append d' (String.append "-" b'))) in H.
    injection H as H.
    destruct (append_dash_inj _ _ _ _ Hno Hno' H) as [Hd ->].
    apply Habs in Hd. apply Z.ltb_lt in Hz, Hz'. split; [lia | reflexivity].
  - exfalso. destruct d' as [| c d''].
    + change (String (Ascii.ascii_of_nat 45)
                (String.append d (String.append "-" b))
              = String (Ascii.ascii_of_nat 45) b') in H.
      injection H as H. apply (f_equal hasDash) in H. rewrite Hb' in H.
      change (hasDash (String.append d (String.append "-" b)) = false) in H.
      rewrite hasDash_append_dash in H. discriminate.
    + change (String (Ascii.ascii_of_nat 45)
                (String.append d (String.append "-" b))
              = String c (String.append d'' (String.append "-" b'))) in H.
      injection H as Hc _. subst c. cbn in Hno'. discriminate.
  - exfalso. destruct d as [| c d''].
    + change (String (Ascii.ascii_of_nat 45) b
              = String (Ascii.ascii_of_nat 45)
                  (String.append d' (String.append "-" b'))) in H.
      injection H as H. apply (f_equal hasDash) in H. rewrite Hb in H.
      change (false = hasDash (String.append d' (String.append "-" b'))) in H.
      rewrite hasDash_append_dash in H. discriminate.
    + change (String c (String.append d'' (String.append "-" b))
              = String (Ascii.ascii_of_nat 45)
                  (String.append d' (String.append "-" b'))) in H.
      injection H as Hc _. subst c. cbn in Hno. discriminate.
  - destruct (append_dash_inj _ _ _ _ Hno Hno' H) as [Hd ->].
    apply Habs in Hd. apply Z.ltb_ge in Hz, Hz'. split; [lia | reflexivity].
Qed.

Lemma makeId_inj (now now' : Z) (n n' : N) :
  fst (makeId now n) = fst (makeId now' n') -> now = now' /\ n = n'.
Proof.
  unfold makeId. cbn [fst]. intros H.
  simpl in H. injection H as H.
  destruct (decimalZ_dash_inj _ _ _ _ (decimal_no_dash n)
              (decimal_no_dash n') H) as [H1 H2].
  split; [exact H1 | apply decimal_inj; exact H2].
Qed.

Lemma increment_below (n : N) :
  (n < maxCounter)%N -> increment n = (n + 1)%N.
Proof.
  intros H. unfold increment. apply N.ltb_lt in H. rewrite H. reflexivity.
Qed.

(** Where the bound of the counter comes from: on the numbers of the
    engine, adding one is exact up to 2^53 and changes nothing there. *)
Lemma increment_binary64 :
  PrimFloat.add 9007199254740991%float 1%float = 9007199254740992%float
  /\ PrimFloat.add 9007199254740992%float 1%float = 9007199254740992%float
  /\ increment 9007199254740991 = 9007199254740992%N
  /\ increment 9007199254740992 = 9007199254740992%N.
Proof. repeat split; vm_compute; reflexivity. Qed.

Lemma makeIds_counter (clock : list Z) (n : N) (i : string) :
  (n + N.of_nat (List.length clock) <= maxCounter)%N ->
  In i (makeIds clock n) ->
  exists now n', (n <= n')%N /\ i = fst (makeId now n').
Proof.
  revert n. induction clock as [| now clock IH]; intros n Hb Hin;
    [contradiction |].
  cbn [makeIds] in Hin. cbn [List.length] in Hb.
  assert (Hn : snd (makeId now n) = (n + 1)%N).
  { unfold makeId. cbn [snd]. apply increment_below. lia. }
  destruct Hin as [<- | Hin].
  - exists now, n. split; [lia | reflexivity].
  - rewrite Hn in Hin.
    assert (Hb' : (n + 1 + N.of_nat (List.length clock) <= maxCounter)%N)
      by lia.
    destruct (IH _ Hb' Hin) as [now' [n' [Hle ->]]].
    exists now', n'. split; [lia | reflexivity].
Qed.

(** X21. While the counter stays in the range where [_nextId++] counts
    (its value plus the number of calls is at most 2^53) and the clock
    reads time values, [makeId] never gives the same identifier twice:
    the identifiers of successive calls are pairwise distinct, also within
    one millisecond, and none is the empty string.  Two identifiers are
    equal only if they carry the same clock reading and the same counter,
    and the counter goes up by one at each call below 2^53.  At 2^53 the
    counter stays where it is, and two calls within one millisecond give
    the same identifier. *)
Theorem makeId_fresh (clock : list Z) (nextId : N) :
  Forall isTimeValue clock ->
  (nextId + N.of_nat (List.length clock) <= maxCounter)%N ->
  NoDup (makeIds clock nextId)
  /\ Forall (fun i => truthyId (Some i) = Some i) (makeIds clock nextId)
  /\ (forall now now' n n',
         isTimeValue now -> isTimeValue now' ->
         (n <= maxCounter)%N -> (n' <= maxCounter)%N ->
         fst (makeId now n) = fst (makeId now' n') -> now = now' /\ n = n')
  /\ (forall now n, (n < maxCounter)%N -> snd (makeId now n) = (n + 1)%N)
  /\ (forall now,
         isTimeValue now ->
         snd (makeId now maxCounter) = maxCounter
         /\ makeIds [now; now] maxCounter
            = [ fst (makeId now maxCounter); fst (makeId now maxCounter) ]).
Proof.
  intros _ Hb. split; [| split; [| split; [| split]]].
  - revert nextId Hb. induction clock as [| now clock IH]; intros n Hb;
      cbn [makeIds]; constructor.
    + cbn [List.length] in Hb.
      assert (Hn : snd (makeId now n) = (n + 1)%N).
      { unfold makeId. cbn [snd]. apply increment_below. lia. }
      rewrite Hn. intros Hin.
      assert (Hb' : (n + 1 + N.of_nat (List.length clock) <= maxCounter)%N)
        by lia.
      destruct (makeIds_counter _ _ _ Hb' Hin) as [now' [n' [Hle Heq]]].
      apply makeId_inj in Heq. destruct Heq as [_ ->]. lia.
    + cbn [List.length] in Hb. apply IH. unfold makeId. cbn [snd].
      rewrite increment_below by lia. lia.
  - clear Hb. revert nextId. induction clock as [| now clock IH]; intros n;
      cbn [makeIds]; constructor; [reflexivity | apply IH].
  - intros now now' n n' _ _ _ _. apply makeId_inj.
  - intros now n Hn. unfold makeId. cbn [snd]. apply increment_below, Hn.
  - intros now _. split; reflexivity.
Qed.

End Identifiers.

(** ** Selecting and assigning *)

Section Selecting.
Import BlueprintCanvas Session.
Context {num : Type} {N : Num num}.

(** X22. A click on the path of an object selects the object, and does
    nothing else, when no annotation is active and no drag session is
    open.  While an annotation is being drawn the same click does not
    select: it goes on to the drawing layer and counts as a click there,
    so a point can be placed on top of an existing path. *)
Theorem click_on_path_selects_unless_drawing
    (wd : World num) (oid : string) (obj : Obj num) (e : MouseEvent num) :
  svgRendered (props wd) (canvas wd) = true ->
  pathOf wd oid = Some obj ->
  dragging (canvas wd) = false ->
  (truthyId (BlueprintViewer.activeObjectId (viewer wd)) = None ->
   step (Click (Some oid) e) wd
   = setViewer (BlueprintViewer.setSelectedObjectId (Some (id obj))
                  (viewer wd)) wd)
  /\ (isDrawingMode wd = true ->
      step (Click (Some oid) e) wd = step (Click None e) wd
      /\ BlueprintViewer.selectedObjectId (viewer (step (Click (Some oid) e) wd))
         = BlueprintViewer.selectedObjectId (viewer wd)).
Proof.
  intros Hrd Hobj Hd.
  assert (Himg : exists u, truthyId (imageUrl (props wd)) = Some u).
  { unfold svgRendered in Hrd.
    destruct (truthyId (imageUrl (props wd))) as [u |];
      [exists u; reflexivity | discriminate]. }
  destruct Himg as [u Himg].
  split.
  - intros Hidle.
    assert (Ha : truthyId (activeObjectId (props wd)) = None).
    { cbn. destruct (BlueprintViewer.isAdmin (viewer wd));
        [exact Hidle | reflexivity]. }
    unfold step. cbn [external emitted]. rewrite Hrd, Hobj.
    simpl negb. cbv iota. unfold pathOnClick. rewrite Ha, Hd.
    cbn [props BlueprintViewer.canvasProps onObjectSelected app].
    rewrite execAll_parts. cbn [fold_left applyPage after applyLocal].
    unfold BlueprintViewer.onObjectSelected. rewrite Hidle.
    unfold commit, props, setViewer.
    cbn [viewer canvas dom BlueprintViewer.canvasProps imageUrl activeObjectId].
    unfold BlueprintViewer.isAdmin.
    cbn [BlueprintViewer.setSelectedObjectId BlueprintViewer.role
         BlueprintViewer.blueprintImage BlueprintViewer.activeObjectId].
    rewrite !optEqb_refl.
    cbn [imageUrl props BlueprintViewer.canvasProps] in Himg. rewrite Himg.
    reflexivity.
  - intros Hdraw.
    assert (Ha : exists a, truthyId (activeObjectId (props wd)) = Some a).
    { unfold isDrawingMode in Hdraw.
      destruct (truthyId (activeObjectId (props wd))) as [a |];
        [exists a; reflexivity | discriminate]. }
    destruct Ha as [a Ha].
    assert (Hlog : emitted (Click (Some oid) e) wd = emitted (Click None e) wd).
    { cbn [emitted]. rewrite Hrd, Hobj. simpl negb. cbv iota.
      unfold pathOnClick. rewrite Ha. reflexivity. }
    assert (Hstep : step (Click (Some oid) e) wd = step (Click None e) wd).
    { unfold step. rewrite Hlog. reflexivity. }
    split; [exact Hstep |].
    rewrite Hstep, step_viewer. cbn [emitted external].
    rewrite Hrd. simpl negb. cbv iota. unfold handleSvgClick.
    rewrite Ha, Hd. reflexivity.
Qed.

End Selecting.

Section Assigning.
Import BlueprintViewer.
Context {num : Type}.

(** X23. [assignWorker] touches nothing but the assignment of the objects
    with the selected identifier, and the worker it assigns is one of the
    roster: identifiers, types, paths, completion and the mark of being
    drawn stay as they are, and every object of the new list is an object
    of the old list or carries the uid and name of a worker of the roster
    with the given uid.  With a uid that is not in the roster nothing
    changes. *)
Theorem assignWorker_scope
    (plumbers electricians : list Worker) (workerId : string)
    (v : State num) :
  let v1 := assignWorker plumbers electricians workerId v in
  map (fun o => (id o, type o, pathPoints o, completed o, drawing o))
      (objects v1)
  = map (fun o => (id o, type o, pathPoints o, completed o, drawing o))
        (objects v)
  /\ (forall o1, In o1 (objects v1) ->
        In o1 (objects v)
        \/ (idIs (selectedObjectId v) o1 = true
            /\ exists wk, In wk (plumbers ++ electricians)
                          /\ workerUid wk = workerId
                          /\ assignedTo o1 = Some (workerUid wk)
                          /\ assignedToName o1 = Some (workerName wk)))
  /\ ((forall wk, In wk (plumbers ++ electricians) ->
                  workerUid wk <> workerId) -> v1 = v)
  /\ activeObjectId v1 = activeObjectId v
  /\ selectedObjectId v1 = selectedObjectId v.
Proof.
  unfold assignWorker. cbn zeta.
  destruct (find (fun wk => String.eqb (workerUid wk) workerId)
              (plumbers ++ electricians)) as [worker |] eqn:Hfind.
  - apply find_some in Hfind. destruct Hfind as [Hin Huid].
    apply String.eqb_eq in Huid.
    split; [| split; [| split; [| split; reflexivity]]].
    + cbn [objects setObjects]. rewrite map_map. apply map_ext. intros o.
      destruct (idIs (selectedObjectId v) o); reflexivity.
    + intros o1 Ho1. cbn [objects setObjects] in Ho1.
      apply in_map_iff in Ho1. destruct Ho1 as [o [Ho Hino]].
      destruct (idIs (selectedObjectId v) o) eqn:Hsel.
      * right. subst o1. split.
        -- destruct (selectedObjectId v); [exact Hsel | discriminate].
        -- exists worker. repeat split; auto.
      * left. subst o1. exact Hino.
    + intros Hnone. exfalso. apply (Hnone worker Hin Huid).
  - repeat split; auto.
Qed.

End Assigning.

(** ** Further sample sessions, checked *)

Section MoreSamples.
Import BlueprintCanvas Session Scenario.
Local Open Scope string_scope.

(** X2 on the sample drawing: three undos, then three redos. *)
Lemma undos_then_redos_sample :
  truthyId (activeObjectId (props midDrawing)) = Some "obj-1"
  /\ 3 <= List.length (currentPoints (canvas midDrawing))
  /\ currentPoints
       (Nat.iter 3 (pressKey (props midDrawing) ctrlZ) (canvas midDrawing))
     = [ p0 ]
  /\ Nat.iter 3 (pressKey (props midDrawing) ctrlShiftZ)
       (Nat.iter 3 (pressKey (props midDrawing) ctrlZ) (canvas midDrawing))
     = canvas midDrawing.
Proof.
  assert (H1 : truthyId (activeObjectId (props midDrawing)) = Some "obj-1")
    by (vm_compute; reflexivity).
  assert (H2 : 3 <= List.length (currentPoints (canvas midDrawing)))
    by (vm_compute; lia).
  split; [exact H1 |]. split; [exact H2 |].
  split; [vm_compute; reflexivity |].
  exact (undos_then_redos_restore (props midDrawing) "obj-1" ctrlZ ctrlShiftZ
           3 (canvas midDrawing) H1 eq_refl eq_refl H2).
Defined.

(** X3 on the sample drawing. *)
Lemma click_then_undo_sample :
  truthyId (activeObjectId (props midDrawing)) = Some "obj-1"
  /\ dragging (canvas midDrawing) = false
  /\ currentPoints
       (pressKey (props midDrawing) ctrlZ
          (after (handleSvgClick (props midDrawing) (dom midDrawing)
                    (canvas midDrawing) (pointerAt 120 180))
             (canvas midDrawing)))
     = currentPoints (canvas midDrawing).
Proof.
  assert (H1 : truthyId (activeObjectId (props midDrawing)) = Some "obj-1")
    by (vm_compute; reflexivity).
  assert (H2 : dragging (canvas midDrawing) = false)
    by (vm_compute; reflexivity).
  split; [exact H1 |]. split; [exact H2 |].
  exact (proj1 (click_then_undo (props midDrawing) (dom midDrawing)
                  (canvas midDrawing) (pointerAt 120 180) "obj-1" ctrlZ
                  H1 H2 eq_refl)).
Defined.

(** X7 on the sample drawing: the double click that finishes the pipe. *)
Lemma canvas_keeps_annotation_identity_sample :
  isCanvasEvent (DblClick (pointerAt 220 180)) = true
  /\ map identityOf
       (BlueprintViewer.objects
          (viewer (step (DblClick (pointerAt 220 180)) midDrawing)))
     = map identityOf (BlueprintViewer.objects (viewer midDrawing)).
Proof.
  split; [reflexivity |].
  exact (canvas_keeps_annotation_identity (DblClick (pointerAt 220 180))
           midDrawing eq_refl).
Defined.

(** X8 on the worker's page: a click on the path. *)
Lemma worker_canvas_is_read_only_sample :
  BlueprintViewer.isWorker (viewer planOpened) = true
  /\ BlueprintViewer.objects
       (viewer (step (Click (Some "obj-1") (pointerAt 230 100)) planOpened))
     = BlueprintViewer.objects (viewer planOpened)
  /\ BlueprintViewer.selectedObjectId
       (viewer (step (Click (Some "obj-1") (pointerAt 230 100)) planOpened))
     = Some "obj-1".
Proof.
  assert (H1 : BlueprintViewer.isWorker (viewer planOpened) = true)
    by (vm_compute; reflexivity).
  split; [exact H1 |]. split; [| vm_compute; reflexivity].
  exact (proj1 (worker_canvas_is_read_only
                  (Click (Some "obj-1") (pointerAt 230 100)) planOpened
                  H1 eq_refl)).
Defined.

(** X9 on the sample drawing: the finishing double click changes the
    active annotation. *)
Lemma active_change_resets_drawing_sample :
  activeObjectId (props (step (DblClick (pointerAt 220 180)) midDrawing))
  <> activeObjectId (props midDrawing)
  /\ currentPoints (canvas (step (DblClick (pointerAt 220 180)) midDrawing))
     = [].
Proof.
  assert (H1 : activeObjectId
                 (props (step (DblClick (pointerAt 220 180)) midDrawing))
               <> activeObjectId (props midDrawing))
    by (vm_compute; discriminate).
  split; [exact H1 |].
  exact (proj1 (active_change_resets_drawing (DblClick (pointerAt 220 180))
                  midDrawing H1)).
Defined.

(** X10 on the finished pipe: another image is uploaded; a draw button,
    pointer moves, a key and a new layout follow, and a click is still
    ignored. *)
Lemma image_change_invalidates_geometry_sample :
  let later := [ DrawButton "pipe" "obj-2"; MouseMove (pointerAt 150 90);
                 KeyDown ctrlZ; Relayout layout;
                 MouseDown (Some "obj-1") (pointerAt 200 80) ] in
  imageUrl (props (step (ImageUploaded "other.png") pipeDrawn))
  <> imageUrl (props pipeDrawn)
  /\ imgRect (canvas pipeDrawn) <> None
  /\ imgRect (canvas (step (ImageUploaded "other.png") pipeDrawn)) = None
  /\ emitted (Click None (pointerAt 120 80))
       (step (ImageUploaded "other.png") pipeDrawn) = []
  /\ forallb (fun e => negb (isMeasure e)) later = true
  /\ imgRect (canvas (run later (step (ImageUploaded "other.png") pipeDrawn)))
     = None
  /\ emitted (Click None (pointerAt 120 80))
       (run later (step (ImageUploaded "other.png") pipeDrawn)) = [].
Proof.
  cbn zeta.
  assert (H1 : imageUrl (props (step (ImageUploaded "other.png") pipeDrawn))
               <> imageUrl (props pipeDrawn))
    by (vm_compute; discriminate).
  pose proof (image_change_invalidates_geometry (ImageUploaded "other.png")
                pipeDrawn H1) as H.
  destruct H as [Hi [_ [_ [Hp Hlater]]]].
  split; [exact H1 |]. split; [vm_compute; discriminate |].
  split; [exact Hi |].
  split; [exact (Hp (Click None (pointerAt 120 80)) eq_refl) |].
  split; [reflexivity |].
  destruct (Hlater [ DrawButton "pipe" "obj-2"; MouseMove (pointerAt 150 90);
                     KeyDown ctrlZ; Relayout layout;
                     MouseDown (Some "obj-1") (pointerAt 200 80) ] eq_refl)
    as [Hi' [_ [_ Hp']]].
  split; [exact Hi' |].
  exact (Hp' (Click None (pointerAt 120 80)) eq_refl).
Defined.

(** X11 on the sample drawing. *)
Lemma finished_drawing_lands_on_page_sample :
  truthyId (activeObjectId (props midDrawing)) = Some "obj-1"
  /\ svgRendered (props midDrawing) (canvas midDrawing) = true
  /\ 2 <= List.length (slice_0_m1 (currentPoints (canvas midDrawing)))
  /\ BlueprintViewer.activeObjectId
       (viewer (step (DblClick (pointerAt 220 180)) midDrawing)) = None
  /\ BlueprintViewer.objects
       (viewer (step (DblClick (pointerAt 220 180)) midDrawing)) = [ pipe ].
Proof.
  assert (H1 : truthyId (activeObjectId (props midDrawing)) = Some "obj-1")
    by (vm_compute; reflexivity).
  assert (H2 : svgRendered (props midDrawing) (canvas midDrawing) = true)
    by (vm_compute; reflexivity).
  assert (H3 : 2 <= List.length (slice_0_m1 (currentPoints (canvas midDrawing))))
    by (vm_compute; lia).
  pose proof (finished_drawing_lands_on_page midDrawing (pointerAt 220 180)
                "obj-1" H1 H2 H3) as H.
  split; [exact H1 |]. split; [exact H2 |]. split; [exact H3 |].
  split; [exact (proj1 (proj2 H)) |].
  vm_compute. reflexivity.
Defined.

(** X12 on the pressed pipe: the button is released, then the pointer
    moves on. *)
Lemma drag_ends_on_release_sample :
  svgRendered (props draggingPipe) (canvas draggingPipe) = true
  /\ dragging (canvas draggingPipe) = true
  /\ dragging (canvas (step MouseUp draggingPipe)) = false
  /\ viewer (run (map MouseMove ([ pointerAt 210 90 ] ++ [ pointerAt 230 100 ]))
               (step MouseUp draggingPipe))
     = viewer draggingPipe.
Proof.
  assert (H1 : svgRendered (props draggingPipe) (canvas draggingPipe) = true)
    by (vm_compute; reflexivity).
  pose proof (drag_ends_on_release_or_leave draggingPipe MouseUp
                [ pointerAt 210 90 ] (pointerAt 230 100) H1
                (or_introl eq_refl)) as H.
  split; [exact H1 |]. split; [vm_compute; reflexivity |].
  split; [exact (proj1 H) |].
  exact (proj2 (proj2 (proj2 (proj2 H)))).
Defined.

(** X16 on the admin's page with the image ready. *)
Lemma draw_button_twice_sample :
  BlueprintViewer.isAdmin (viewer imageReady) = true
  /\ BlueprintViewer.objects
       (BlueprintViewer.drawButtonOnClick "pipe" "obj-2"
          (BlueprintViewer.drawButtonOnClick "pipe" "obj-1"
             (viewer imageReady)))
     = BlueprintViewer.objects (viewer imageReady)
  /\ BlueprintViewer.activeObjectId
       (BlueprintViewer.drawButtonOnClick "pipe" "obj-2"
          (BlueprintViewer.drawButtonOnClick "pipe" "obj-1"
             (viewer imageReady)))
     = None.
Proof.
  assert (H1 : BlueprintViewer.isAdmin (viewer imageReady) = true)
    by (vm_compute; reflexivity).
  assert (H2 : truthyId (BlueprintViewer.blueprintImage (viewer imageReady))
               = Some "plan.png") by (vm_compute; reflexivity).
  assert (H3 : truthyId (BlueprintViewer.activeObjectId (viewer imageReady))
               = None) by (vm_compute; reflexivity).
  assert (H4 : "obj-1" <> "") by discriminate.
  assert (H5 : forall o, In o (BlueprintViewer.objects (viewer imageReady)) ->
                         id o <> "obj-1").
  { intros o Hin. vm_compute in Hin. contradiction. }
  pose proof (draw_button_twice "pipe" "obj-1" "obj-2" "plan.png"
                (viewer imageReady) H1 H2 H3 H4 H5) as H.
  split; [exact H1 |].
  split; [exact (proj1 (proj2 (proj2 (proj2 H)))) |].
  exact (proj1 (proj2 (proj2 (proj2 (proj2 H))))).
Defined.

(** X17 on the session in which a draw button is pressed during a drag:
    the first pipe is finished and unmarked, the second is the active
    one. *)
Lemma drawing_mark_sample :
  drawIdsTruthy drawDuringDrag = true
  /\ BlueprintViewer.activeObjectId (viewer (run drawDuringDrag adminPage))
     = Some "obj-2"
  /\ drawingIsActive (viewer (run drawDuringDrag adminPage)).
Proof.
  assert (H0 : drawingIsActive (viewer adminPage)).
  { intros o Hin. vm_compute in Hin. contradiction. }
  assert (H1 : drawIdsTruthy drawDuringDrag = true)
    by (vm_compute; reflexivity).
  split; [exact H1 |]. split; [vm_compute; reflexivity |].
  exact (proj1 (drawing_mark_only_on_active drawDuringDrag adminPage
                  H0 eq_refl H1)).
Defined.


(** X22 on the finished pipe: a click on its path selects it. *)
Lemma click_on_path_sample :
  svgRendered (props pipeDrawn) (canvas pipeDrawn) = true
  /\ pathOf pipeDrawn "obj-1" = Some pipe
  /\ dragging (canvas pipeDrawn) = false
  /\ step (Click (Some "obj-1") (pointerAt 230 100)) pipeDrawn
     = setViewer (BlueprintViewer.setSelectedObjectId (Some "obj-1")
                    (viewer pipeDrawn)) pipeDrawn.
Proof.
  assert (H1 : svgRendered (props pipeDrawn) (canvas pipeDrawn) = true)
    by (vm_compute; reflexivity).
  assert (H2 : pathOf pipeDrawn "obj-1" = Some pipe)
    by (vm_compute; reflexivity).
  assert (H3 : dragging (canvas pipeDrawn) = false)
    by (vm_compute; reflexivity).
  assert (H4 : truthyId (BlueprintViewer.activeObjectId (viewer pipeDrawn))
               = None) by (vm_compute; reflexivity).
  split; [exact H1 |]. split; [exact H2 |]. split; [exact H3 |].
  exact (proj1 (click_on_path_selects_unless_drawing pipeDrawn "obj-1" pipe
                  (pointerAt 230 100) H1 H2 H3) H4).
Defined.

(** X14 on a page viewed without a profile: the viewer counts as a worker
    and has no uid; the unassigned pipe is toggled, the pipe assigned to
    u2 is not. *)
Lemma toggleComplete_scope_sample :
  BlueprintViewer.isWorker anonymousPage = true
  /\ BlueprintViewer.currentUid anonymousPage = None
  /\ find (fun o => String.eqb (id o) "obj-1")
       (BlueprintViewer.objects anonymousPage) = Some unassignedPipe
  /\ find (fun o => String.eqb (id o) "obj-2")
       (BlueprintViewer.objects anonymousPage) = Some assignedPipe
  /\ map (@completed float)
       (BlueprintViewer.objects
          (BlueprintViewer.toggleComplete "obj-1" anonymousPage))
     = [ true; false ]
  /\ BlueprintViewer.toggleComplete "obj-2" anonymousPage = anonymousPage.
Proof.
  assert (Hw : BlueprintViewer.isWorker anonymousPage = true)
    by (vm_compute; reflexivity).
  assert (Hu : BlueprintViewer.currentUid anonymousPage = None)
    by (vm_compute; reflexivity).
  assert (H1 : find (fun o => String.eqb (id o) "obj-1")
                 (BlueprintViewer.objects anonymousPage) = Some unassignedPipe)
    by (vm_compute; reflexivity).
  assert (H2 : find (fun o => String.eqb (id o) "obj-2")
                 (BlueprintViewer.objects anonymousPage) = Some assignedPipe)
    by (vm_compute; reflexivity).
  assert (Hne : assignedTo assignedPipe
                <> BlueprintViewer.currentUid anonymousPage)
    by (vm_compute; discriminate).
  split; [exact Hw |]. split; [exact Hu |]. split; [exact H1 |].
  split; [exact H2 |]. split.
  - destruct (toggleComplete_scope "obj-1" anonymousPage)
      as [_ [_ [Hnull _]]].
    rewrite (Hnull unassignedPipe H1 Hw Hu eq_refl). vm_compute. reflexivity.
  - destruct (toggleComplete_scope "obj-2" anonymousPage)
      as [_ [_ [_ [Hfail _]]]].
    exact (Hfail assignedPipe H2 Hw Hne).
Defined.

(** X21 on three calls, two of them within one millisecond, from the
    counter's first value. *)
Lemma makeId_fresh_sample :
  Forall BlueprintViewer.isTimeValue [ 1000; 1000; 1001 ]%Z
  /\ (1 + N.of_nat (List.length [ 1000; 1000; 1001 ]%Z)
      <= BlueprintViewer.maxCounter)%N
  /\ BlueprintViewer.makeIds [ 1000; 1000; 1001 ]%Z 1
     = [ "obj-1000-1"; "obj-1000-2"; "obj-1001-3" ]
  /\ NoDup (BlueprintViewer.makeIds [ 1000; 1000; 1001 ]%Z 1).
Proof.
  assert (Ht : Forall BlueprintViewer.isTimeValue [ 1000; 1000; 1001 ]%Z).
  { repeat constructor; unfold BlueprintViewer.isTimeValue; lia. }
  assert (Hb : (1 + N.of_nat (List.length [ 1000; 1000; 1001 ]%Z)
                <= BlueprintViewer.maxCounter)%N).
  { vm_compute. discriminate. }
  split; [exact Ht |]. split; [exact Hb |].
  split; [vm_compute; reflexivity |].
  exact (proj1 (makeId_fresh [ 1000; 1000; 1001 ]%Z 1 Ht Hb)).
Defined.

End MoreSamples.
